(** * Account multicall construction of the Starknet Hardhat plugin

    A shallow embedding of [src/account.ts]: the abstract class [Account],
    its two implementations [OpenZeppelinAccount] and [ArgentAccount], and
    the path every interaction takes through [multiInteract] and
    [handleMultiInteract].

    JavaScript objects that are mutated in place (the options object) live
    in a store of objects addressed by references.  Calls that leave the
    class (the ABI adapter of a contract, reads of the chain, the hash and
    signature library, the final contract interaction) are recorded, in the
    order in which the code makes them, in a trace. *)

From Stdlib Require Import ZArith String Ascii List Lia HexadecimalString.
From stdpp Require Import base gmap strings list pretty.

Local Open Scope Z_scope.
Local Open Scope string_scope.
Local Open Scope list_scope.

(** ** JavaScript values met by the class *)

Module Js.

(** What a thrown exception carries.  [HardhatPluginError] is raised by
    the class itself, [TypeError] and [SyntaxError] by the language, and
    [External] by a collaborator (ABI adapter, network, artifacts). *)
Inductive Error :=
| HardhatPluginError (pluginName msg : string)
| TypeError (msg : string)
| SyntaxError (msg : string)
| External (msg : string).

(** The outcome of a computation that may throw. *)
Inductive Result (A : Type) :=
| Ok (a : A)
| Err (e : Error).
Arguments Ok {A} a.
Arguments Err {A} e.

Global Instance Result_ret : MRet Result := @Ok.
Global Instance Result_bind : MBind Result :=
  fun A B k r => match r with Ok a => k a | Err e => Err e end.

Definition is_ok {A} (r : Result A) : bool :=
  match r with Ok _ => true | Err _ => false end.

(** A value where the class expects a [Numeric] ([number | bigint]).
    Numbers are integer valued here, as nonces, fees and versions are:
    [JNumber n] is the Number that the integer [n] denotes, which is [n]
    itself up to [2 ^ 53] and the nearest Number beyond ([double_of]
    below); [n] is to lie in the range of the finite Numbers.
    [JNumeral n] is the string made of the decimal digits of [n], which
    is what a bigint has become once an object went through JSON. *)
Inductive Numeric :=
| JNumber (n : Z)
| JBigInt (n : Z)
| JNumeral (n : Z).

(** [ToBoolean]: the number [0], the bigint [0n] and the empty string
    are falsy; a numeral always has a digit. *)
Definition truthy (v : Numeric) : bool :=
  match v with
  | JNumber n => negb (Z.eqb n 0)
  | JBigInt n => negb (Z.eqb n 0)
  | JNumeral _ => true
  end.

(** [a || b] on a possibly undefined first operand. *)
Definition or_else (a : option Numeric) (b : option Numeric) : option Numeric :=
  match a with
  | Some v => if truthy v then Some v else b
  | None => b
  end.

(** The Number nearest to an integer.  Every integer below [2 ^ 53] is a
    Number; beyond, a Number has 53 significant bits, and an integer with
    more is rounded to the nearest one, to the even one of two that are as
    near. *)
Definition double_of (m : Z) : Z :=
  let a := Z.abs m in
  if (a <? 2 ^ 53)%Z then m
  else
    let e := Z.log2 a - 52 in
    let q := Z.shiftr a e in
    let r := a - Z.shiftl q e in
    let half := Z.shiftl 1 (e - 1) in
    let q' := if (r <? half)%Z then q
              else if (half <? r)%Z then q + 1
              else if Z.even q then q else q + 1 in
    Z.sgn m * Z.shiftl q' e.

(** [BigInt(v)]: the exact value of a number, a bigint itself, the
    integer a numeral stands for. *)
Definition BigInt (v : Numeric) : Z :=
  match v with
  | JNumber n => double_of n
  | JBigInt n | JNumeral n => n
  end.

(** Digits of a natural number in hexadecimal, lower case. *)
Definition hex_digits (n : N) : string :=
  HexadecimalString.NilZero.string_of_uint (N.to_hex_uint n).

(** [v.toString(16)] for an integer. *)
Definition toString16 (n : Z) : string :=
  match n with
  | Z0 => "0"
  | Zpos p => hex_digits (Npos p)
  | Zneg p => "-" +:+ hex_digits (Npos p)
  end.

(** *** [Number.prototype.toString]

    A Number [x] is printed with as few significant digits as tell it from
    every other Number: the digits of the least [k]-digit [s] such that
    [s * 10 ^ (n - k)] reads back as [x] (the nearest to [x] of two such
    [s], then the even one).  Up to [n = 21] they are followed by [n - k]
    zeros; beyond, the exponent is written. *)

(** The number of decimal digits of a positive integer. *)
Definition decimal_length (a : Z) : Z := Z.of_nat (String.length (pretty a)).

Definition reads_as (x v : Z) : option Z :=
  if (double_of v =? x)%Z then Some v else None.

(** The value [s * 10 ^ (n - k)] for [k] digits, if there is one. *)
Definition shortest_at (x k : Z) : option Z :=
  let unit_ := 10 ^ (decimal_length x - k) in
  let lo := x / unit_ in
  match reads_as x (lo * unit_), reads_as x ((lo + 1) * unit_) with
  | Some a, Some b =>
      if (x - a <? b - x)%Z then Some a
      else if (b - x <? x - a)%Z then Some b
      else if Z.even lo then Some a else Some b
  | Some a, None => Some a
  | None, b => b
  end.

Fixpoint shortest_from (fuel : nat) (x k : Z) : Z :=
  match fuel with
  | O => x
  | S fuel' =>
      match shortest_at x k with
      | Some v => v
      | None => shortest_from fuel' x (k + 1)
      end
  end.

(** Seventeen digits tell any two Numbers apart. *)
Definition shortest (x : Z) : Z := shortest_from 17 x 1.

Fixpoint strip_zeros (s : string) : string :=
  match s with
  | EmptyString => EmptyString
  | String c r =>
      match strip_zeros r with
      | EmptyString => if Ascii.eqb c "0" then EmptyString else String c EmptyString
      | r' => String c r'
      end
  end.

(** [d.ddde+x], and [de+x] for a single digit. *)
Definition exponent_form (v : Z) : string :=
  let e := pretty (decimal_length v - 1) in
  match strip_zeros (pretty v) with
  | String c EmptyString => String c EmptyString +:+ "e+" +:+ e
  | String c r => String c EmptyString +:+ "." +:+ r +:+ "e+" +:+ e
  | EmptyString => "0"
  end.

Definition Number_toString (n : Z) : string :=
  let x := double_of n in
  if (Z.abs x <? 2 ^ 53)%Z then pretty x
  else
    let v := shortest (Z.abs x) in
    let body := if (v <? 10 ^ 21)%Z then pretty v else exponent_form v in
    if (x <? 0)%Z then "-" +:+ body else body.

(** [v.toString()]: a bigint is printed with all its decimal digits, and a
    string is itself. *)
Definition toString (v : Numeric) : string :=
  match v with
  | JNumber n => Number_toString n
  | JBigInt n | JNumeral n => pretty n
  end.

Definition digit_value (c : ascii) : option Z :=
  let n := Z.of_N (N_of_ascii c) in
  if ((48 <=? n) && (n <=? 57))%Z then Some (n - 48)
  else if ((97 <=? n) && (n <=? 102))%Z then Some (n - 87)
  else if ((65 <=? n) && (n <=? 70))%Z then Some (n - 55)
  else None.

Fixpoint parse_digits (radix : Z) (s : string) (acc : Z) : option Z :=
  match s with
  | EmptyString => Some acc
  | String c r =>
      match digit_value c with
      | Some d => if (d <? radix)%Z then parse_digits radix r (acc * radix + d) else None
      | None => None
      end
  end.

Definition parse_number (radix : Z) (s : string) : option Z :=
  match s with
  | EmptyString => None
  | _ => parse_digits radix s 0
  end.

(** The rest of [s] after a white space or line terminator at its head.
    Strings are sequences of bytes, UTF-8 for what is not ASCII: besides
    TAB, LF, VT, FF, CR and the space, the language counts U+00A0, U+1680,
    U+2000 to U+200A, U+2028, U+2029, U+202F, U+205F, U+3000 and U+FEFF. *)
Definition after_space (s : string) : option string :=
  match s with
  | EmptyString => None
  | String c1 r1 =>
      let b1 := N_of_ascii c1 in
      if (((9 <=? b1) && (b1 <=? 13)) || (b1 =? 32))%N then Some r1
      else
        match r1 with
        | EmptyString => None
        | String c2 r2 =>
            let b2 := N_of_ascii c2 in
            if ((b1 =? 194) && (b2 =? 160))%N then Some r2
            else
              match r2 with
              | EmptyString => None
              | String c3 r3 =>
                  let b3 := N_of_ascii c3 in
                  if (((b1 =? 225) && (b2 =? 154) && (b3 =? 128))
                      || ((b1 =? 226) && (b2 =? 128)
                          && (((128 <=? b3) && (b3 <=? 138))
                              || (b3 =? 168) || (b3 =? 169) || (b3 =? 175)))
                      || ((b1 =? 226) && (b2 =? 129) && (b3 =? 159))
                      || ((b1 =? 227) && (b2 =? 128) && (b3 =? 128))
                      || ((b1 =? 239) && (b2 =? 187) && (b3 =? 191)))%N
                  then Some r3
                  else None
              end
        end
  end.

Fixpoint trim_left_from (fuel : nat) (s : string) : string :=
  match fuel with
  | O => s
  | S fuel' =>
      match after_space s with
      | Some r => trim_left_from fuel' r
      | None => s
      end
  end.

Definition trim_left (s : string) : string := trim_left_from (String.length s) s.

(** Nothing but white space and line terminators. *)
Definition blank (s : string) : bool :=
  match trim_left s with
  | EmptyString => true
  | _ => false
  end.

Fixpoint trim_right (s : string) : string :=
  match s with
  | EmptyString => EmptyString
  | String c r => if blank s then EmptyString else String c (trim_right r)
  end.

(** [BigInt(s)] on a string: white space and line terminators around are
    dropped, the empty string is zero, a [0x], [0o] or [0b] prefix selects the radix, and a decimal
    numeral may carry a sign.  Anything else is a [SyntaxError]. *)
Definition BigInt_of_string (s : string) : Result Z :=
  let t := trim_right (trim_left s) in
  let parsed :=
    match t with
    | EmptyString => Some 0
    | String "0" (String "x" r) | String "0" (String "X" r) => parse_number 16 r
    | String "0" (String "o" r) | String "0" (String "O" r) => parse_number 8 r
    | String "0" (String "b" r) | String "0" (String "B" r) => parse_number 2 r
    | String "-" r => Z.opp <$> parse_number 10 r
    | String "+" r => parse_number 10 r
    | _ => parse_number 10 t
    end in
  match parsed with
  | Some n => Ok n
  | None => Err (SyntaxError ("Cannot convert " +:+ s +:+ " to a BigInt"))
  end.

(** [Buffer.from(s).toString("hex")] read as a number: the bytes of [s],
    most significant first. *)
Definition bytes_value (s : string) : Z :=
  fold_left (fun acc c => acc * 256 + Z.of_N (N_of_ascii c)) (list_ascii_of_string s) 0.

(** [l.join(sep)]. *)
Fixpoint join (sep : string) (l : list string) : string :=
  match l with
  | [] => ""
  | [x] => x
  | x :: r => x +:+ sep +:+ join sep r
  end.

End Js.

Import Js.

(** ** Data of the class *)

(** A value inside a [StringMap] of named arguments or named results. *)
Inductive Value :=
| VBigInt (n : Z)
| VText (s : string)
| VArr (l : list string).

Definition StringMap := list (string * Value).

(** [BigNumberish] of starknet.js: what the hash functions take. *)
Inductive BigNumberish :=
| BNumber (n : Z)
| BString (s : string)
| BN (n : Z).

(** [Call] of starknet.js. *)
Record Call := {
  contractAddress : string;
  entrypoint : string;
  calldata : list string
}.

(** [ExecuteCallParameters]: one descriptor of the execution entrypoint. *)
Record ExecuteCallParameters := {
  to : Z;
  selector : Z;
  data_offset : nat;
  data_len : nat
}.

(** The [args] object handed to the execution entrypoint. *)
Record ExecuteArgs := {
  call_array : list ExecuteCallParameters;
  args_calldata : list string;
  args_nonce : string
}.

(** [InteractOptions].  Only the four fields below are read or written by
    the class; whatever else the caller put in the object ([wallet],
    [blockNumber], ...) is carried along in [opt_other]. *)
Record Options := {
  opt_maxFee : option Numeric;
  opt_nonce : option Numeric;
  opt_signature : option (list Numeric);
  opt_rawOutput : option bool;
  opt_other : list (string * string)
}.

(** The object literal [{}]. *)
Definition empty_options : Options :=
  {| opt_maxFee := None; opt_nonce := None; opt_signature := None;
     opt_rawOutput := None; opt_other := [] |}.

Definition set_maxFee (v : option Numeric) (o : Options) : Options :=
  {| opt_maxFee := v; opt_nonce := opt_nonce o; opt_signature := opt_signature o;
     opt_rawOutput := opt_rawOutput o; opt_other := opt_other o |}.

Definition set_nonce (v : option Numeric) (o : Options) : Options :=
  {| opt_maxFee := opt_maxFee o; opt_nonce := v; opt_signature := opt_signature o;
     opt_rawOutput := opt_rawOutput o; opt_other := opt_other o |}.

Definition set_signature (v : option (list Numeric)) (o : Options) : Options :=
  {| opt_maxFee := opt_maxFee o; opt_nonce := opt_nonce o; opt_signature := v;
     opt_rawOutput := opt_rawOutput o; opt_other := opt_other o |}.

Definition set_rawOutput (v : option bool) (o : Options) : Options :=
  {| opt_maxFee := opt_maxFee o; opt_nonce := opt_nonce o; opt_signature := opt_signature o;
     opt_rawOutput := v; opt_other := opt_other o |}.

(** Which method of the contract object an interaction goes through:
    the [internalCommand] of an [InteractChoice]. *)
Inductive InternalCommand := cmd_invoke | cmd_call | cmd_estimateFee.

(** [InteractChoice] (declared in types.ts): the two members used here. *)
Record InteractChoice := {
  internalCommand : InternalCommand;
  transactionVersion : Numeric
}.

(** What a contract interaction resolves to: the named arrays of a call,
    the transaction hash of an invoke, or a fee estimation. *)
Inductive Response :=
| RespCall (fields : list (string * list string))
| RespInvoke (txHash : string)
| RespFee (amount : Z) (unit_ : string).

(** [StarknetContract], as far as the class uses it.  [view] is
    [call(functionName)] without arguments, whose result is the decoded
    named felts; [interactor] is [contract[internalCommand]] applied to the
    execution entrypoint. *)
Record StarknetContract := {
  address : string;
  adaptInput : string -> option StringMap -> Result (list string);
  adaptOutput : string -> string -> Result StringMap;
  view : string -> Result (list (string * Z));
  interactor : InternalCommand -> string -> ExecuteArgs -> Options -> Result Response
}.

(** [CallParameters] (declared in account-utils.ts). *)
Record CallParameters := {
  toContract : StarknetContract;
  functionName : string;
  cp_calldata : option StringMap
}.

(** The part of the Hardhat runtime environment that the class reads:
    the chain id of the configured network and the contract factory. *)
Record StarknetContractFactory := {
  getContractAt : string -> Result StarknetContract
}.

Record HardhatRuntimeEnvironment := {
  starknetChainId : string;
  getContractFactory : string -> Result StarknetContractFactory
}.

(** ** Collaborators outside the class *)

(** starknet.js ([hash], [ellipticCurve], [number]) and elliptic.  The
    functions of the library are taken on arguments they accept, where
    they return: what they do with an argument they refuse (a numeral that
    is none, a hash out of range) is not part of the model. *)
Class StarknetLib := {
  KeyPair : Type;
  starknetKeccak : string -> Z;
  getSelectorFromName : string -> string;
  computeHashOnElements : list BigNumberish -> string;
  hashMulticall : string -> list Call -> string -> string -> string -> string;
  toBN : string -> Z;
  getKeyPair : Z -> KeyPair;
  getStarkKey : KeyPair -> string;
  sign : KeyPair -> string -> Z * Z
}.

(** Constants and helpers of the plugin that are declared in constants.ts,
    types.ts and account-utils.ts, of which only the uses are at hand. *)
Class Plugin := {
  PLUGIN_NAME : string;
  TransactionHashPrefix_INVOKE : BigNumberish;
  INVOKE : InteractChoice;
  CALL : InteractChoice;
  ESTIMATE_FEE : InteractChoice;
  handleAccountContractArtifacts :
    string -> string -> string -> HardhatRuntimeEnvironment -> Result string;
  parseMulticallOutput : list string -> list CallParameters -> Result (list StringMap)
}.

(** ** The world: object store and trace *)

Definition ref := positive.

(** What the trace records.  A call that leaves the class is recorded when
    it is made: the resolution of the contract artifacts, a read of the
    chain ([contract.call(fn)]), the ABI adapter of a callee, the signer
    (with the hash it is given) and the final contract interaction.  The
    message hash is recorded once it is computed. *)
Inductive Event :=
| EvArtifacts (accountType : string)
| EvView (addr fn : string)
| EvAdaptInput (addr fn : string)
| EvMessageHash (messageHash : string)
| EvSign (messageHash : string)
| EvDispatch (cmd : InternalCommand) (addr fn : string) (args : ExecuteArgs) (opts : Options).

Record World := {
  heap : gmap positive Options;
  trace : list Event
}.

Definition M (A : Type) : Type := World -> Result A * World.

Definition ret {A} (a : A) : M A := fun w => (Ok a, w).

Definition bind {A B} (m : M A) (k : A -> M B) : M B :=
  fun w => match m w with
           | (Ok a, w') => k a w'
           | (Err e, w') => (Err e, w')
           end.

Definition throw {A} (e : Error) : M A := fun w => (Err e, w).

Definition lift {A} (r : Result A) : M A := fun w => (r, w).

Definition emit (ev : Event) : M unit :=
  fun w => (Ok tt, {| heap := heap w; trace := trace w ++ [ev] |}).

(** A new object. *)
Definition alloc (o : Options) : M ref :=
  fun w => let l := fresh (dom (heap w)) in
           (Ok l, {| heap := <[l := o]> (heap w); trace := trace w |}).

Definition load (l : ref) : M Options :=
  fun w => match heap w !! l with
           | Some o => (Ok o, w)
           | None => (Err (TypeError "Cannot read properties of undefined"), w)
           end.

(** An assignment to, or removal of, properties of the object at [l]. *)
Definition update (l : ref) (f : Options -> Options) : M unit :=
  fun w => match heap w !! l with
           | Some o => (Ok tt, {| heap := <[l := f o]> (heap w); trace := trace w |})
           | None => (Err (TypeError "Cannot set properties of undefined"), w)
           end.

Global Instance M_ret : MRet M := @ret.
Global Instance M_bind : MBind M := fun A B k m => bind m k.

(** [array.forEach(f)] with an [f] that updates the arrays in [s] and may
    throw. *)
Fixpoint forEach {A S} (f : S -> A -> Result S) (l : list A) (s : S) : Result S :=
  match l with
  | [] => Ok s
  | x :: r => s' ← f s x; forEach f r s'
  end.

(** The entry of a decoded result under a name; [None] is [undefined]. *)
Fixpoint entry {A} (name : string) (m : list (string * A)) : option A :=
  match m with
  | [] => None
  | (k, v) :: r => if String.eqb k name then Some v else entry name r
  end.

(** [s.substring(n)]. *)
Fixpoint substring_from (n : nat) (s : string) : string :=
  match n, s with
  | S n', String _ r => substring_from n' r
  | _, _ => s
  end.

(** [v.toString()] where [v] may be undefined. *)
Definition toString_of (v : option Numeric) : Result string :=
  match v with
  | Some v => Ok (toString v)
  | None => Err (TypeError "Cannot read properties of undefined (reading 'toString')")
  end.

(** [v.toString(16)]: the radix is used by a number and by a bigint, and
    ignored by a string.  The digits of a number are those of its value;
    beyond [2 ^ 53] the language leaves the last ones to the
    implementation. *)
Definition toString16_of (v : option Numeric) : Result string :=
  match v with
  | Some (JNumeral n) => Ok (pretty n)
  | Some v => Ok (toString16 (BigInt v))
  | None => Err (TypeError "Cannot read properties of undefined (reading 'toString')")
  end.

(** ** Helpers of the plugin *)

(** What JSON makes of a [Numeric]: a number stays, a bigint is written
    as its decimal digits. *)
Definition copy_numeric (v : Numeric) : Numeric :=
  match v with
  | JBigInt n => JNumeral n
  | _ => v
  end.

(** The properties of an options object once through JSON. *)
Definition copy_options (o : Options) : Options :=
  {| opt_maxFee := copy_numeric <$> opt_maxFee o;
     opt_nonce := copy_numeric <$> opt_nonce o;
     opt_signature := map copy_numeric <$> opt_signature o;
     opt_rawOutput := opt_rawOutput o;
     opt_other := opt_other o |}.

(** Modelled from the spec: [copyWithBigint] of utils.ts, which is not among
    the sources and which the spec does not describe.  By its name and by
    its use in the class it returns a copy of its argument, in which a
    bigint may occur: a new object with the same properties, obtained
    through JSON with every bigint written as a string of decimal digits. *)
Definition copyWithBigint (options : ref) : M ref :=
  o ← load options;
  alloc (copy_options o).

(** The options handed to an interaction: the given object, or a new [{}]
    when the argument is left out (default parameter). *)
Definition default_options (options : option ref) : M ref :=
  match options with
  | Some l => ret l
  | None => alloc empty_options
  end.

(** [{ signature: signatures, ...options }]: a property of [options] with
    the same name wins over the one written first. *)
Definition with_signature (signatures : list Z) (o : Options) : Options :=
  match opt_signature o with
  | Some _ => o
  | None => set_signature (Some (map JBigInt signatures)) o
  end.

(** ** The abstract class [Account] *)

Section AccountClass.
Context {lib : StarknetLib} {plugin : Plugin}.

(** Modelled from the spec: [signMultiCall] of account-utils.ts, which is
    not among the sources.  A signature is two field elements per signing
    party, [r] then [s], computed from the party's key pair over the
    message hash.  Without a key pair ([null]) there is nothing to sign
    with: the attempt fails and no array is produced.  What is thrown then
    is the [TypeError] of a property read on [null]. *)
Definition signMultiCall (publicKey : string) (keyPair : option KeyPair)
    (messageHash : string) : Result (list Z) :=
  match keyPair with
  | Some kp => let '(r, s) := sign kp messageHash in Ok [r; s]
  | None => Err (TypeError "Cannot read properties of null (reading 'sign')")
  end.

(** The constructor parameters of [Account]. *)
Record Account := {
  starknetContract : StarknetContract;
  privateKey : string;
  publicKey : string;
  keyPair : KeyPair;
  hre : HardhatRuntimeEnvironment
}.

(** The abstract methods, implemented once per kind of account. *)
Class AccountImpl (T : Type) := {
  super : T -> Account;
  getMessageHash : T -> string -> list Call -> string -> string -> string -> Result string;
  getSignatures : T -> string -> Result (list Z);
  getExecutionFunctionName : T -> string;
  getNonce : T -> M (option Z);
  hasRawOutput : T -> bool
}.

(** The body of [callParameters.map(...)] in [handleMultiInteract]:
    [encode] is the object it builds, [toCall] records in addition that
    the ABI adapter of the callee is called. *)
Definition encode (cp : CallParameters) : Result Call :=
  cd ← adaptInput (toContract cp) (functionName cp) (cp_calldata cp);
  Ok {| contractAddress := address (toContract cp);
        entrypoint := functionName cp;
        calldata := cd |}.

Definition toCall (cp : CallParameters) : M Call :=
  emit (EvAdaptInput (address (toContract cp)) (functionName cp));;
  lift (encode cp).

(** The body of [callArray.forEach(...)] in [handleMultiInteract]: the
    state is the pair of arrays [executeCallArray] and [rawCalldata]. *)
Definition pushCall (st : list ExecuteCallParameters * list string) (call : Call)
    : Result (list ExecuteCallParameters * list string) :=
  let '(executeCallArray, rawCalldata) := st in
  to_ ← BigInt_of_string (contractAddress call);
  Ok (executeCallArray ++
        [{| to := to_;
            selector := starknetKeccak (entrypoint call);
            data_offset := length rawCalldata;
            data_len := length (calldata call) |}],
      rawCalldata ++ calldata call).

Definition handleMultiInteract `{AccountImpl T} (this : T) (accountAddress : string)
    (callParameters : list CallParameters) (nonce maxFee : option Numeric)
    (version : Numeric) : M (string * ExecuteArgs) :=
  callArray ← mapM toCall callParameters;
  '(executeCallArray, rawCalldata) ← lift (forEach pushCall callArray ([], []));
  adaptedNonce ← lift (toString_of nonce);
  maxFee16 ← lift (toString16_of maxFee);
  version16 ← lift (toString16_of (Some version));
  let adaptedMaxFee := "0x" +:+ maxFee16 in
  let adaptedVersion := "0x" +:+ version16 in
  messageHash ← lift (getMessageHash this accountAddress callArray
                        adaptedNonce adaptedMaxFee adaptedVersion);
  emit (EvMessageHash messageHash);;
  ret (messageHash,
       {| call_array := executeCallArray;
          args_calldata := rawCalldata;
          args_nonce := adaptedNonce |}).

Definition signature_msg : string :=
  "Custom signature cannot be specified when using Account (it is calculated automatically)".

Definition multiInteract `{AccountImpl T} (this : T) (choice : InteractChoice)
    (callParameters : list CallParameters) (options : option ref) : M Response :=
  options ← default_options options;
  options ← copyWithBigint options;
  o ← load options;
  update options
    (set_maxFee (Some (JBigInt (match or_else (opt_maxFee o) None with
                                | Some v => BigInt v
                                | None => 0
                                end))));;
  o ← load options;
  nonce ← match or_else (opt_nonce o) None with
          | Some v => ret (Some v)
          | None => n ← getNonce this; ret (JBigInt <$> n)
          end;
  update options (set_nonce None);;
  o ← load options;
  '(messageHash, args) ← handleMultiInteract this
      (address (starknetContract (super this))) callParameters nonce
      (opt_maxFee o) (transactionVersion choice);
  o ← load options;
  match opt_signature o with
  | Some _ => throw (HardhatPluginError PLUGIN_NAME signature_msg)
  | None =>
      emit (EvSign messageHash);;
      signatures ← lift (getSignatures this messageHash);
      o ← load options;
      contractInteractOptions ← alloc (with_signature signatures o);
      opts ← load contractInteractOptions;
      let executionFunctionName := getExecutionFunctionName this in
      let contract := starknetContract (super this) in
      emit (EvDispatch (internalCommand choice) (address contract)
              executionFunctionName args opts);;
      lift (interactor contract (internalCommand choice) executionFunctionName args opts)
  end.

Definition interact `{AccountImpl T} (this : T) (choice : InteractChoice)
    (toContract : StarknetContract) (functionName : string)
    (calldata : option StringMap) (options : option ref) : M Response :=
  let call := {| toContract := toContract; functionName := functionName;
                 cp_calldata := calldata |} in
  multiInteract this choice [call] options.

(** [x.toString()] on what an interaction resolved to. *)
Definition Response_toString (r : Response) : string :=
  match r with
  | RespInvoke h => h
  | _ => "[object Object]"
  end.

(** [const { response } = r; response.join(" ")]. *)
Definition response_of (r : Response) : Result (list string) :=
  match r with
  | RespCall fields =>
      match entry "response" fields with
      | Some l => Ok l
      | None => Err (TypeError "Cannot read properties of undefined (reading 'join')")
      end
  | _ => Err (TypeError "Cannot read properties of undefined (reading 'join')")
  end.

Definition invoke `{AccountImpl T} (this : T) (toContract : StarknetContract)
    (functionName : string) (calldata : option StringMap) (options : option ref)
    : M string :=
  r ← interact this INVOKE toContract functionName calldata options;
  ret (Response_toString r).

(** The first lines of [call] and of [multiCall]. *)
Definition rawOutputOptions `{AccountImpl T} (this : T) (options : option ref) : M ref :=
  options ← default_options options;
  if hasRawOutput this then
    options ← copyWithBigint options;
    update options (set_rawOutput (Some true));;
    ret options
  else ret options.

Definition call `{AccountImpl T} (this : T) (toContract : StarknetContract)
    (functionName : string) (calldata : option StringMap) (options : option ref)
    : M StringMap :=
  options ← rawOutputOptions this options;
  r ← interact this CALL toContract functionName calldata (Some options);
  response ← lift (response_of r);
  lift (adaptOutput toContract functionName (join " " response)).

Definition estimateFee `{AccountImpl T} (this : T) (toContract : StarknetContract)
    (functionName : string) (calldata : option StringMap) (options : option ref)
    : M Response :=
  interact this ESTIMATE_FEE toContract functionName calldata options.

Definition multiCall `{AccountImpl T} (this : T) (callParameters : list CallParameters)
    (options : option ref) : M (list StringMap) :=
  options ← rawOutputOptions this options;
  r ← multiInteract this CALL callParameters (Some options);
  response ← lift (response_of r);
  lift (parseMulticallOutput response callParameters).

Definition multiInvoke `{AccountImpl T} (this : T) (callParameters : list CallParameters)
    (options : option ref) : M Response :=
  multiInteract this INVOKE callParameters options.

Definition multiEstimateFee `{AccountImpl T} (this : T)
    (callParameters : list CallParameters) (options : option ref) : M Response :=
  multiInteract this ESTIMATE_FEE callParameters options.

End AccountClass.

(** ** The two kinds of account *)

Section Accounts.
Context {lib : StarknetLib} {plugin : Plugin}.

Definition key_mismatch_msg : string :=
  "The provided private key is not compatible with the public key stored in the contract.".

(** [BigInt(publicKey) !== expectedPubKey], the right side being a bigint
    or undefined. *)
Definition differs (publicKey : Z) (expectedPubKey : option Z) : bool :=
  match expectedPubKey with
  | Some k => negb (Z.eqb publicKey k)
  | None => true
  end.

(** *** OpenZeppelin *)

Record OpenZeppelinAccount := {
  oz_super : Account
}.

Definition OZ_ACCOUNT_TYPE_NAME : string := "OpenZeppelinAccount".
Definition OZ_ACCOUNT_ARTIFACTS_NAME : string := "Account".
Definition OZ_VERSION : string := "0.1.0".

Definition OpenZeppelinAccount_getMessageHash (this : OpenZeppelinAccount)
    (accountAddress : string) (callArray : list Call) (nonce maxFee version : string)
    : Result string :=
  Ok (hashMulticall accountAddress callArray nonce maxFee version).

Definition OpenZeppelinAccount_getSignatures (this : OpenZeppelinAccount)
    (messageHash : string) : Result (list Z) :=
  signMultiCall (publicKey (oz_super this)) (Some (keyPair (oz_super this)))
    messageHash.

Definition OpenZeppelinAccount_getExecutionFunctionName (this : OpenZeppelinAccount)
    : string := "__execute__".

Definition OpenZeppelinAccount_getNonce (this : OpenZeppelinAccount) : M (option Z) :=
  let contract := starknetContract (oz_super this) in
  emit (EvView (address contract) "get_nonce");;
  r ← lift (view contract "get_nonce");
  ret (entry "res" r).

Global Instance OpenZeppelin : AccountImpl OpenZeppelinAccount := {|
  super := oz_super;
  getMessageHash := OpenZeppelinAccount_getMessageHash;
  getSignatures := OpenZeppelinAccount_getSignatures;
  getExecutionFunctionName := OpenZeppelinAccount_getExecutionFunctionName;
  getNonce := OpenZeppelinAccount_getNonce;
  hasRawOutput := fun _ => false
|}.

Definition OpenZeppelinAccount_getAccountFromAddress (address_ privateKey_ : string)
    (hre_ : HardhatRuntimeEnvironment) : M OpenZeppelinAccount :=
  emit (EvArtifacts OZ_ACCOUNT_TYPE_NAME);;
  contractPath ← lift (handleAccountContractArtifacts OZ_ACCOUNT_TYPE_NAME
                         OZ_ACCOUNT_ARTIFACTS_NAME OZ_VERSION hre_);
  contractFactory ← lift (getContractFactory hre_ contractPath);
  contract ← lift (getContractAt contractFactory address_);
  emit (EvView (address contract) "get_public_key");;
  r ← lift (view contract "get_public_key");
  let expectedPubKey := entry "res" r in
  let keyPair_ := getKeyPair (toBN (substring_from 2 privateKey_)) in
  let publicKey_ := getStarkKey keyPair_ in
  pk ← lift (BigInt_of_string publicKey_);
  if differs pk expectedPubKey then
    throw (HardhatPluginError PLUGIN_NAME key_mismatch_msg)
  else
    ret {| oz_super := {| starknetContract := contract; privateKey := privateKey_;
                          publicKey := publicKey_; keyPair := keyPair_;
                          hre := hre_ |} |}.

(** *** Argent *)

Record ArgentAccount := {
  argent_super : Account;
  guardianPublicKey : string;
  guardianPrivateKey : string;
  guardianKeyPair : option KeyPair
}.

Definition ARGENT_ACCOUNT_TYPE_NAME : string := "ArgentAccount".
Definition ARGENT_ACCOUNT_ARTIFACTS_NAME : string := "ArgentAccount".
Definition ARGENT_VERSION : string := "0.2.1".

Definition ArgentAccount_getExecutionFunctionName (this : ArgentAccount) : string :=
  "__execute__".

(** The body of [callArray.forEach(...)] in [getMessageHash]: the state is
    the pair of arrays [hashable] and [rawCalldata]. *)
Definition pushHashable (st : list BigNumberish * list string) (call : Call)
    : list BigNumberish * list string :=
  let '(hashable, rawCalldata) := st in
  (hashable ++ [BString (contractAddress call);
                BN (starknetKeccak (entrypoint call));
                BNumber (Z.of_nat (length rawCalldata));
                BNumber (Z.of_nat (length (calldata call)))],
   rawCalldata ++ calldata call).

(** The array [hashable] when [getMessageHash] hashes it. *)
Definition hashable_of (callArray : list Call) (nonce : string) : list BigNumberish :=
  let '(hashable, rawCalldata) :=
    fold_left pushHashable callArray ([BNumber (Z.of_nat (length callArray))], []) in
  hashable ++ BNumber (Z.of_nat (length rawCalldata)) :: map BString rawCalldata
           ++ [BString nonce].

(** [BigInt("0x" + Buffer.from(chainId).toString("hex")).toString()]; with
    no byte at all the literal is ["0x"], which [BigInt] refuses. *)
Definition adaptChainId (chainId : string) : Result string :=
  match chainId with
  | EmptyString => Err (SyntaxError "Cannot convert 0x to a BigInt")
  | _ => Ok (pretty (bytes_value chainId))
  end.

Definition ArgentAccount_getMessageHash (this : ArgentAccount)
    (accountAddress : string) (callArray : list Call) (nonce maxFee version : string)
    : Result string :=
  let hashable := hashable_of callArray nonce in
  let chainId := starknetChainId (hre (argent_super this)) in
  adaptedChainId ← adaptChainId chainId;
  let calldataHash := computeHashOnElements hashable in
  Ok (computeHashOnElements
        [TransactionHashPrefix_INVOKE;
         BString version;
         BString accountAddress;
         BString (getSelectorFromName (ArgentAccount_getExecutionFunctionName this));
         BString calldataHash;
         BString maxFee;
         BString adaptedChainId]).

Definition ArgentAccount_getSignatures (this : ArgentAccount) (messageHash : string)
    : Result (list Z) :=
  signerSignatures ←
    signMultiCall (publicKey (argent_super this))
      (Some (keyPair (argent_super this))) messageHash;
  guardianSignatures ←
    signMultiCall (guardianPublicKey this) (guardianKeyPair this) messageHash;
  Ok (signerSignatures ++ guardianSignatures).

Definition ArgentAccount_getNonce (this : ArgentAccount) : M (option Z) :=
  let contract := starknetContract (argent_super this) in
  emit (EvView (address contract) "get_nonce");;
  r ← lift (view contract "get_nonce");
  ret (entry "nonce" r).

Global Instance Argent : AccountImpl ArgentAccount := {|
  super := argent_super;
  getMessageHash := ArgentAccount_getMessageHash;
  getSignatures := ArgentAccount_getSignatures;
  getExecutionFunctionName := ArgentAccount_getExecutionFunctionName;
  getNonce := ArgentAccount_getNonce;
  hasRawOutput := fun _ => true
|}.

Definition ArgentAccount_getAccountFromAddress (address_ privateKey_ : string)
    (hre_ : HardhatRuntimeEnvironment) : M ArgentAccount :=
  emit (EvArtifacts ARGENT_ACCOUNT_TYPE_NAME);;
  contractPath ← lift (handleAccountContractArtifacts ARGENT_ACCOUNT_TYPE_NAME
                         ARGENT_ACCOUNT_ARTIFACTS_NAME ARGENT_VERSION hre_);
  contractFactory ← lift (getContractFactory hre_ contractPath);
  contract ← lift (getContractAt contractFactory address_);
  emit (EvView (address contract) "get_signer");;
  r ← lift (view contract "get_signer");
  let expectedPubKey := entry "signer" r in
  let keyPair_ := getKeyPair (toBN (substring_from 2 privateKey_)) in
  let publicKey_ := getStarkKey keyPair_ in
  pk ← lift (BigInt_of_string publicKey_);
  if differs pk expectedPubKey then
    throw (HardhatPluginError PLUGIN_NAME key_mismatch_msg)
  else
    ret {| argent_super := {| starknetContract := contract; privateKey := privateKey_;
                              publicKey := publicKey_; keyPair := keyPair_;
                              hre := hre_ |};
           guardianPublicKey := "0";
           guardianPrivateKey := "0";
           guardianKeyPair := None |}.

End Accounts.

(** ** A small concrete setting

    Stand-ins for the collaborators, with which the definitions above can
    be run: a toy hash and signature library, a wallet contract whose nonce
    on chain is 7, and two callee contracts [contractA] and [contractB]. *)

Module Toy.

Definition value_of (x : BigNumberish) : Z :=
  match x with
  | BNumber n | BN n => n
  | BString s => bytes_value s
  end.

Definition mix (l : list Z) : Z :=
  fold_left (fun acc x => (acc * 31 + x) mod 1000003) l 7.

Definition call_value (c : Call) : Z :=
  mix (bytes_value (contractAddress c) :: bytes_value (entrypoint c)
         :: map bytes_value (calldata c)).

Definition lib : StarknetLib := {|
  KeyPair := Z;
  starknetKeccak := fun name => mix [bytes_value name];
  getSelectorFromName := fun name => "0x" +:+ toString16 (mix [bytes_value name]);
  computeHashOnElements := fun l => "0x" +:+ toString16 (mix (map value_of l));
  hashMulticall := fun a calls n m v =>
    "0x" +:+ toString16 (mix (bytes_value a :: map call_value calls
                                ++ [bytes_value n; bytes_value m; bytes_value v]));
  toBN := fun s => default 0 (parse_number 16 s);
  getKeyPair := fun k => k;
  getStarkKey := fun k => "0x" +:+ toString16 (3 * k + 1);
  sign := fun k h => (mix [k; bytes_value h], mix [bytes_value h; k])
|}.

Definition invokeChoice : InteractChoice :=
  {| internalCommand := cmd_invoke; transactionVersion := JBigInt 0 |}.
Definition callChoice : InteractChoice :=
  {| internalCommand := cmd_call; transactionVersion := JBigInt (2 ^ 128) |}.
Definition estimateFeeChoice : InteractChoice :=
  {| internalCommand := cmd_estimateFee; transactionVersion := JBigInt (2 ^ 128) |}.

Definition plugin : Plugin := {|
  PLUGIN_NAME := "Starknet";
  TransactionHashPrefix_INVOKE := BString "0x696e766f6b65";
  INVOKE := invokeChoice;
  CALL := callChoice;
  ESTIMATE_FEE := estimateFeeChoice;
  handleAccountContractArtifacts := fun type name version _ =>
    Ok ("account-contract-artifacts/" +:+ type +:+ "/" +:+ version +:+ "/" +:+ name);
  parseMulticallOutput := fun response calls => Ok (map (fun _ => []) calls)
|}.

Definition no_view (fn : string) : Result (list (string * Z)) :=
  Err (External ("no such function: " +:+ fn)).

Definition no_interactor (cmd : InternalCommand) (fn : string) (args : ExecuteArgs)
    (opts : Options) : Result Response :=
  Err (External "not an account contract").

Definition contractA : StarknetContract := {|
  address := "0xa";
  adaptInput := fun fn args =>
    if String.eqb fn "foo" then Ok ["1"]
    else if String.eqb fn "baz" then Ok ["2"; "3"]
    else Err (External ("unknown function: " +:+ fn));
  adaptOutput := fun fn raw => Ok [("res", VText raw)];
  view := no_view;
  interactor := no_interactor
|}.

Definition contractB : StarknetContract := {|
  address := "0xb";
  adaptInput := fun fn args =>
    if String.eqb fn "bar" then Ok []
    else Err (External ("unknown function: " +:+ fn));
  adaptOutput := fun fn raw => Ok [("res", VText raw)];
  view := no_view;
  interactor := no_interactor
|}.

(** The private key of the wallet and the public key stored on chain. *)
Definition walletPrivateKey : string := "0x5".
Definition walletPublicKey : Z := 16.

Definition wallet (addr : string) : StarknetContract := {|
  address := addr;
  adaptInput := fun fn args => Err (External ("unknown function: " +:+ fn));
  adaptOutput := fun fn raw => Ok [];
  view := fun fn =>
    if String.eqb fn "get_nonce" then Ok [("res", 7); ("nonce", 7)]
    else if String.eqb fn "get_public_key" then Ok [("res", walletPublicKey)]
    else if String.eqb fn "get_signer" then Ok [("signer", walletPublicKey)]
    else no_view fn;
  interactor := fun cmd fn args opts =>
    match cmd with
    | cmd_invoke => Ok (RespInvoke "0xabc")
    | cmd_call => Ok (RespCall [("response", ["5"])])
    | cmd_estimateFee => Ok (RespFee 10 "wei")
    end
|}.

Definition runtime : HardhatRuntimeEnvironment := {|
  starknetChainId := "SN_GOERLI";
  getContractFactory := fun path => Ok {| getContractAt := fun addr => Ok (wallet addr) |}
|}.

Definition base : @Account lib := {|
  starknetContract := wallet "0x111";
  privateKey := walletPrivateKey;
  publicKey := "0x10";
  keyPair := 5 : @KeyPair lib;
  hre := runtime
|}.

Definition oz : @OpenZeppelinAccount lib := {| oz_super := base |}.

(** The Argent account as [getAccountFromAddress] builds it. *)
Definition argent : @ArgentAccount lib := {|
  argent_super := base;
  guardianPublicKey := "0";
  guardianPrivateKey := "0";
  guardianKeyPair := None
|}.

(** The same account once it holds the key of its guardian. *)
Definition guardianPrivateKey_ : string := "0x9".

Definition guarded : @ArgentAccount lib := {|
  argent_super := base;
  guardianPublicKey := "0x1c";
  guardianPrivateKey := guardianPrivateKey_;
  guardianKeyPair := Some (9 : @KeyPair lib)
|}.

(** The three calls [(A, foo, {x: 1})], [(B, bar, {})] and
    [(A, baz, {y: 2, z: 3})]. *)
Definition calls : list CallParameters :=
  [ {| toContract := contractA; functionName := "foo";
       cp_calldata := Some [("x", VBigInt 1)] |};
    {| toContract := contractB; functionName := "bar"; cp_calldata := Some [] |};
    {| toContract := contractA; functionName := "baz";
       cp_calldata := Some [("y", VBigInt 2); ("z", VBigInt 3)] |} ].

(** The same calls once encoded. *)
Definition callArray : list Call :=
  [ {| contractAddress := "0xa"; entrypoint := "foo"; calldata := ["1"] |};
    {| contractAddress := "0xb"; entrypoint := "bar"; calldata := [] |};
    {| contractAddress := "0xa"; entrypoint := "baz"; calldata := ["2"; "3"] |} ].

(** A world holding one options object, at reference 1. *)
Definition world (o : Options) : World :=
  {| heap := {[ 1%positive := o ]}; trace := [] |}.

(** Options of a caller: with a signature, with the nonce 0, with the
    nonce 5. *)
Definition signed : Options := set_signature (Some [JBigInt 1]) empty_options.
Definition nonce0 : Options := set_nonce (Some (JNumber 0)) empty_options.
Definition nonce5 : Options := set_nonce (Some (JNumber 5)) empty_options.

End Toy.

(** ** Vocabulary of the statements *)

(** The address of a call is one [BigInt] accepts. *)
Definition parses (c : Call) : bool := is_ok (BigInt_of_string (contractAddress c)).

(** The ranges of the descriptors [ds] follow one another from position
    [pos] and end at [total]: no gap, no overlap. *)
Fixpoint tiles (pos : nat) (ds : list ExecuteCallParameters) (total : nat) : Prop :=
  match ds with
  | [] => pos = total
  | d :: r => data_offset d = pos /\ tiles (pos + data_len d) r total
  end.

(** A value that [toString] prints with all the decimal digits of its
    value: a bigint, a numeral, and a number that is less than [2 ^ 53] in
    absolute value. *)
Definition prints_decimal (v : Numeric) : bool :=
  match v with
  | JNumber n => (Z.abs n <? 2 ^ 53)%Z
  | JBigInt _ | JNumeral _ => true
  end.

Definition is_sign (ev : Event) : bool :=
  match ev with EvSign _ => true | _ => false end.

Definition is_dispatch (ev : Event) : bool :=
  match ev with EvDispatch _ _ _ _ _ => true | _ => false end.

Definition is_view (ev : Event) : bool :=
  match ev with EvView _ _ => true | _ => false end.

Definition not_view (ev : Event) : bool := negb (is_view ev).

(** Neither the signer nor the final contract interaction. *)
Definition quiet (ev : Event) : bool := negb (is_sign ev || is_dispatch ev).

(** The arguments and options handed to the final contract interaction. *)
Fixpoint dispatches (t : list Event) : list (ExecuteArgs * Options) :=
  match t with
  | [] => []
  | EvDispatch _ _ _ args opts :: r => (args, opts) :: dispatches r
  | _ :: r => dispatches r
  end.

Definition dispatched (t : list Event) : list Options := map snd (dispatches t).

Definition dispatched_nonces (t : list Event) : list string :=
  map (fun d => args_nonce (fst d)) (dispatches t).

(** The object [call] and [multiCall] go on with. *)
Definition raw_options (hasRaw : bool) (o : Options) : Options :=
  if hasRaw then set_rawOutput (Some true) (copy_options o) else o.

(** A run from [w] hands to the contract interaction only options whose
    [rawOutput] is [v], and hands some whenever it succeeds. *)
Definition dispatches_rawOutput {A} (run : Result A * World) (w : World)
    (v : option bool) : Prop :=
  exists evs,
    trace run.2 = trace w ++ evs
    /\ Forall (fun opts => opt_rawOutput opts = v) (dispatched evs)
    /\ (is_ok run.1 = true -> dispatched evs <> []).

(** Every object of [w] is still there, unchanged, in [w']. *)
Definition extends (w w' : World) : Prop :=
  forall l o, heap w !! l = Some o -> heap w' !! l = Some o.

(** [w'] is [w] with the events [evs] added and the same objects. *)
Definition logs (w : World) (evs : list Event) : World :=
  {| heap := heap w; trace := trace w ++ evs |}.

(** What [handleMultiInteract] and [multiInteract] compute, written without
    the world: the result, and the events to be met in the trace. *)
Section Outcome.
Context {lib : StarknetLib} {plugin : Plugin}.

(** The calls to the ABI adapters made by [callParameters.map(...)]: it
    stops at the first call the adapter refuses. *)
Fixpoint adapt_events (cps : list CallParameters) : list Event :=
  match cps with
  | [] => []
  | cp :: r =>
      EvAdaptInput (address (toContract cp)) (functionName cp)
        :: (if is_ok (encode cp) then adapt_events r else [])
  end.

(** The result of [handleMultiInteract]. *)
Definition prepared {T} {impl : AccountImpl T} (this : T) (accountAddress : string)
    (callParameters : list CallParameters) (nonce maxFee : option Numeric)
    (version : Numeric) : Result (string * ExecuteArgs) :=
  callArray ← mapM encode callParameters;
  '(executeCallArray, rawCalldata) ← forEach pushCall callArray ([], []);
  adaptedNonce ← toString_of nonce;
  maxFee16 ← toString16_of maxFee;
  version16 ← toString16_of (Some version);
  messageHash ← getMessageHash this accountAddress callArray adaptedNonce
                  ("0x" +:+ maxFee16) ("0x" +:+ version16);
  Ok (messageHash,
      {| call_array := executeCallArray;
         args_calldata := rawCalldata;
         args_nonce := adaptedNonce |}).

(** The message hash is recorded when there is one. *)
Definition hash_events (r : Result (string * ExecuteArgs)) : list Event :=
  match r with
  | Ok (h, _) => [EvMessageHash h]
  | Err _ => []
  end.

(** The object an [options] argument stands for in [w]. *)
Definition given (w : World) (options : option ref) : option Options :=
  match options with
  | Some l => heap w !! l
  | None => Some empty_options
  end.

(** [BigInt(options?.maxFee || "0")]. *)
Definition fee_of (o : Options) : Z :=
  match or_else (opt_maxFee o) None with
  | Some v => BigInt v
  | None => 0
  end.

(** The options object of the interaction once [maxFee] is set and
    [nonce] deleted, from the caller's object [o]. *)
Definition adapted (o : Options) : Options :=
  set_nonce None (set_maxFee (Some (JBigInt (fee_of (copy_options o)))) (copy_options o)).

(** The nonce of the interaction: the one of the options if it is truthy,
    else the answer [rn] of [getNonce], whose events are [evn]. *)
Definition resolved_nonce (o : Options) (rn : Result (option Z)) (evn : list Event)
    : Result (option Numeric) * list Event :=
  match or_else (opt_nonce (copy_options o)) None with
  | Some v => (Ok (Some v), [])
  | None => (match rn with Ok n => Ok (JBigInt <$> n) | Err e => Err e end, evn)
  end.

(** The result of [multiInteract] on the caller's options [o], and the
    events it adds to the trace. *)
Definition outcome {T} {impl : AccountImpl T} (this : T) (choice : InteractChoice)
    (cps : list CallParameters) (o : Options) (rn : Result (option Z))
    (evn : list Event) : Result Response * list Event :=
  let contract := starknetContract (super this) in
  let '(nonce, ev1) := resolved_nonce o rn evn in
  match nonce with
  | Err e => (Err e, ev1)
  | Ok nonce =>
      let p := prepared this (address contract) cps nonce (opt_maxFee (adapted o))
                 (transactionVersion choice) in
      let ev2 := ev1 ++ adapt_events cps ++ hash_events p in
      match p with
      | Err e => (Err e, ev2)
      | Ok (h, args) =>
          match opt_signature (adapted o) with
          | Some _ => (Err (HardhatPluginError PLUGIN_NAME signature_msg), ev2)
          | None =>
              match getSignatures this h with
              | Err e => (Err e, ev2 ++ [EvSign h])
              | Ok sigs =>
                  let opts := with_signature sigs (adapted o) in
                  let name := getExecutionFunctionName this in
                  (interactor contract (internalCommand choice) name args opts,
                   ev2 ++ [EvSign h;
                           EvDispatch (internalCommand choice) (address contract)
                             name args opts])
              end
          end
      end
  end.

(** The answer of the chain to [get_nonce], read under [name]. *)
Definition chain_nonce (contract : StarknetContract) (name : string)
    : Result (option Z) :=
  match view contract "get_nonce" with
  | Ok r => Ok (entry name r)
  | Err e => Err e
  end.

(** While an interaction runs from [w0]: its own options object sits at
    [l], which was free in [w0], and holds [o]; the objects of [w0] are as
    they were; the events [evs] have been added. *)
Definition stage (w0 : World) (l : ref) (o : Options) (evs : list Event) (w : World)
    : Prop :=
  heap w0 !! l = None /\ heap w !! l = Some o /\ extends w0 w
  /\ trace w = trace w0 ++ evs.

End Outcome.

(** ** The integrated devnet ([external-server/create-devnet-wrapper.ts]) *)

Module Devnet.

(** What is thrown: a [StarknetPluginError] of the function itself, or
    whatever a collaborator throws. *)
Inductive DevnetError :=
| StarknetPluginError (msg : string)
| Thrown (msg : string).

(** The members of the network configuration that the function reads. *)
Record HardhatNetworkConfig := {
  url : option string;
  venv : option string;
  dockerizedVersion : option string;
  args : option (list string);
  stdout : option string;
  stderr : option string
}.

(** What the function needs from outside: constants.ts, [getNetwork] and
    [getImageTagByArch] of utils.ts, [getFreePort], and the host name that
    [new URL(...)] finds in a string. *)
Class Env := {
  Networks : Type;
  Port : Type;
  INTEGRATED_DEVNET : string;
  INTEGRATED_DEVNET_URL : string;
  DEFAULT_DEVNET_DOCKER_IMAGE_TAG : string;
  DEVNET_DOCKER_REPOSITORY : string;
  getNetwork : string -> Networks -> string -> DevnetError + HardhatNetworkConfig;
  hostname_of : string -> DevnetError + string;
  getFreePort : DevnetError + Port;
  getImageTagByArch : string -> string
}.

(** The two servers the function builds; their constructors are recorded
    with their arguments, not run. *)
Inductive ExternalServer `{Env} :=
| VenvDevnet (venvPath host : string) (port : Port)
    (args : option (list string)) (stdout stderr : option string)
| DockerDevnet (repository tag host : string) (port : Port)
    (args : option (list string)) (stdout stderr : option string).

(** A string member that is truthy: there, and not the empty string. *)
Definition truthy_string (a : option string) : option string :=
  match a with
  | Some (String c s) => Some (String c s)
  | _ => None
  end.

(** [a || b] on strings. *)
Definition or_string (a : option string) (b : string) : string :=
  match truthy_string a with
  | Some s => s
  | None => b
  end.

(** The double quote character. *)
Definition quote : string := String (ascii_of_nat 34) EmptyString.

Definition createIntegratedDevnet `{Env} (networks : Networks)
    : DevnetError + ExternalServer :=
  match getNetwork INTEGRATED_DEVNET networks
          ("networks[" +:+ quote +:+ INTEGRATED_DEVNET +:+ quote +:+ "]") with
  | inl e => inl e
  | inr devnetNetwork =>
      match hostname_of (or_string (url devnetNetwork) INTEGRATED_DEVNET_URL) with
      | inl e => inl e
      | inr hostname =>
          match getFreePort with
          | inl e => inl e
          | inr port =>
              if negb (String.eqb hostname "localhost")
                 && negb (String.eqb hostname "127.0.0.1")
              then inl (StarknetPluginError
                          "Integrated devnet works only with localhost and 127.0.0.1")
              else
                match truthy_string (venv devnetNetwork) with
                | Some venvPath =>
                    inr (VenvDevnet venvPath hostname port (args devnetNetwork)
                           (stdout devnetNetwork) (stderr devnetNetwork))
                | None =>
                    if String.eqb hostname "localhost"
                    then inl (StarknetPluginError
                                "Dockerized integrated devnet works only with host 127.0.0.1")
                    else
                      let tag := getImageTagByArch
                                   (or_string (dockerizedVersion devnetNetwork)
                                      DEFAULT_DEVNET_DOCKER_IMAGE_TAG) in
                      inr (DockerDevnet DEVNET_DOCKER_REPOSITORY tag hostname port
                             (args devnetNetwork) (stdout devnetNetwork)
                             (stderr devnetNetwork))
                end
          end
      end
  end.

(** A small setting to run the function in: the configuration is looked
    up by name in a list, and the host name of a URL is what stands between
    [//] and the next [:] or [/]. *)
Fixpoint until_port (s : string) : string :=
  match s with
  | EmptyString => EmptyString
  | String c r =>
      if (Ascii.eqb c ":" || Ascii.eqb c "/")%bool then EmptyString
      else String c (until_port r)
  end.

Fixpoint after_slashes (s : string) : option string :=
  match s with
  | String "/" (String "/" r) => Some r
  | String _ r => after_slashes r
  | EmptyString => None
  end.

Definition toyEnv : Env := {|
  Networks := list (string * HardhatNetworkConfig);
  Port := string;
  INTEGRATED_DEVNET := "integratedDevnet";
  INTEGRATED_DEVNET_URL := "http://127.0.0.1:5050";
  DEFAULT_DEVNET_DOCKER_IMAGE_TAG := "latest";
  DEVNET_DOCKER_REPOSITORY := "shardlabs/starknet-devnet";
  getNetwork := fun name networks origin =>
    match entry name networks with
    | Some cfg => inr cfg
    | None => inl (Thrown ("Network not found: " +:+ origin))
    end;
  hostname_of := fun s =>
    match after_slashes s with
    | Some r => inr (until_port r)
    | None => inl (Thrown "Invalid URL")
    end;
  getFreePort := inr "5050";
  getImageTagByArch := fun tag => tag
|}.

Definition toyConfig (u v : option string) : HardhatNetworkConfig :=
  {| url := u; venv := v; dockerizedVersion := None; args := None;
     stdout := None; stderr := None |}.

End Devnet.

(** ** The rest of the class *)

Section Guardian.
Context {lib : StarknetLib} {plugin : Plugin}.

(** [setGuardian]: the three guardian fields of [this] are assigned first,
    then the call is built and invoked.  The first component is [this] once
    the method is over, however it ends; the second is what the method
    does after the assignments. *)
Definition ArgentAccount_setGuardian (this : ArgentAccount)
    (newGuardianPrivateKey : string) : ArgentAccount * M Response :=
  let guardianKeyPair_ := getKeyPair (toBN (substring_from 2 newGuardianPrivateKey)) in
  let guardianPublicKey_ := getStarkKey guardianKeyPair_ in
  let this' := {| argent_super := argent_super this;
                  guardianPublicKey := guardianPublicKey_;
                  guardianPrivateKey := newGuardianPrivateKey;
                  guardianKeyPair := Some guardianKeyPair_ |} in
  (this',
   new_guardian ← lift (BigInt_of_string guardianPublicKey_);
   let call := {| toContract := starknetContract (argent_super this');
                  functionName := "change_guardian";
                  cp_calldata := Some [("new_guardian", VBigInt new_guardian)] |} in
   multiInvoke this' [call] None).

(** A statement made of both kinds of account. *)
Definition both_kinds (P : forall T : Type, AccountImpl T -> T -> Prop) : Prop :=
  (forall this : OpenZeppelinAccount, P OpenZeppelinAccount OpenZeppelin this)
  /\ (forall this : ArgentAccount, P ArgentAccount Argent this).

Definition not_dispatch (ev : Event) : bool := negb (is_dispatch ev).

(** The call of the ABI adapter for one call. *)
Definition adapt_event (cp : CallParameters) : Event :=
  EvAdaptInput (address (toContract cp)) (functionName cp).

(** The four elements a call adds to the sequence hashed by an Argent
    account, read from its descriptor. *)
Definition descriptor_items (c : Call) (d : ExecuteCallParameters) : list BigNumberish :=
  [BString (contractAddress c); BN (selector d);
   BNumber (Z.of_nat (data_offset d)); BNumber (Z.of_nat (data_len d))].

(** A run from [w] that leaves the objects alone and adds to the trace the
    resolution of the artifacts of [accountType] and at most one read [fn]
    of the chain. *)
Definition only_reads {A} (run : Result A * World) (w : World)
    (accountType fn : string) : Prop :=
  heap run.2 = heap w
  /\ exists evs,
       trace run.2 = trace w ++ EvArtifacts accountType :: evs
       /\ (evs = [] \/ exists a, evs = [EvView a fn]).

(** [maxFee] as the interaction hands it on: the caller's, as a bigint, and
    0 when there is none. *)
Definition fee (o : Options) : Z :=
  match opt_maxFee o with
  | Some v => BigInt v
  | None => 0
  end.

End Guardian.

(** ** Further stand-ins

    A callee whose address is no number, an account on a contract that
    answers no read, and an Argent account on a contract that answers
    [get_nonce] under the name [res] only. *)

Module Cases.

Definition contractZ : StarknetContract := {|
  address := "zz";
  adaptInput := fun fn args => Ok [];
  adaptOutput := fun fn raw => Ok [];
  view := Toy.no_view;
  interactor := Toy.no_interactor
|}.

Definition callZ : CallParameters :=
  {| toContract := contractZ; functionName := "f"; cp_calldata := None |}.

Definition callFoo : CallParameters :=
  {| toContract := Toy.contractA; functionName := "foo"; cp_calldata := None |}.

Definition callUnknown : CallParameters :=
  {| toContract := Toy.contractA; functionName := "nope"; cp_calldata := None |}.

Definition offline : @OpenZeppelinAccount Toy.lib :=
  {| oz_super := {| starknetContract := Toy.contractA;
                    privateKey := Toy.walletPrivateKey;
                    publicKey := "0x10";
                    keyPair := 5 : @KeyPair Toy.lib;
                    hre := Toy.runtime |} |}.

Definition resOnly : StarknetContract := {|
  address := "0x222";
  adaptInput := fun fn args => Err (External "unknown function");
  adaptOutput := fun fn raw => Ok [];
  view := fun fn => Ok [("res", 3)];
  interactor := Toy.no_interactor
|}.

Definition misread : @ArgentAccount Toy.lib :=
  {| argent_super := {| starknetContract := resOnly;
                        privateKey := Toy.walletPrivateKey;
                        publicKey := "0x10";
                        keyPair := 5 : @KeyPair Toy.lib;
                        hre := Toy.runtime |};
     guardianPublicKey := "0";
     guardianPrivateKey := "0";
     guardianKeyPair := None |}.

(** Options whose nonce is the number [1e21]. *)
Definition nonceLarge : Options :=
  set_nonce (Some (JNumber (10 ^ 21))) empty_options.

(** The no-break space U+00A0, in UTF-8. *)
Definition nbsp : string :=
  String (ascii_of_nat 194) (String (ascii_of_nat 160) EmptyString).

End Cases.

(** * Properties *)

(** ** Running the primitives *)

Section Run.

Lemma run_bind {A B} (m : M A) (k : A -> M B) (w : World) :
  (m ≫= k) w = match m w with
               | (Ok a, w') => k a w'
               | (Err e, w') => (Err e, w')
               end.
Proof. reflexivity. Qed.

Lemma run_bind_ok {A B} (m : M A) (k : A -> M B) w a w' :
  m w = (Ok a, w') -> (m ≫= k) w = k a w'.
Proof. intros E. rewrite run_bind, E. reflexivity. Qed.

Lemma run_bind_err {A B} (m : M A) (k : A -> M B) w e w' :
  m w = (Err e, w') -> (m ≫= k) w = (Err e, w').
Proof. intros E. rewrite run_bind, E. reflexivity. Qed.

Lemma logs_nil w : logs w [] = w.
Proof. destruct w. unfold logs. cbn [heap trace]. rewrite app_nil_r. reflexivity. Qed.

Lemma logs_logs w e1 e2 : logs (logs w e1) e2 = logs w (e1 ++ e2).
Proof. unfold logs. cbn [heap trace]. rewrite app_assoc. reflexivity. Qed.

Lemma run_emit ev w : emit ev w = (Ok tt, logs w [ev]).
Proof. reflexivity. Qed.

Lemma run_lift {A} (r : Result A) w : lift r w = (r, w).
Proof. reflexivity. Qed.

Lemma fresh_free (w : World) : heap w !! fresh (dom (heap w)) = None.
Proof. apply not_elem_of_dom, is_fresh. Qed.

Lemma extends_refl w : extends w w.
Proof. intros l o E. exact E. Qed.

Lemma extends_trans w1 w2 w3 : extends w1 w2 -> extends w2 w3 -> extends w1 w3.
Proof. intros H12 H23 l o E. apply H23, H12, E. Qed.

Lemma extends_logs w evs : extends w (logs w evs).
Proof. intros l o E. exact E. Qed.

(** A new object leaves the old ones as they are. *)
Lemma extends_alloc w o :
  extends w {| heap := <[fresh (dom (heap w)) := o]> (heap w); trace := trace w |}.
Proof.
  intros l o' E. cbn [heap]. rewrite lookup_insert_ne; [exact E|].
  intros <-. rewrite fresh_free in E. discriminate.
Qed.

(** So does a write to an object that was not there at the start. *)
Lemma extends_update w0 w l o t :
  heap w0 !! l = None -> extends w0 w ->
  extends w0 {| heap := <[l := o]> (heap w); trace := t |}.
Proof.
  intros Hl Hw l' o' E. cbn [heap]. rewrite lookup_insert_ne; [apply Hw, E|].
  intros <-. rewrite Hl in E. discriminate.
Qed.

End Run.

(** ** The values of the language, on examples *)

Section Values.

(** A number is printed with all its digits below [2 ^ 53], with the
    shortest digits that tell it apart beyond, and with an exponent from
    [1e21]; a bigint always with all its digits. *)
Lemma toString_examples :
  toString (JNumber 5) = "5"
  /\ toString (JNumber (- 7)) = "-7"
  /\ toString (JNumber (2 ^ 53)) = "9007199254740992"
  /\ toString (JNumber (2 ^ 64)) = "18446744073709552000"
  /\ toString (JNumber (10 ^ 21)) = "1e+21"
  /\ toString (JNumber (- 10 ^ 21)) = "-1e+21"
  /\ toString (JNumber (2 ^ 70)) = "1.1805916207174113e+21"
  /\ toString (JNumber (2 ^ 53 + 1)) = "9007199254740992"
  /\ toString (JBigInt (10 ^ 21)) = "1000000000000000000000"
  /\ toString (JNumeral (2 ^ 64)) = "18446744073709551616".
Proof. repeat split; vm_compute; reflexivity. Qed.

Lemma BigInt_examples :
  BigInt (JNumber (2 ^ 64)) = 2 ^ 64
  /\ BigInt (JNumber (2 ^ 53 + 1)) = 2 ^ 53
  /\ BigInt (JNumber (2 ^ 53 + 3)) = 2 ^ 53 + 4
  /\ BigInt_of_string "" = Ok 0
  /\ BigInt_of_string "  0x1F " = Ok 31
  /\ BigInt_of_string "-12" = Ok (- 12)
  /\ BigInt_of_string (Cases.nbsp +:+ "12" +:+ Cases.nbsp) = Ok 12
  /\ BigInt_of_string "1 2" = Err (SyntaxError "Cannot convert 1 2 to a BigInt")
  /\ BigInt_of_string "-0x1" = Err (SyntaxError "Cannot convert -0x1 to a BigInt")
  /\ BigInt_of_string "zz" = Err (SyntaxError "Cannot convert zz to a BigInt").
Proof. repeat split; vm_compute; reflexivity. Qed.

End Values.

(** One step of a run: the first computation of a sequence is replaced by
    its known outcome. *)
Ltac step E := rewrite run_bind, E; cbn beta iota.

(** ** Aggregation *)

Section Aggregation.
Context {lib : StarknetLib} {plugin : Plugin}.

Lemma pushCall_ok ds raw (c : Call) n :
  BigInt_of_string (contractAddress c) = Ok n ->
  pushCall (ds, raw) c =
    Ok (ds ++ [{| to := n; selector := starknetKeccak (entrypoint c);
                  data_offset := length raw; data_len := length (calldata c) |}],
        raw ++ calldata c).
Proof. intros E. unfold pushCall. rewrite E. reflexivity. Qed.

(** What the loop of [handleMultiInteract] adds to its two arrays. *)
Lemma forEach_pushCall (calls : list Call) :
  forallb parses calls = true ->
  forall ds0 raw0, exists ds,
    forEach pushCall calls (ds0, raw0) = Ok (ds0 ++ ds, raw0 ++ concat (map calldata calls))
    /\ length ds = length calls
    /\ tiles (length raw0) ds (length raw0 + length (concat (map calldata calls)))
    /\ (forall i d c, ds !! i = Some d -> calls !! i = Some c ->
          data_offset d = length raw0 + length (concat (map calldata (take i calls)))
          /\ data_len d = length (calldata c)
          /\ selector d = starknetKeccak (entrypoint c)
          /\ BigInt_of_string (contractAddress c) = Ok (to d))%nat.
Proof.
  induction calls as [|c calls IH]; intros Hp ds0 raw0.
  - exists []. cbn. rewrite !app_nil_r. split; [reflexivity|].
    split; [reflexivity|]. split; [lia|].
    intros i d c Hd. rewrite lookup_nil in Hd. discriminate.
  - cbn in Hp. apply andb_true_iff in Hp as [Hc Hp].
    unfold parses in Hc.
    destruct (BigInt_of_string (contractAddress c)) as [n|] eqn:En; [|discriminate].
    set (d := {| to := n; selector := starknetKeccak (entrypoint c);
                 data_offset := length raw0; data_len := length (calldata c) |}).
    destruct (IH Hp (ds0 ++ [d]) (raw0 ++ calldata c)) as (ds & Hrun & Hlen & Htile & Hidx).
    exists (d :: ds). split; [|split; [|split]].
    + cbn [forEach]. rewrite (pushCall_ok _ _ _ _ En). fold d.
      change (forEach pushCall calls (ds0 ++ [d], raw0 ++ calldata c) =
                Ok (ds0 ++ d :: ds, raw0 ++ concat (map calldata (c :: calls)))).
      rewrite Hrun. cbn [map concat]. rewrite <- !app_assoc. reflexivity.
    + cbn. lia.
    + cbn [tiles]. split; [reflexivity|]. cbn [data_offset data_len d map concat].
      rewrite length_app in Htile. rewrite length_app.
      replace (length raw0 + (length (calldata c) + length (concat (map calldata calls))))%nat
        with (length raw0 + length (calldata c) + length (concat (map calldata calls)))%nat by lia.
      exact Htile.
    + intros [|i] d' c' Hd Hc'.
      * cbn in Hd, Hc'. injection Hd as <-. injection Hc' as <-.
        cbn. repeat split; [lia | exact En].
      * cbn in Hd, Hc'. destruct (Hidx i d' c' Hd Hc') as (Ho & Hl & Hs & Ht).
        repeat split; try assumption.
        rewrite Ho. cbn [take map concat]. rewrite !length_app. lia.
Qed.

Lemma run_mapM_toCall (cps : list CallParameters) (w : World) :
  mapM toCall cps w = (mapM encode cps, logs w (adapt_events cps)).
Proof.
  revert w. induction cps as [|cp cps IH]; intros w.
  - cbn. rewrite logs_nil. reflexivity.
  - cbn [mapM adapt_events]. rewrite run_bind. unfold toCall at 1.
    rewrite run_bind, run_emit, run_lift.
    destruct (encode cp) as [c|e]; cbn [is_ok].
    + rewrite run_bind, IH, logs_logs.
      destruct (mapM encode cps); reflexivity.
    + reflexivity.
Qed.

Lemma run_handleMultiInteract {T} {impl : AccountImpl T} (this : T) addr cps nonce maxFee version w :
  handleMultiInteract this addr cps nonce maxFee version w =
    (prepared this addr cps nonce maxFee version,
     logs w (adapt_events cps
               ++ hash_events (prepared this addr cps nonce maxFee version))).
Proof.
  unfold handleMultiInteract, prepared.
  rewrite run_bind, run_mapM_toCall.
  destruct (mapM encode cps) as [callArray|e]; cbn -[toString_of toString16_of];
    [|rewrite app_nil_r; reflexivity].
  rewrite run_bind, run_lift.
  destruct (forEach pushCall callArray ([], [])) as [[ds raw]|e];
    cbn -[toString_of toString16_of]; [|rewrite app_nil_r; reflexivity].
  rewrite run_bind, run_lift.
  destruct (toString_of nonce) as [n|e];
    cbn -[toString_of toString16_of]; [|rewrite app_nil_r; reflexivity].
  rewrite run_bind, run_lift.
  destruct (toString16_of maxFee) as [m|e];
    cbn -[toString_of toString16_of]; [|rewrite app_nil_r; reflexivity].
  rewrite run_bind, run_lift.
  destruct (toString16_of (Some version)) as [v|e];
    cbn -[toString_of toString16_of]; [|rewrite app_nil_r; reflexivity].
  rewrite run_bind, run_lift.
  destruct (getMessageHash this addr callArray n ("0x" +:+ m) ("0x" +:+ v)) as [h|e];
    cbn -[toString_of toString16_of]; [|rewrite app_nil_r; reflexivity].
  rewrite run_bind, run_emit. cbn. rewrite logs_logs. reflexivity.
Qed.

End Aggregation.

(** ** One interaction, step by step *)

Section Interaction.
Context {lib : StarknetLib} {plugin : Plugin}.

Lemma run_load l o w : heap w !! l = Some o -> load l w = (Ok o, w).
Proof. intros E. unfold load. rewrite E. reflexivity. Qed.

Lemma stage_load w0 l o evs w : stage w0 l o evs w -> load l w = (Ok o, w).
Proof. intros (_ & E & _). apply run_load, E. Qed.

Lemma stage_update w0 l o evs w f :
  stage w0 l o evs w ->
  exists w', update l f w = (Ok tt, w') /\ stage w0 l (f o) evs w'.
Proof.
  intros (H0 & E & Hx & Ht). unfold update. rewrite E.
  eexists. split; [reflexivity|].
  split; [exact H0|]. split; [cbn [heap]; apply lookup_insert_eq|].
  split; [apply extends_update; assumption | exact Ht].
Qed.

Lemma stage_logs w0 l o evs w e :
  stage w0 l o evs w -> stage w0 l o (evs ++ e) (logs w e).
Proof.
  intros (H0 & E & Hx & Ht). repeat split; try assumption.
  unfold logs. cbn [trace]. rewrite Ht, app_assoc. reflexivity.
Qed.

Lemma stage_copy w0 w l o :
  extends w0 w -> trace w = trace w0 -> heap w !! l = Some o ->
  exists l1 w1, copyWithBigint l w = (Ok l1, w1) /\ stage w0 l1 (copy_options o) [] w1.
Proof.
  intros Hx Ht E. unfold copyWithBigint.
  rewrite (run_bind_ok _ _ _ _ _ (run_load _ _ _ E)).
  eexists _, _. split; [reflexivity|].
  split.
  - destruct (heap w0 !! fresh (dom (heap w))) as [o'|] eqn:E0; [|reflexivity].
    apply Hx in E0. rewrite fresh_free in E0. discriminate.
  - split; [cbn [heap]; apply lookup_insert_eq|].
    split; [|cbn [trace]; rewrite Ht, app_nil_r; reflexivity].
    eapply extends_trans; [exact Hx | apply extends_alloc].
Qed.

Lemma stage_alloc w0 l o evs w o' :
  stage w0 l o evs w ->
  exists l2 w', alloc o' w = (Ok l2, w') /\ heap w' !! l2 = Some o'
                /\ extends w0 w' /\ trace w' = trace w0 ++ evs.
Proof.
  intros (H0 & E & Hx & Ht). eexists _, _. split; [reflexivity|].
  split; [cbn [heap]; apply lookup_insert_eq|].
  split; [|exact Ht].
  eapply extends_trans; [exact Hx | apply extends_alloc].
Qed.

Lemma run_default_options w options o :
  given w options = Some o ->
  exists l w1, default_options options w = (Ok l, w1) /\ heap w1 !! l = Some o
               /\ extends w w1 /\ trace w1 = trace w.
Proof.
  destruct options as [l|]; cbn [given default_options].
  - intros E. exists l, w. repeat split; [exact E | apply extends_refl].
  - intros [= <-]. eexists _, _. split; [reflexivity|].
    split; [cbn [heap]; apply lookup_insert_eq|].
    split; [apply extends_alloc | reflexivity].
Qed.

Lemma run_multiInteract {T} {impl : AccountImpl T} (this : T) choice cps options w o
    rn evn :
  given w options = Some o ->
  (forall w', getNonce this w' = (rn, logs w' evn)) ->
  exists w',
    multiInteract this choice cps options w = ((outcome this choice cps o rn evn).1, w')
    /\ trace w' = trace w ++ (outcome this choice cps o rn evn).2
    /\ extends w w'.
Proof.
  intros Hg Hn.
  destruct (run_default_options _ _ _ Hg) as (l & w1 & E1 & Hl & Hx1 & Ht1).
  destruct (stage_copy w w1 l o Hx1 Ht1 Hl) as (l1 & w2 & E2 & S2).
  destruct (stage_update _ _ _ _ _
              (set_maxFee (Some (JBigInt (fee_of (copy_options o))))) S2)
    as (w3 & E3 & S3).
  unfold multiInteract.
  step E1. step E2. step (stage_load _ _ _ _ _ S2).
  fold (fee_of (copy_options o)). step E3.
  step (stage_load _ _ _ _ _ S3).
  unfold outcome.
  change (opt_nonce (set_maxFee (Some (JBigInt (fee_of (copy_options o))))
                       (copy_options o)))
    with (opt_nonce (copy_options o)).
  set (nonceR := resolved_nonce o rn evn).
  assert (En : (match or_else (opt_nonce (copy_options o)) None with
                | Some v => ret (Some v)
                | None => getNonce this ≫= (fun n => ret (JBigInt <$> n))
                end) w3 = (nonceR.1, logs w3 nonceR.2)).
  { subst nonceR. unfold resolved_nonce.
    destruct (or_else (opt_nonce (copy_options o)) None).
    - cbn [fst snd]. rewrite logs_nil. reflexivity.
    - rewrite run_bind, Hn. destruct rn; reflexivity. }
  step En.
  pose proof (stage_logs _ _ _ _ _ nonceR.2 S3) as S3'.
  destruct nonceR as [[nonce|e] ev1]; cbn [fst snd] in *.
  2: { exists (logs w3 ev1). split; [reflexivity|].
       destruct S3' as (_ & _ & Hx & Ht). split; assumption. }
  destruct (stage_update _ _ _ _ _ (set_nonce None) S3') as (w4 & E4 & S4).
  fold (adapted o) in S4.
  step E4. step (stage_load _ _ _ _ _ S4).
  rewrite run_bind, run_handleMultiInteract.
  set (p := prepared this (address (starknetContract (super this))) cps nonce
              (opt_maxFee (adapted o)) (transactionVersion choice)).
  pose proof (stage_logs _ _ _ _ _ (adapt_events cps ++ hash_events p) S4) as S5.
  cbn [app] in S5.
  destruct p as [[h args]|e]; cbn beta iota.
  2: { eexists. split; [reflexivity|].
       destruct S5 as (_ & _ & Hx & Ht). split; assumption. }
  step (stage_load _ _ _ _ _ S5).
  destruct (opt_signature (adapted o)) as [sg|].
  { eexists. split; [reflexivity|].
    destruct S5 as (_ & _ & Hx & Ht). split; assumption. }
  step (run_emit (EvSign h)).
  pose proof (stage_logs _ _ _ _ _ [EvSign h] S5) as S6.
  step (run_lift (getSignatures this h)).
  destruct (getSignatures this h) as [sigs|e]; cbn beta iota.
  2: { eexists. split; [reflexivity|].
       destruct S6 as (_ & _ & Hx & Ht). cbn [fst snd]. split; assumption. }
  step (stage_load _ _ _ _ _ S6).
  destruct (stage_alloc _ _ _ _ _ (with_signature sigs (adapted o)) S6)
    as (l2 & w7 & E7 & Hl2 & Hx7 & Ht7).
  step E7. step (run_load _ _ _ Hl2). step (run_emit).
  rewrite run_lift. eexists. split; [reflexivity|].
  cbn [fst snd]. split.
  - unfold logs. cbn [trace]. rewrite Ht7, <- !app_assoc. reflexivity.
  - eapply extends_trans; [exact Hx7 | apply extends_logs].
Qed.

End Interaction.

(** ** Claims on the aggregation of calls *)

Section AggregationClaims.
Context {lib : StarknetLib} {plugin : Plugin}.

Lemma mapM_encode_length (cps : list CallParameters) (cs : list Call) :
  mapM encode cps = Ok cs -> length cs = length cps.
Proof.
  revert cs. induction cps as [|cp cps IH]; intros cs E.
  - injection E as <-. reflexivity.
  - cbn [mapM] in E. destruct (encode cp) as [c|e]; [|discriminate].
    cbn in E. destruct (mapM encode cps) as [cs'|e]; [|discriminate].
    injection E as <-. cbn. f_equal. apply IH. reflexivity.
Qed.

(** What a successful [handleMultiInteract] has gone through. *)
Lemma prepared_ok {T} {impl : AccountImpl T} (this : T) addr cps nonce maxFee version h args :
  prepared this addr cps nonce maxFee version = Ok (h, args) ->
  exists callArray m v,
    mapM encode cps = Ok callArray
    /\ forEach pushCall callArray ([], []) = Ok (call_array args, args_calldata args)
    /\ toString_of nonce = Ok (args_nonce args)
    /\ toString16_of maxFee = Ok m
    /\ toString16_of (Some version) = Ok v
    /\ getMessageHash this addr callArray (args_nonce args) ("0x" +:+ m) ("0x" +:+ v) = Ok h.
Proof.
  unfold prepared. intros E.
  destruct (mapM encode cps) as [callArray|]; [|discriminate].
  cbn -[toString_of toString16_of] in E.
  destruct (forEach pushCall callArray ([], [])) as [[ds raw]|] eqn:Ef; [|discriminate].
  cbn -[toString_of toString16_of] in E.
  destruct (toString_of nonce) as [n|] eqn:En; [|discriminate].
  cbn -[toString_of toString16_of] in E.
  destruct (toString16_of maxFee) as [m|] eqn:Em; [|discriminate].
  cbn -[toString_of toString16_of] in E.
  destruct (toString16_of (Some version)) as [v|] eqn:Ev; [|discriminate].
  cbn -[toString_of toString16_of] in E.
  destruct (getMessageHash this addr callArray n ("0x" +:+ m) ("0x" +:+ v)) as [h'|] eqn:Eh;
    [|discriminate].
  cbn in E. injection E as <- <-. cbn.
  exists callArray, m, v. repeat split; try reflexivity; assumption.
Qed.

(** The range of the [i]-th call in the concatenation of all calldata. *)
Lemma concat_slice (calls : list Call) (i : nat) (c : Call) :
  calls !! i = Some c ->
  take (length (calldata c))
       (drop (length (concat (map calldata (take i calls))))
             (concat (map calldata calls))) = calldata c.
Proof.
  intros E. rewrite <- (take_drop_middle calls i c E) at 2.
  rewrite map_app, concat_app. cbn [map concat].
  rewrite drop_app_length, take_app_length. reflexivity.
Qed.

(** C3: the descriptors built by [handleMultiInteract] come one per call, in
    the order of the calls; the offset of each is the length of the flat
    calldata gathered before it, its length is the length of the encoded
    calldata of its call, its range holds that calldata, and the ranges
    follow one another from 0 to the end of the flat calldata.  A call
    without calldata has an empty range. *)
Theorem aggregation_tiles {T} {impl : AccountImpl T} (this : T) (accountAddress : string)
    (callParameters : list CallParameters) (nonce maxFee : option Numeric)
    (version : Numeric) (callArray : list Call) :
  mapM encode callParameters = Ok callArray ->
  forallb parses callArray = true ->
  exists executeCallArray rawCalldata,
    forEach pushCall callArray ([], []) = Ok (executeCallArray, rawCalldata)
    /\ rawCalldata = concat (map calldata callArray)
    /\ length executeCallArray = length callParameters
    /\ (forall i d c,
          executeCallArray !! i = Some d -> callArray !! i = Some c ->
          data_offset d = length (concat (map calldata (take i callArray)))
          /\ data_len d = length (calldata c)
          /\ take (data_len d) (drop (data_offset d) rawCalldata) = calldata c)
    /\ tiles 0 executeCallArray (length rawCalldata)
    /\ (forall w h args w',
          handleMultiInteract this accountAddress callParameters nonce maxFee version w
            = (Ok (h, args), w') ->
          call_array args = executeCallArray /\ args_calldata args = rawCalldata).
Proof.
  intros Henc Hparse.
  destruct (forEach_pushCall callArray Hparse [] []) as (ds & Hrun & Hlen & Htile & Hidx).
  cbn [app length] in Hrun, Htile, Hidx.
  exists ds, (concat (map calldata callArray)).
  split; [exact Hrun|]. split; [reflexivity|].
  split; [rewrite Hlen; apply mapM_encode_length, Henc|].
  split; [|split; [exact Htile|]].
  - intros i d c Hd Hc. destruct (Hidx i d c Hd Hc) as (Ho & Hl & _).
    cbn in Ho. split; [exact Ho|]. split; [exact Hl|].
    rewrite Ho, Hl. apply concat_slice, Hc.
  - intros w h args w' E. rewrite run_handleMultiInteract in E.
    injection E as E _.
    destruct (prepared_ok _ _ _ _ _ _ _ _ E) as (cs & m & v & E1 & E2 & _).
    rewrite Henc in E1. injection E1 as <-.
    rewrite Hrun in E2. injection E2 as <- <-. split; reflexivity.
Qed.


(** C4: the three calls (A, foo, {x: 1}), (B, bar, {}) and
    (A, baz, {y: 2, z: 3}), encoded on 1, 0 and 2 field elements, give the
    offsets 0, 1, 1, the lengths 1, 0, 2 and a flat calldata of length 3; the
    sequence hashed by the Argent account begins with 3, A, the selector of
    foo, 0, 1, B, the selector of bar, 1, 0, A, the selector of baz, 1, 2,
    3, and its hash is the calldata hash inside the message hash. *)
Theorem three_calls_scenario (this : ArgentAccount) (A B : StarknetContract)
    (c1 c2 c3 : list string) (a b : Z)
    (accountAddress nonce maxFee version : string) :
  adaptInput A "foo" (Some [("x", VBigInt 1)]) = Ok c1 ->
  adaptInput B "bar" (Some []) = Ok c2 ->
  adaptInput A "baz" (Some [("y", VBigInt 2); ("z", VBigInt 3)]) = Ok c3 ->
  length c1 = 1%nat -> length c2 = 0%nat -> length c3 = 2%nat ->
  BigInt_of_string (address A) = Ok a ->
  BigInt_of_string (address B) = Ok b ->
  starknetChainId (hre (argent_super this)) <> "" ->
  exists callArray executeCallArray rawCalldata,
    mapM encode
      [ {| toContract := A; functionName := "foo";
           cp_calldata := Some [("x", VBigInt 1)] |};
        {| toContract := B; functionName := "bar"; cp_calldata := Some [] |};
        {| toContract := A; functionName := "baz";
           cp_calldata := Some [("y", VBigInt 2); ("z", VBigInt 3)] |} ]
      = Ok callArray
    /\ forEach pushCall callArray ([], []) = Ok (executeCallArray, rawCalldata)
    /\ map data_offset executeCallArray = [0; 1; 1]%nat
    /\ map data_len executeCallArray = [1; 0; 2]%nat
    /\ length rawCalldata = 3%nat
    /\ take 14 (hashable_of callArray nonce) =
         [BNumber 3;
          BString (address A); BN (starknetKeccak "foo"); BNumber 0; BNumber 1;
          BString (address B); BN (starknetKeccak "bar"); BNumber 1; BNumber 0;
          BString (address A); BN (starknetKeccak "baz"); BNumber 1; BNumber 2;
          BNumber 3]
    /\ getMessageHash this accountAddress callArray nonce maxFee version =
         Ok (computeHashOnElements
               [TransactionHashPrefix_INVOKE;
                BString version;
                BString accountAddress;
                BString (getSelectorFromName "__execute__");
                BString (computeHashOnElements (hashable_of callArray nonce));
                BString maxFee;
                BString (pretty (bytes_value (starknetChainId (hre (argent_super this)))))]).
Proof.
  intros E1 E2 E3 L1 L2 L3 Ea Eb Hid.
  destruct c1 as [|x1 [|? ?]]; try discriminate.
  destruct c2 as [|? ?]; try discriminate.
  destruct c3 as [|y1 [|z1 [|? ?]]]; try discriminate.
  eexists _, _, _.
  split.
  { cbn [mapM]. unfold encode. cbn [toContract functionName cp_calldata].
    rewrite E1, E2, E3. reflexivity. }
  split.
  { cbn [forEach]. unfold pushCall. cbn [contractAddress].
    rewrite Ea, Eb. reflexivity. }
  split; [reflexivity|]. split; [reflexivity|]. split; [reflexivity|].
  split; [reflexivity|].
  cbn [getMessageHash Argent]. unfold ArgentAccount_getMessageHash, adaptChainId.
  destruct (starknetChainId (hre (argent_super this))) eqn:Ec; [contradiction|].
  reflexivity.
Qed.

End AggregationClaims.

(** ** The two kinds of account, run *)

Section Variants.
Context {lib : StarknetLib} {plugin : Plugin}.

Lemma run_OpenZeppelin_getNonce (this : OpenZeppelinAccount) (w : World) :
  getNonce this w =
    (chain_nonce (starknetContract (oz_super this)) "res",
     logs w [EvView (address (starknetContract (oz_super this))) "get_nonce"]).
Proof.
  cbn [getNonce OpenZeppelin]. unfold OpenZeppelinAccount_getNonce, chain_nonce.
  rewrite run_bind, run_emit. cbn beta iota. rewrite run_bind, run_lift.
  destruct (view (starknetContract (oz_super this)) "get_nonce"); reflexivity.
Qed.

Lemma run_Argent_getNonce (this : ArgentAccount) (w : World) :
  getNonce this w =
    (chain_nonce (starknetContract (argent_super this)) "nonce",
     logs w [EvView (address (starknetContract (argent_super this))) "get_nonce"]).
Proof.
  cbn [getNonce Argent]. unfold ArgentAccount_getNonce, chain_nonce.
  rewrite run_bind, run_emit. cbn beta iota. rewrite run_bind, run_lift.
  destruct (view (starknetContract (argent_super this)) "get_nonce"); reflexivity.
Qed.

(** The events of [handleMultiInteract] are neither signer nor dispatch. *)
Lemma adapt_events_quiet cps : forallb quiet (adapt_events cps) = true.
Proof.
  induction cps as [|cp cps IH]; [reflexivity|].
  cbn. destruct (is_ok (encode cp)); [exact IH | reflexivity].
Qed.

Lemma adapt_events_no_hash cps h : ~ In (EvMessageHash h) (adapt_events cps).
Proof.
  induction cps as [|cp cps IH]; [intros []|].
  cbn. intros [H|H]; [discriminate|].
  destruct (is_ok (encode cp)); [exact (IH H) | destruct H].
Qed.

Lemma views_quiet evs : forallb is_view evs = true -> forallb quiet evs = true.
Proof.
  induction evs as [|ev evs IH]; [reflexivity|].
  cbn. intros H. apply andb_true_iff in H as [H1 H2].
  rewrite (IH H2), andb_true_r. destruct ev; try discriminate. reflexivity.
Qed.

Lemma views_no_hash evs h : forallb is_view evs = true -> ~ In (EvMessageHash h) evs.
Proof.
  induction evs as [|ev evs IH]; [intros _ []|].
  cbn. intros H. apply andb_true_iff in H as [H1 H2].
  intros [->|Hin]; [discriminate | exact (IH H2 Hin)].
Qed.

Lemma fee_of_copy o : fee_of (copy_options o) = fee o.
Proof.
  unfold fee_of, fee. cbn. destruct (opt_maxFee o) as [[n|n|n]|]; cbn; try reflexivity.
  destruct (Z.eqb_spec n 0) as [->|]; reflexivity.
Qed.

Lemma opt_maxFee_adapted o : opt_maxFee (adapted o) = Some (JBigInt (fee o)).
Proof.
  unfold adapted. cbn [opt_maxFee set_nonce set_maxFee]. rewrite fee_of_copy. reflexivity.
Qed.

(** With a signature in the caller's options: the nonce is resolved and
    [handleMultiInteract] run as always, and the signature is looked at
    after that. *)
Lemma signature_refused {T} {impl : AccountImpl T} (this : T) choice cps l w o s rn evn :
  heap w !! l = Some o -> opt_signature o = Some s ->
  (forall w', getNonce this w' = (rn, logs w' evn)) ->
  forallb is_view evn = true ->
  exists e evs,
    (multiInteract this choice cps (Some l) w).1 = Err e
    /\ trace (multiInteract this choice cps (Some l) w).2 = trace w ++ evs
    /\ forallb quiet evs = true
    /\ match resolved_nonce o rn evn with
       | (Err e', ev1) => e = e' /\ evs = ev1
       | (Ok nonce, ev1) =>
           match (handleMultiInteract this (address (starknetContract (super this)))
                    cps nonce (Some (JBigInt (fee o))) (transactionVersion choice) w).1
           with
           | Err e' => e = e' /\ evs = ev1 ++ adapt_events cps
           | Ok (h, _) =>
               e = HardhatPluginError PLUGIN_NAME signature_msg
               /\ evs = ev1 ++ adapt_events cps ++ [EvMessageHash h]
           end
       end.
Proof.
  intros Hl Hs Hn Hv.
  destruct (run_multiInteract this choice cps (Some l) w o rn evn Hl Hn)
    as (w' & E & Ht & _).
  rewrite E. cbn [fst snd].
  assert (Hsig : opt_signature (adapted o) = Some (map copy_numeric s)).
  { cbn. rewrite Hs. reflexivity. }
  assert (Hq : forallb quiet (resolved_nonce o rn evn).2 = true).
  { unfold resolved_nonce. destruct (or_else _ None); [reflexivity | apply views_quiet, Hv]. }
  unfold outcome in Ht |- *. rewrite Hsig, opt_maxFee_adapted in Ht |- *.
  destruct (resolved_nonce o rn evn) as [[nonce|e] ev1]; cbn [fst snd] in *.
  - rewrite run_handleMultiInteract. cbn [fst].
    set (p := prepared this _ cps nonce _ _) in *.
    destruct p as [[h args]|e]; cbn [fst snd hash_events] in *.
    + eexists _, _. split; [reflexivity|]. split; [exact Ht|].
      split; [|split; reflexivity].
      rewrite !forallb_app, Hq, adapt_events_quiet. reflexivity.
    + rewrite app_nil_r in Ht.
      eexists _, _. split; [reflexivity|]. split; [exact Ht|].
      split; [|split; reflexivity].
      rewrite forallb_app, Hq, adapt_events_quiet. reflexivity.
  - eexists _, _. split; [reflexivity|]. split; [exact Ht|].
    split; [exact Hq | split; reflexivity].
Qed.

(** An interaction leaves the objects of the world it started from alone,
    whatever the options argument. *)
Lemma multiInteract_extends {T} {impl : AccountImpl T} (this : T) choice cps options w
    rn evn :
  (forall w', getNonce this w' = (rn, logs w' evn)) ->
  extends w (multiInteract this choice cps options w).2.
Proof.
  intros Hn. destruct (given w options) as [o|] eqn:Hg.
  - destruct (run_multiInteract this choice cps options w o rn evn Hg Hn)
      as (w' & E & _ & Hx).
    rewrite E. exact Hx.
  - destruct options as [l|]; [|discriminate]. cbn [given] in Hg.
    assert (Ec : copyWithBigint l w =
                   (Err (TypeError "Cannot read properties of undefined"), w)).
    { unfold copyWithBigint. rewrite run_bind. unfold load. rewrite Hg. reflexivity. }
    unfold multiInteract. cbn [default_options].
    rewrite run_bind. cbn [ret]. rewrite run_bind, Ec. apply extends_refl.
Qed.

Lemma dispatches_app t1 t2 : dispatches (t1 ++ t2) = dispatches t1 ++ dispatches t2.
Proof.
  induction t1 as [|ev t1 IH]; [reflexivity|].
  destruct ev; cbn; rewrite ?IH; reflexivity.
Qed.

Lemma dispatches_quiet t : forallb quiet t = true -> dispatches t = [].
Proof.
  induction t as [|ev t IH]; [reflexivity|].
  cbn. intros H. apply andb_true_iff in H as [H1 H2].
  destruct ev; try discriminate; exact (IH H2).
Qed.

Lemma hash_events_quiet (p : Result (string * ExecuteArgs)) :
  forallb quiet (hash_events p) = true.
Proof. destruct p as [[h args]|e]; reflexivity. Qed.

(** At most one contract interaction is made: with the arguments prepared
    from the resolved nonce and with the adapted copy of the caller's
    options, signature added; it is made whenever the interaction
    succeeds. *)
Lemma outcome_dispatches {T} {impl : AccountImpl T} (this : T) choice cps o rn evn :
  forallb is_view evn = true ->
  (is_ok (outcome this choice cps o rn evn).1 = false
   /\ dispatches (outcome this choice cps o rn evn).2 = [])
  \/ exists nonce h args sigs,
       dispatches (outcome this choice cps o rn evn).2
         = [(args, with_signature sigs (adapted o))]
       /\ (resolved_nonce o rn evn).1 = Ok nonce
       /\ prepared this (address (starknetContract (super this))) cps nonce
            (opt_maxFee (adapted o)) (transactionVersion choice) = Ok (h, args)
       /\ opt_signature (adapted o) = None
       /\ getSignatures this h = Ok sigs.
Proof.
  intros Hv. unfold outcome.
  assert (Hq : forallb quiet (resolved_nonce o rn evn).2 = true).
  { unfold resolved_nonce. destruct (or_else _ None); [reflexivity | apply views_quiet, Hv]. }
  destruct (resolved_nonce o rn evn) as [[nonce|e] ev1]; cbn [fst snd] in *.
  2: { left. split; [reflexivity | apply dispatches_quiet, Hq]. }
  set (p := prepared this _ cps nonce _ _).
  assert (Hq2 : forallb quiet (ev1 ++ adapt_events cps ++ hash_events p) = true).
  { rewrite !forallb_app, Hq, adapt_events_quiet, hash_events_quiet. reflexivity. }
  destruct p as [[h args]|e] eqn:Ep; cbn [fst snd].
  2: { left. split; [reflexivity | apply dispatches_quiet, Hq2]. }
  destruct (opt_signature (adapted o)) as [sg|] eqn:Es; cbn [fst snd].
  { left. split; [reflexivity | apply dispatches_quiet, Hq2]. }
  destruct (getSignatures this h) as [sigs|e] eqn:Eg; cbn [fst snd].
  - right. exists nonce, h, args, sigs. split.
    + rewrite dispatches_app, (dispatches_quiet _ Hq2). reflexivity.
    + split; [reflexivity|]. split; [exact Ep|]. split; [reflexivity | exact Eg].
  - left. split; [reflexivity|].
    rewrite dispatches_app, (dispatches_quiet _ Hq2). reflexivity.
Qed.

Lemma run_rawOutputOptions {T} {impl : AccountImpl T} (this : T) options w o :
  given w options = Some o ->
  exists l w1,
    rawOutputOptions this options w = (Ok l, w1)
    /\ heap w1 !! l = Some (raw_options (hasRawOutput this) o)
    /\ extends w w1 /\ trace w1 = trace w.
Proof.
  intros Hg. unfold rawOutputOptions, raw_options.
  destruct (run_default_options _ _ _ Hg) as (l & w1 & E1 & Hl & Hx1 & Ht1).
  step E1. destruct (hasRawOutput this).
  - destruct (stage_copy w w1 l o Hx1 Ht1 Hl) as (l1 & w2 & E2 & S2).
    destruct (stage_update _ _ _ _ _ (set_rawOutput (Some true)) S2) as (w3 & E3 & S3).
    step E2. step E3. exists l1, w3. split; [reflexivity|].
    destruct S3 as (_ & H3 & Hx3 & Ht3). rewrite app_nil_r in Ht3.
    repeat split; assumption.
  - exists l, w1. repeat split; assumption.
Qed.

Lemma rawOutput_outcome {T} {impl : AccountImpl T} (this : T) choice cps o rn evn
    (t : list Event) :
  forallb is_view evn = true ->
  Forall (fun opts => opt_rawOutput opts = opt_rawOutput o)
         (dispatched (outcome this choice cps o rn evn).2)
  /\ (is_ok (outcome this choice cps o rn evn).1 = true ->
      dispatched (outcome this choice cps o rn evn).2 <> []).
Proof.
  intros Hv.
  unfold dispatched.
  destruct (outcome_dispatches this choice cps o rn evn Hv)
    as [[Hr Hd]|(nonce & h & args & sigs & Hd & _ & _ & Hs & _)]; rewrite Hd.
  - split; [constructor|]. rewrite Hr. discriminate.
  - split; [|discriminate]. constructor; [|constructor].
    cbn [snd]. unfold with_signature. rewrite Hs. reflexivity.
Qed.

(** What [multiInteract] hands over has the [rawOutput] of its options. *)
Lemma multiInteract_rawOutput {T} {impl : AccountImpl T} (this : T) choice cps options w o
    rn evn :
  given w options = Some o ->
  (forall w', getNonce this w' = (rn, logs w' evn)) ->
  forallb is_view evn = true ->
  dispatches_rawOutput (multiInteract this choice cps options w) w (opt_rawOutput o).
Proof.
  intros Hg Hn Hv.
  destruct (run_multiInteract this choice cps options w o rn evn Hg Hn)
    as (w' & E & Ht & _).
  destruct (rawOutput_outcome this choice cps o rn evn [] Hv) as [Hf Hne].
  rewrite E. eexists. split; [exact Ht|]. split; [exact Hf | exact Hne].
Qed.

(** What follows the interaction in [call] and [multiCall] adds no event
    and succeeds only if the interaction did. *)
Lemma dispatches_then {A B} (m : M A) (k : A -> M B) w0 w v :
  (forall a w', exists r, k a w' = (r, w')) ->
  trace w = trace w0 ->
  dispatches_rawOutput (m w) w v ->
  dispatches_rawOutput ((m ≫= k) w) w0 v.
Proof.
  intros Hk Ht (evs & Hevs & Hf & Hne). rewrite run_bind.
  destruct (m w) as [[a|e] w'] eqn:Em; cbn [fst snd] in *.
  - destruct (Hk a w') as (r & ->). exists evs. cbn [fst snd].
    rewrite <- Ht. split; [exact Hevs|]. split; [exact Hf|].
    intros _. apply Hne. reflexivity.
  - exists evs. cbn [fst snd]. rewrite <- Ht. split; [exact Hevs|].
    split; [exact Hf | discriminate].
Qed.

Lemma raw_options_rawOutput b o :
  opt_rawOutput (raw_options b o) = if b then Some true else opt_rawOutput o.
Proof. destruct b; reflexivity. Qed.

Lemma call_rawOutput {T} {impl : AccountImpl T} (this : T) c fn cd options w o rn evn :
  given w options = Some o ->
  (forall w', getNonce this w' = (rn, logs w' evn)) ->
  forallb is_view evn = true ->
  dispatches_rawOutput (call this c fn cd options w) w
    (if hasRawOutput this then Some true else opt_rawOutput o).
Proof.
  intros Hg Hn Hv.
  destruct (run_rawOutputOptions this options w o Hg) as (l & w1 & E1 & Hl & _ & Ht1).
  unfold call. step E1.
  rewrite <- raw_options_rawOutput.
  apply dispatches_then; [|exact Ht1|].
  { intros r w'. rewrite run_bind, run_lift.
    destruct (response_of r); eexists; reflexivity. }
  unfold interact. apply (multiInteract_rawOutput _ _ _ (Some l) _ _ rn evn); assumption.
Qed.


Lemma multiCall_rawOutput {T} {impl : AccountImpl T} (this : T) cps options w o rn evn :
  given w options = Some o ->
  (forall w', getNonce this w' = (rn, logs w' evn)) ->
  forallb is_view evn = true ->
  dispatches_rawOutput (multiCall this cps options w) w
    (if hasRawOutput this then Some true else opt_rawOutput o).
Proof.
  intros Hg Hn Hv.
  destruct (run_rawOutputOptions this options w o Hg) as (l & w1 & E1 & Hl & _ & Ht1).
  unfold multiCall. step E1.
  rewrite <- raw_options_rawOutput.
  apply dispatches_then; [|exact Ht1|].
  { intros r w'. rewrite run_bind, run_lift.
    destruct (response_of r); eexists; reflexivity. }
  apply (multiInteract_rawOutput _ _ _ (Some l) _ _ rn evn); assumption.
Qed.

End Variants.

(** ** Claims on one interaction *)

Section InteractionClaims.
Context {lib : StarknetLib} {plugin : Plugin}.

(** C1, as the code has it: with a signature in the caller's options, an
    interaction of either kind of account ends in an error and calls neither
    the signer nor the contract interaction.  The signature is looked at
    once the nonce is resolved and the calls are aggregated and hashed.
    The nonce is resolved first: when the options hold no usable one, the
    chain is read, and a failure of that read is the error of the
    interaction.  [handleMultiInteract] runs next, with that nonce: its
    failure is the error of the interaction.  When it succeeds, the message
    hash is the last thing recorded and the error is the one about the
    custom signature. *)
Theorem signature_never_signed_nor_dispatched :
  (forall (this : OpenZeppelinAccount) choice cps l w o s,
     heap w !! l = Some o -> opt_signature o = Some s ->
     let contract := starknetContract (oz_super this) in
     exists e evs,
       (multiInteract this choice cps (Some l) w).1 = Err e
       /\ trace (multiInteract this choice cps (Some l) w).2 = trace w ++ evs
       /\ forallb quiet evs = true
       /\ match resolved_nonce o (chain_nonce contract "res")
                  [EvView (address contract) "get_nonce"] with
          | (Err e', ev1) => e = e' /\ evs = ev1
          | (Ok nonce, ev1) =>
              match (handleMultiInteract this (address contract) cps nonce
                       (Some (JBigInt (fee o))) (transactionVersion choice) w).1
              with
              | Err e' => e = e' /\ evs = ev1 ++ adapt_events cps
              | Ok (h, _) =>
                  e = HardhatPluginError PLUGIN_NAME signature_msg
                  /\ evs = ev1 ++ adapt_events cps ++ [EvMessageHash h]
              end
          end)
  /\ (forall (this : ArgentAccount) choice cps l w o s,
     heap w !! l = Some o -> opt_signature o = Some s ->
     let contract := starknetContract (argent_super this) in
     exists e evs,
       (multiInteract this choice cps (Some l) w).1 = Err e
       /\ trace (multiInteract this choice cps (Some l) w).2 = trace w ++ evs
       /\ forallb quiet evs = true
       /\ match resolved_nonce o (chain_nonce contract "nonce")
                  [EvView (address contract) "get_nonce"] with
          | (Err e', ev1) => e = e' /\ evs = ev1
          | (Ok nonce, ev1) =>
              match (handleMultiInteract this (address contract) cps nonce
                       (Some (JBigInt (fee o))) (transactionVersion choice) w).1
              with
              | Err e' => e = e' /\ evs = ev1 ++ adapt_events cps
              | Ok (h, _) =>
                  e = HardhatPluginError PLUGIN_NAME signature_msg
                  /\ evs = ev1 ++ adapt_events cps ++ [EvMessageHash h]
              end
          end).
Proof.
  split; intros this choice cps l w o s Hl Hs contract.
  - exact (signature_refused this choice cps l w o s _ _ Hl Hs
             (run_OpenZeppelin_getNonce this) eq_refl).
  - exact (signature_refused this choice cps l w o s _ _ Hl Hs
             (run_Argent_getNonce this) eq_refl).
Qed.

(** C6, as the code has it: [call] and [multiCall] of an Argent account hand
    options with [rawOutput] set to true to the contract interaction;
    [estimateFee] and [multiEstimateFee] hand over the [rawOutput] of the
    caller, as every interaction of an OpenZeppelin account does: its
    calls, its fee estimations and its invokes. *)
Theorem rawOutput_of_dispatch :
  (forall (this : ArgentAccount) c fn cd options w o,
     given w options = Some o ->
     dispatches_rawOutput (call this c fn cd options w) w (Some true))
  /\ (forall (this : ArgentAccount) cps options w o,
     given w options = Some o ->
     dispatches_rawOutput (multiCall this cps options w) w (Some true))
  /\ (forall (this : ArgentAccount) c fn cd options w o,
     given w options = Some o ->
     dispatches_rawOutput (estimateFee this c fn cd options w) w (opt_rawOutput o))
  /\ (forall (this : ArgentAccount) cps options w o,
     given w options = Some o ->
     dispatches_rawOutput (multiEstimateFee this cps options w) w (opt_rawOutput o))
  /\ (forall (this : OpenZeppelinAccount) c fn cd options w o,
     given w options = Some o ->
     dispatches_rawOutput (call this c fn cd options w) w (opt_rawOutput o))
  /\ (forall (this : OpenZeppelinAccount) cps options w o,
     given w options = Some o ->
     dispatches_rawOutput (multiCall this cps options w) w (opt_rawOutput o))
  /\ (forall (this : OpenZeppelinAccount) c fn cd options w o,
     given w options = Some o ->
     dispatches_rawOutput (estimateFee this c fn cd options w) w (opt_rawOutput o))
  /\ (forall (this : OpenZeppelinAccount) cps options w o,
     given w options = Some o ->
     dispatches_rawOutput (multiEstimateFee this cps options w) w (opt_rawOutput o))
  /\ (forall (this : OpenZeppelinAccount) c fn cd options w o,
     given w options = Some o ->
     dispatches_rawOutput (invoke this c fn cd options w) w (opt_rawOutput o))
  /\ (forall (this : OpenZeppelinAccount) cps options w o,
     given w options = Some o ->
     dispatches_rawOutput (multiInvoke this cps options w) w (opt_rawOutput o)).
Proof.
  repeat split.
  - intros this c fn cd options w o Hg.
    apply (call_rawOutput this c fn cd options w o _ _ Hg (run_Argent_getNonce this)).
    reflexivity.
  - intros this cps options w o Hg.
    apply (multiCall_rawOutput this cps options w o _ _ Hg (run_Argent_getNonce this)).
    reflexivity.
  - intros this c fn cd options w o Hg. unfold estimateFee, interact.
    apply (multiInteract_rawOutput this _ _ options w o _ _ Hg (run_Argent_getNonce this)).
    reflexivity.
  - intros this cps options w o Hg. unfold multiEstimateFee.
    apply (multiInteract_rawOutput this _ _ options w o _ _ Hg (run_Argent_getNonce this)).
    reflexivity.
  - intros this c fn cd options w o Hg.
    apply (call_rawOutput this c fn cd options w o _ _ Hg
             (run_OpenZeppelin_getNonce this)).
    reflexivity.
  - intros this cps options w o Hg.
    apply (multiCall_rawOutput this cps options w o _ _ Hg
             (run_OpenZeppelin_getNonce this)).
    reflexivity.
  - intros this c fn cd options w o Hg. unfold estimateFee, interact.
    apply (multiInteract_rawOutput this _ _ options w o _ _ Hg
             (run_OpenZeppelin_getNonce this)).
    reflexivity.
  - intros this cps options w o Hg. unfold multiEstimateFee.
    apply (multiInteract_rawOutput this _ _ options w o _ _ Hg
             (run_OpenZeppelin_getNonce this)).
    reflexivity.
  - intros this c fn cd options w o Hg. unfold invoke.
    apply dispatches_then; [intros r w'; eexists; reflexivity | reflexivity |].
    unfold interact.
    apply (multiInteract_rawOutput this _ _ options w o _ _ Hg
             (run_OpenZeppelin_getNonce this)).
    reflexivity.
  - intros this cps options w o Hg. unfold multiInvoke.
    apply (multiInteract_rawOutput this _ _ options w o _ _ Hg
             (run_OpenZeppelin_getNonce this)).
    reflexivity.
Qed.

(** C10: an interaction of either kind of account leaves every object of
    the world it starts from as it was, the caller's options object among
    them with its [nonce] and [maxFee], whether it returns or throws: it
    writes to its own copy only. *)
Theorem caller_options_untouched :
  (forall (this : OpenZeppelinAccount) choice cps options w l o,
     heap w !! l = Some o ->
     heap (multiInteract this choice cps options w).2 !! l = Some o)
  /\ (forall (this : ArgentAccount) choice cps options w l o,
     heap w !! l = Some o ->
     heap (multiInteract this choice cps options w).2 !! l = Some o).
Proof.
  split; intros this choice cps options w l o Hl.
  - exact (multiInteract_extends this choice cps options w _ _
             (run_OpenZeppelin_getNonce this) l o Hl).
  - exact (multiInteract_extends this choice cps options w _ _
             (run_Argent_getNonce this) l o Hl).
Qed.

End InteractionClaims.

(** ** Claims on keys, hashes and signatures *)

Section KeyClaims.
Context {lib : StarknetLib} {plugin : Plugin}.

Lemma differs_false pk expected : differs pk expected = false <-> expected = Some pk.
Proof.
  destruct expected as [k|]; cbn.
  - rewrite negb_false_iff, Z.eqb_eq. split; [intros -> | intros [= ->]]; reflexivity.
  - split; discriminate.
Qed.

Lemma differs_true pk expected : differs pk expected = true <-> expected <> Some pk.
Proof.
  rewrite <- not_false_iff_true, differs_false. reflexivity.
Qed.

(** C7: once the contract at the address is at hand and has answered with
    its public key, [getAccountFromAddress] of either kind of account throws
    the error about the incompatible private key when the key derived from
    the private key is not the one on chain, and returns no account; when
    the two agree it returns an account on that contract, with the given
    private key and the derived keys. *)
Theorem getAccountFromAddress_checks_key :
  (forall address_ privateKey_ hre_ w path factory contract r derived,
     handleAccountContractArtifacts OZ_ACCOUNT_TYPE_NAME OZ_ACCOUNT_ARTIFACTS_NAME
       OZ_VERSION hre_ = Ok path ->
     getContractFactory hre_ path = Ok factory ->
     getContractAt factory address_ = Ok contract ->
     view contract "get_public_key" = Ok r ->
     BigInt_of_string (getStarkKey (getKeyPair (toBN (substring_from 2 privateKey_))))
       = Ok derived ->
     (entry "res" r <> Some derived ->
        (OpenZeppelinAccount_getAccountFromAddress address_ privateKey_ hre_ w).1
          = Err (HardhatPluginError PLUGIN_NAME key_mismatch_msg))
     /\ (entry "res" r = Some derived ->
        (OpenZeppelinAccount_getAccountFromAddress address_ privateKey_ hre_ w).1
          = Ok {| oz_super :=
                    {| starknetContract := contract;
                       privateKey := privateKey_;
                       publicKey :=
                         getStarkKey (getKeyPair (toBN (substring_from 2 privateKey_)));
                       keyPair := getKeyPair (toBN (substring_from 2 privateKey_));
                       hre := hre_ |} |}))
  /\ (forall address_ privateKey_ hre_ w path factory contract r derived,
     handleAccountContractArtifacts ARGENT_ACCOUNT_TYPE_NAME
       ARGENT_ACCOUNT_ARTIFACTS_NAME ARGENT_VERSION hre_ = Ok path ->
     getContractFactory hre_ path = Ok factory ->
     getContractAt factory address_ = Ok contract ->
     view contract "get_signer" = Ok r ->
     BigInt_of_string (getStarkKey (getKeyPair (toBN (substring_from 2 privateKey_))))
       = Ok derived ->
     (entry "signer" r <> Some derived ->
        (ArgentAccount_getAccountFromAddress address_ privateKey_ hre_ w).1
          = Err (HardhatPluginError PLUGIN_NAME key_mismatch_msg))
     /\ (entry "signer" r = Some derived ->
        (ArgentAccount_getAccountFromAddress address_ privateKey_ hre_ w).1
          = Ok {| argent_super :=
                    {| starknetContract := contract;
                       privateKey := privateKey_;
                       publicKey :=
                         getStarkKey (getKeyPair (toBN (substring_from 2 privateKey_)));
                       keyPair := getKeyPair (toBN (substring_from 2 privateKey_));
                       hre := hre_ |};
                  guardianPublicKey := "0";
                  guardianPrivateKey := "0";
                  guardianKeyPair := None |})).
Proof.
  split; intros address_ privateKey_ hre_ w path factory contract r derived
    Ha Hf Hc Hv Hk.
  - unfold OpenZeppelinAccount_getAccountFromAddress.
    step (run_emit (EvArtifacts OZ_ACCOUNT_TYPE_NAME)).
    rewrite Ha. step (run_lift (Ok path)).
    rewrite Hf. step (run_lift (Ok factory)).
    rewrite Hc. step (run_lift (Ok contract)).
    step (run_emit (EvView (address contract) "get_public_key")).
    rewrite Hv. step (run_lift (Ok r)).
    rewrite Hk. step (run_lift (Ok derived)).
    split; intros He.
    + apply differs_true in He. rewrite He. reflexivity.
    + apply differs_false in He. rewrite He. reflexivity.
  - unfold ArgentAccount_getAccountFromAddress.
    step (run_emit (EvArtifacts ARGENT_ACCOUNT_TYPE_NAME)).
    rewrite Ha. step (run_lift (Ok path)).
    rewrite Hf. step (run_lift (Ok factory)).
    rewrite Hc. step (run_lift (Ok contract)).
    step (run_emit (EvView (address contract) "get_signer")).
    rewrite Hv. step (run_lift (Ok r)).
    rewrite Hk. step (run_lift (Ok derived)).
    split; intros He.
    + apply differs_true in He. rewrite He. reflexivity.
    + apply differs_false in He. rewrite He. reflexivity.
Qed.

(** C8: the message hash of either kind of account is a function of the
    account address, the call array, the nonce, the maximal fee and the
    version, and, for an Argent account, of the configured chain id: two
    accounts of one kind give the same hash, whatever their keys and their
    contract, and [handleMultiInteract] computes the same hash and the same
    arguments in whatever world it runs. *)
Theorem message_hash_deterministic :
  (forall (a b : OpenZeppelinAccount) accountAddress callArray nonce maxFee version,
     getMessageHash a accountAddress callArray nonce maxFee version
       = getMessageHash b accountAddress callArray nonce maxFee version)
  /\ (forall (a b : ArgentAccount) accountAddress callArray nonce maxFee version,
     starknetChainId (hre (argent_super a)) = starknetChainId (hre (argent_super b)) ->
     getMessageHash a accountAddress callArray nonce maxFee version
       = getMessageHash b accountAddress callArray nonce maxFee version)
  /\ (forall T (impl : AccountImpl T) (this : T) accountAddress callParameters nonce
        maxFee version (w1 w2 : World),
     (handleMultiInteract this accountAddress callParameters nonce maxFee version w1).1
       = (handleMultiInteract this accountAddress callParameters nonce maxFee version w2).1).
Proof.
  split; [|split].
  - intros. reflexivity.
  - intros a b accountAddress callArray nonce maxFee version Hid.
    cbn [getMessageHash Argent]. unfold ArgentAccount_getMessageHash.
    rewrite Hid. reflexivity.
  - intros. rewrite !run_handleMultiInteract. reflexivity.
Qed.

(** C9: whenever an Argent account signs a message hash, its signature array
    is the signature of the signer followed by that of the guardian, each
    computed over that very hash: four elements, twice as many as the array
    of any OpenZeppelin account for the same hash, of which the first two
    are what an OpenZeppelin account with the signer's key pair signs.  An
    account holding the key pair of its guardian does sign; one that holds
    none gets no array. *)
Theorem Argent_signs_signer_then_guardian (this : ArgentAccount)
    (oz : OpenZeppelinAccount) (messageHash : string) :
  let signer := sign (keyPair (argent_super this)) messageHash in
  let single := sign (keyPair (oz_super oz)) messageHash in
  getSignatures oz messageHash = Ok [single.1; single.2]
  /\ getSignatures {| oz_super := argent_super this |} messageHash
     = Ok [signer.1; signer.2]
  /\ match guardianKeyPair this with
     | Some kp =>
         let guardian := sign kp messageHash in
         getSignatures this messageHash
           = Ok [signer.1; signer.2; guardian.1; guardian.2]
     | None => is_ok (getSignatures this messageHash) = false
     end
  /\ (forall sigs single_sigs,
        getSignatures this messageHash = Ok sigs ->
        getSignatures oz messageHash = Ok single_sigs ->
        take 2 sigs = [signer.1; signer.2]
        /\ (exists kp, guardianKeyPair this = Some kp
                       /\ drop 2 sigs = [(sign kp messageHash).1; (sign kp messageHash).2])
        /\ length sigs = (2 * length single_sigs)%nat).
Proof.
  cbn zeta.
  cbn [getSignatures Argent OpenZeppelin].
  unfold ArgentAccount_getSignatures, OpenZeppelinAccount_getSignatures, signMultiCall.
  cbn [oz_super].
  destruct (sign (keyPair (argent_super this)) messageHash) as [r1 s1] eqn:E1.
  destruct (sign (keyPair (oz_super oz)) messageHash) as [r s] eqn:E.
  cbn [fst snd mbind Result_bind].
  split; [reflexivity|]. split; [reflexivity|].
  destruct (guardianKeyPair this) as [kp|].
  - destruct (sign kp messageHash) as [r2 s2] eqn:E2. cbn [fst snd app].
    split; [reflexivity|].
    intros sigs single_sigs [= <-] [= <-]. split; [reflexivity|].
    split; [|reflexivity].
    exists kp. rewrite E2. split; reflexivity.
  - cbn [is_ok]. split; [reflexivity|]. intros sigs single_sigs H. discriminate H.
Qed.

End KeyClaims.

(** ** The nonce of an interaction *)

Section Nonce.
Context {lib : StarknetLib} {plugin : Plugin}.

Lemma double_of_small n : (Z.abs n <? 2 ^ 53)%Z = true -> double_of n = n.
Proof. intros H. unfold double_of. rewrite H. reflexivity. Qed.

Lemma toString_decimal v : prints_decimal v = true -> toString v = pretty (BigInt v).
Proof.
  destruct v as [n|n|n]; cbn [prints_decimal toString BigInt]; try reflexivity.
  intros H. unfold Number_toString. rewrite (double_of_small n H), H. reflexivity.
Qed.

Lemma BigInt_truthy v : BigInt v <> 0 -> truthy (copy_numeric v) = true.
Proof.
  destruct v as [n|n|n]; cbn [copy_numeric truthy BigInt]; try reflexivity.
  intros H. apply negb_true_iff, Z.eqb_neq. intros ->. apply H. reflexivity.
Qed.

Lemma toString_copy v : toString (copy_numeric v) = toString v.
Proof. destruct v; reflexivity. Qed.

Lemma adapt_events_not_view cps : forallb not_view (adapt_events cps) = true.
Proof.
  induction cps as [|cp cps IH]; [reflexivity|].
  cbn. destruct (is_ok (encode cp)); [exact IH | reflexivity].
Qed.

(** The events that follow the resolution of the nonce read nothing from
    the chain. *)
Lemma outcome_events {T} {impl : AccountImpl T} (this : T) choice cps o rn evn :
  exists rest,
    (outcome this choice cps o rn evn).2 = (resolved_nonce o rn evn).2 ++ rest
    /\ forallb not_view rest = true.
Proof.
  unfold outcome.
  destruct (resolved_nonce o rn evn) as [[nonce|e] ev1]; cbn [fst snd].
  2: { exists []. rewrite app_nil_r. split; reflexivity. }
  set (p := prepared this _ cps nonce _ _).
  assert (Hq : forallb not_view (adapt_events cps ++ hash_events p) = true).
  { rewrite forallb_app, adapt_events_not_view. destruct p as [[h a]|e]; reflexivity. }
  destruct p as [[h args]|e]; cbn [fst snd].
  2: { eexists. split; [reflexivity | exact Hq]. }
  destruct (opt_signature (adapted o)); cbn [fst snd].
  { eexists. split; [reflexivity | exact Hq]. }
  destruct (getSignatures this h); cbn [fst snd]; eexists;
    (split; [rewrite <- !app_assoc; reflexivity|]);
    rewrite !forallb_app, adapt_events_not_view; reflexivity.
Qed.

(** The nonce handed to the contract is the resolved one, in decimal. *)
Lemma outcome_nonce {T} {impl : AccountImpl T} (this : T) choice cps o rn evn :
  forallb is_view evn = true ->
  Forall (fun n => exists v, (resolved_nonce o rn evn).1 = Ok (Some v) /\ n = toString v)
         (dispatched_nonces (outcome this choice cps o rn evn).2).
Proof.
  intros Hv. unfold dispatched_nonces.
  destruct (outcome_dispatches this choice cps o rn evn Hv)
    as [[_ Hd]|(nonce & h & args & sigs & Hd & Hr & Hp & _)]; rewrite Hd; [constructor|].
  constructor; [|constructor]. cbn [map fst].
  destruct (prepared_ok _ _ _ _ _ _ _ _ Hp) as (_ & _ & _ & _ & _ & Hn & _).
  destruct nonce as [v|]; [|discriminate].
  exists v. split; [exact Hr|]. cbn in Hn. injection Hn as <-. reflexivity.
Qed.

(** How an interaction comes to its nonce.  A nonce of the options that is
    truthy once copied is used, and the chain is not read; otherwise (no
    nonce, or the number 0) [getNonce] is called and its answer is used. *)
Lemma nonce_resolution {T} {impl : AccountImpl T} (this : T) choice cps options w o rn evn :
  given w options = Some o ->
  (forall w', getNonce this w' = (rn, logs w' evn)) ->
  forallb is_view evn = true ->
  exists evs,
    trace (multiInteract this choice cps options w).2 = trace w ++ evs
    /\ (forall v, opt_nonce o = Some v -> truthy (copy_numeric v) = true ->
          forallb not_view evs = true
          /\ Forall (fun n => n = toString v) (dispatched_nonces evs))
    /\ ((opt_nonce o = None
         \/ exists v, opt_nonce o = Some v /\ truthy (copy_numeric v) = false) ->
          take (length evn) evs = evn
          /\ Forall (fun n => exists k, rn = Ok (Some k) /\ n = pretty k)
                    (dispatched_nonces evs)).
Proof.
  intros Hg Hn Hv.
  destruct (run_multiInteract this choice cps options w o rn evn Hg Hn)
    as (w' & E & Ht & _).
  rewrite E. cbn [snd]. eexists. split; [exact Ht|].
  destruct (outcome_events this choice cps o rn evn) as (rest & Hev & Hrest).
  pose proof (outcome_nonce this choice cps o rn evn Hv) as Hnon.
  split.
  - intros v Ho Htr.
    assert (Hres : resolved_nonce o rn evn = (Ok (Some (copy_numeric v)), [])).
    { unfold resolved_nonce. cbn. rewrite Ho. cbn. rewrite Htr. reflexivity. }
    rewrite Hres in Hev, Hnon. cbn [fst snd] in Hev, Hnon. split.
    + rewrite Hev. exact Hrest.
    + eapply Forall_impl; [exact Hnon|]. cbn.
      intros n (v' & [= <-] & ->). apply toString_copy.
  - intros Hfalsy.
    assert (Hres : resolved_nonce o rn evn =
                     (match rn with Ok n => Ok (JBigInt <$> n) | Err e => Err e end, evn)).
    { unfold resolved_nonce. cbn.
      destruct Hfalsy as [-> | (v & -> & Hf)]; cbn; [|rewrite Hf]; reflexivity. }
    rewrite Hres in Hev, Hnon. cbn [fst snd] in Hev, Hnon. split.
    + rewrite Hev. apply take_app_length.
    + eapply Forall_impl; [exact Hnon|]. cbn.
      intros n (v' & Hok & ->). destruct rn as [[k|]|e]; try discriminate.
      injection Hok as <-. exists k. split; reflexivity.
Qed.

End Nonce.

(** ** The claims in the small concrete setting *)

Section Scenarios.
Local Existing Instance Toy.lib.
Local Existing Instance Toy.plugin.

(** C1 as stated does not hold: with a signature in the options, the error
    about the custom signature comes after the nonce has been read from the
    chain, the three calls encoded and the message hash computed. *)
Lemma signature_checked_after_hashing :
  (multiInteract Toy.argent Toy.callChoice Toy.calls (Some 1%positive)
     (Toy.world Toy.signed)).1
    = Err (HardhatPluginError "Starknet" signature_msg)
  /\ trace (multiInteract Toy.argent Toy.callChoice Toy.calls (Some 1%positive)
              (Toy.world Toy.signed)).2
     = [EvView "0x111" "get_nonce"; EvAdaptInput "0xa" "foo"; EvAdaptInput "0xb" "bar";
        EvAdaptInput "0xa" "baz"; EvMessageHash "0xeac71"].
Proof. split; vm_compute; reflexivity. Qed.

Lemma signature_never_signed_nor_dispatched_witness :
  heap (Toy.world Toy.signed) !! 1%positive = Some Toy.signed
  /\ opt_signature Toy.signed = Some [JBigInt 1]
  /\ exists evs,
       (multiInteract Toy.argent Toy.callChoice Toy.calls (Some 1%positive)
          (Toy.world Toy.signed)).1
         = Err (HardhatPluginError "Starknet" signature_msg)
       /\ trace (multiInteract Toy.argent Toy.callChoice Toy.calls (Some 1%positive)
                   (Toy.world Toy.signed)).2 = evs
       /\ forallb quiet evs = true
       /\ last evs = Some (EvMessageHash "0xeac71").
Proof.
  split; [reflexivity|]. split; [reflexivity|].
  destruct (proj2 signature_never_signed_nor_dispatched Toy.argent Toy.callChoice
              Toy.calls 1%positive (Toy.world Toy.signed) Toy.signed [JBigInt 1]
              eq_refl eq_refl)
    as (e & evs & Hr & Ht & Hq & Hm).
  vm_compute in Hm. destruct Hm as [He Hevs]. subst e.
  exists evs. split; [exact Hr|].
  split; [exact Ht|]. split; [exact Hq|]. rewrite Hevs. reflexivity.
Defined.

Lemma aggregation_tiles_witness :
  mapM encode Toy.calls = Ok Toy.callArray
  /\ forallb parses Toy.callArray = true
  /\ exists executeCallArray rawCalldata,
       forEach pushCall Toy.callArray ([], []) = Ok (executeCallArray, rawCalldata)
       /\ tiles 0 executeCallArray (length rawCalldata).
Proof.
  split; [reflexivity|]. split; [reflexivity|].
  destruct (aggregation_tiles Toy.argent "0x111" Toy.calls (Some (JBigInt 7))
              (Some (JBigInt 0)) (JBigInt 0) Toy.callArray)
    as (ds & raw & Hrun & _ & _ & _ & Htiles & _); [reflexivity | reflexivity |].
  exists ds, raw. split; assumption.
Defined.

Lemma three_calls_scenario_witness :
  exists callArray executeCallArray rawCalldata,
    mapM encode Toy.calls = Ok callArray
    /\ forEach pushCall callArray ([], []) = Ok (executeCallArray, rawCalldata)
    /\ map data_offset executeCallArray = [0; 1; 1]%nat
    /\ map data_len executeCallArray = [1; 0; 2]%nat
    /\ length rawCalldata = 3%nat.
Proof.
  destruct (three_calls_scenario Toy.argent Toy.contractA Toy.contractB
              ["1"] [] ["2"; "3"] 10 11 "0x111" "7" "0x0" "0x0")
    as (cs & ds & raw & H1 & H2 & H3 & H4 & H5 & _);
    try reflexivity; [vm_compute; discriminate|].
  exists cs, ds, raw. repeat split; assumption.
Defined.

(** C5, where the code departs from it: with the number 0 as nonce in the
    options of an invoke, the nonce of the chain is read and the contract is
    handed the nonce 7 that is found there, not 0; with the nonce 5 the
    chain is not read and the nonce handed over is 5. *)
Theorem nonce_zero_replaced_by_chain_nonce :
  (multiInvoke Toy.oz Toy.calls (Some 1%positive) (Toy.world Toy.nonce0)).1
    = Ok (RespInvoke "0xabc")
  /\ filter (fun ev => is_view ev = true)
       (trace (multiInvoke Toy.oz Toy.calls (Some 1%positive) (Toy.world Toy.nonce0)).2)
     = [EvView "0x111" "get_nonce"]
  /\ dispatched_nonces
       (trace (multiInvoke Toy.oz Toy.calls (Some 1%positive) (Toy.world Toy.nonce0)).2)
     = ["7"]
  /\ filter (fun ev => is_view ev = true)
       (trace (multiInvoke Toy.oz Toy.calls (Some 1%positive) (Toy.world Toy.nonce5)).2)
     = []
  /\ dispatched_nonces
       (trace (multiInvoke Toy.oz Toy.calls (Some 1%positive) (Toy.world Toy.nonce5)).2)
     = ["5"].
Proof. repeat split; vm_compute; reflexivity. Qed.

(** C6 as stated does not hold: a fee estimation through an Argent account
    (one that holds the key of its guardian, and so signs) hands options
    without [rawOutput] to the contract. *)
Lemma estimateFee_leaves_rawOutput_unset :
  (estimateFee Toy.guarded Toy.contractA "foo" None None (Toy.world empty_options)).1
    = Ok (RespFee 10 "wei")
  /\ map opt_rawOutput
       (dispatched (trace (estimateFee Toy.guarded Toy.contractA "foo" None None
                             (Toy.world empty_options)).2))
     = [None]
  /\ map opt_rawOutput
       (dispatched (trace (multiEstimateFee Toy.guarded Toy.calls None
                             (Toy.world empty_options)).2))
     = [None].
Proof. repeat split; vm_compute; reflexivity. Qed.

Lemma rawOutput_of_dispatch_witness :
  given (Toy.world empty_options) None = Some empty_options
  /\ dispatches_rawOutput
       (call Toy.guarded Toy.contractA "foo" None None (Toy.world empty_options))
       (Toy.world empty_options) (Some true)
  /\ map opt_rawOutput
       (dispatched (trace (call Toy.guarded Toy.contractA "foo" None None
                             (Toy.world empty_options)).2))
     = [Some true].
Proof.
  split; [reflexivity|]. split; [|vm_compute; reflexivity].
  apply (proj1 rawOutput_of_dispatch Toy.guarded Toy.contractA "foo" None None
           (Toy.world empty_options) empty_options).
  reflexivity.
Defined.

Lemma getAccountFromAddress_checks_key_witness :
  (ArgentAccount_getAccountFromAddress "0x111" Toy.walletPrivateKey Toy.runtime
     (Toy.world empty_options)).1 = Ok Toy.argent
  /\ (ArgentAccount_getAccountFromAddress "0x111" "0x6" Toy.runtime
        (Toy.world empty_options)).1
     = Err (HardhatPluginError PLUGIN_NAME key_mismatch_msg).
Proof.
  split.
  - destruct (proj2 getAccountFromAddress_checks_key "0x111" Toy.walletPrivateKey
                Toy.runtime (Toy.world empty_options)
                "account-contract-artifacts/ArgentAccount/0.2.1/ArgentAccount"
                {| getContractAt := fun addr => Ok (Toy.wallet addr) |}
                (Toy.wallet "0x111") [("signer", Toy.walletPublicKey)] 16)
      as [_ Hsame]; [reflexivity | reflexivity | reflexivity | reflexivity | reflexivity |].
    apply Hsame. reflexivity.
  - destruct (proj2 getAccountFromAddress_checks_key "0x111" "0x6"
                Toy.runtime (Toy.world empty_options)
                "account-contract-artifacts/ArgentAccount/0.2.1/ArgentAccount"
                {| getContractAt := fun addr => Ok (Toy.wallet addr) |}
                (Toy.wallet "0x111") [("signer", Toy.walletPublicKey)] 19)
      as [Hdiffer _]; [reflexivity | reflexivity | reflexivity | reflexivity | reflexivity |].
    apply Hdiffer. vm_compute. discriminate.
Defined.

Lemma message_hash_deterministic_witness :
  starknetChainId (hre (argent_super Toy.argent))
    = starknetChainId (hre (argent_super Toy.guarded))
  /\ getMessageHash Toy.argent "0x111" Toy.callArray "7" "0x0" "0x0"
     = getMessageHash Toy.guarded "0x111" Toy.callArray "7" "0x0" "0x0".
Proof.
  split; [reflexivity|].
  apply (proj1 (proj2 message_hash_deterministic) Toy.argent Toy.guarded). reflexivity.
Defined.

Lemma Argent_signs_signer_then_guardian_witness :
  exists sigs single,
    getSignatures Toy.guarded "0x1dd14" = Ok sigs
    /\ getSignatures Toy.oz "0x1dd14" = Ok single
    /\ take 2 sigs = single
    /\ length sigs = 4%nat /\ length single = 2%nat
    /\ is_ok (getSignatures Toy.argent "0x1dd14") = false.
Proof.
  destruct (Argent_signs_signer_then_guardian Toy.guarded Toy.oz "0x1dd14")
    as (Hoz & _ & Hg & _).
  destruct (Argent_signs_signer_then_guardian Toy.argent Toy.oz "0x1dd14")
    as (_ & _ & Hnone & _).
  cbn [guardianKeyPair Toy.guarded Toy.argent] in Hg, Hnone.
  eexists _, _. split; [exact Hg|]. split; [exact Hoz|].
  split; [reflexivity|]. split; [reflexivity|]. split; [reflexivity | exact Hnone].
Defined.

Lemma caller_options_untouched_witness :
  heap (Toy.world Toy.nonce5) !! 1%positive = Some Toy.nonce5
  /\ heap (multiInteract Toy.guarded Toy.invokeChoice Toy.calls (Some 1%positive)
             (Toy.world Toy.nonce5)).2 !! 1%positive = Some Toy.nonce5.
Proof.
  split; [reflexivity|].
  apply (proj2 caller_options_untouched Toy.guarded Toy.invokeChoice Toy.calls
           (Some 1%positive) (Toy.world Toy.nonce5) 1%positive Toy.nonce5).
  reflexivity.
Defined.

End Scenarios.

(** ** Every interaction, whatever its outcome *)

Section Dispatch.
Context {lib : StarknetLib} {plugin : Plugin}.

Lemma both_kinds_intro (P : forall T : Type, AccountImpl T -> T -> Prop) :
  (forall T (impl : AccountImpl T) (this : T),
     (exists name,
        forall w, getNonce this w
                  = (chain_nonce (starknetContract (super this)) name,
                     logs w [EvView (address (starknetContract (super this)))
                               "get_nonce"])) ->
     P T impl this) ->
  both_kinds P.
Proof.
  intros H. split; intros this; apply H.
  - exists "res". apply run_OpenZeppelin_getNonce.
  - exists "nonce". apply run_Argent_getNonce.
Qed.

Lemma quiet_not_dispatch t : forallb quiet t = true -> forallb not_dispatch t = true.
Proof.
  induction t as [|ev t IH]; [reflexivity|].
  cbn. intros H. apply andb_true_iff in H as [H1 H2].
  rewrite (IH H2), andb_true_r. destruct ev; try discriminate; reflexivity.
Qed.

Lemma filter_not_dispatch t : forallb not_dispatch t = true -> List.filter is_dispatch t = [].
Proof.
  induction t as [|ev t IH]; [reflexivity|].
  cbn. intros H. apply andb_true_iff in H as [H1 H2].
  destruct ev; try discriminate; exact (IH H2).
Qed.

(** The two ways an interaction can go: it fails before the contract
    interaction, or it resolves its nonce, prepares hash and arguments,
    signs, and ends as the contract interaction does. *)
Lemma outcome_cases {T} {impl : AccountImpl T} (this : T) choice cps o rn evn :
  forallb is_view evn = true ->
  (is_ok (outcome this choice cps o rn evn).1 = false
   /\ forallb not_dispatch (outcome this choice cps o rn evn).2 = true)
  \/ exists nonce h args sigs,
       (outcome this choice cps o rn evn).2
         = (resolved_nonce o rn evn).2 ++ adapt_events cps
             ++ [EvMessageHash h; EvSign h;
                 EvDispatch (internalCommand choice)
                   (address (starknetContract (super this)))
                   (getExecutionFunctionName this) args
                   (with_signature sigs (adapted o))]
       /\ (outcome this choice cps o rn evn).1
          = interactor (starknetContract (super this)) (internalCommand choice)
              (getExecutionFunctionName this) args (with_signature sigs (adapted o))
       /\ (resolved_nonce o rn evn).1 = Ok nonce
       /\ forallb quiet (resolved_nonce o rn evn).2 = true
       /\ prepared this (address (starknetContract (super this))) cps nonce
            (opt_maxFee (adapted o)) (transactionVersion choice) = Ok (h, args)
       /\ opt_signature (adapted o) = None
       /\ getSignatures this h = Ok sigs.
Proof.
  intros Hv. unfold outcome.
  assert (Hq : forallb quiet (resolved_nonce o rn evn).2 = true).
  { unfold resolved_nonce. destruct (or_else _ None); [reflexivity | apply views_quiet, Hv]. }
  destruct (resolved_nonce o rn evn) as [[nonce|e] ev1]; cbn [fst snd] in *.
  2: { left. split; [reflexivity | apply quiet_not_dispatch, Hq]. }
  set (p := prepared this _ cps nonce _ _).
  assert (Hq2 : forallb quiet (ev1 ++ adapt_events cps ++ hash_events p) = true).
  { rewrite !forallb_app, Hq, adapt_events_quiet, hash_events_quiet. reflexivity. }
  destruct p as [[h args]|e] eqn:Ep; cbn [fst snd].
  2: { left. split; [reflexivity | apply quiet_not_dispatch, Hq2]. }
  destruct (opt_signature (adapted o)) as [sg|] eqn:Es; cbn [fst snd].
  { left. split; [reflexivity | apply quiet_not_dispatch, Hq2]. }
  destruct (getSignatures this h) as [sigs|e] eqn:Eg; cbn [fst snd].
  - right. exists nonce, h, args, sigs. split.
    + cbn [hash_events]. rewrite <- !app_assoc. reflexivity.
    + split; [reflexivity|]. split; [reflexivity|]. split; [exact Hq|].
      split; [exact Ep|]. split; [reflexivity | exact Eg].
  - left. split; [reflexivity|].
    rewrite forallb_app, (quiet_not_dispatch _ Hq2). reflexivity.
Qed.


Lemma multiInteract_cases {T} {impl : AccountImpl T} (this : T) choice cps options w o :
  (exists name,
     forall w, getNonce this w
               = (chain_nonce (starknetContract (super this)) name,
                  logs w [EvView (address (starknetContract (super this))) "get_nonce"])) ->
  given w options = Some o ->
  exists evs,
    trace (multiInteract this choice cps options w).2 = trace w ++ evs
    /\ ((is_ok (multiInteract this choice cps options w).1 = false
         /\ forallb not_dispatch evs = true)
        \/ exists pre nonce h args sigs,
             evs = pre ++ adapt_events cps
                     ++ [EvMessageHash h; EvSign h;
                         EvDispatch (internalCommand choice)
                           (address (starknetContract (super this)))
                           (getExecutionFunctionName this) args
                           (with_signature sigs (adapted o))]
             /\ forallb quiet pre = true
             /\ (multiInteract this choice cps options w).1
                = interactor (starknetContract (super this)) (internalCommand choice)
                    (getExecutionFunctionName this) args
                    (with_signature sigs (adapted o))
             /\ prepared this (address (starknetContract (super this))) cps nonce
                  (opt_maxFee (adapted o)) (transactionVersion choice) = Ok (h, args)
             /\ opt_signature (adapted o) = None
             /\ getSignatures this h = Ok sigs).
Proof.
  intros (name & Hn) Hg.
  destruct (run_multiInteract this choice cps options w o _ _ Hg Hn) as (w' & E & Ht & _).
  rewrite E. cbn [fst snd]. eexists. split; [exact Ht|].
  destruct (outcome_cases this choice cps o
              (chain_nonce (starknetContract (super this)) name)
              [EvView (address (starknetContract (super this))) "get_nonce"] eq_refl)
    as [[Hr Hd]|(nonce & h & args & sigs & Hev & Hres & _ & Hq & Hp & Hs & Hg')].
  - left. split; assumption.
  - right. eexists _, nonce, h, args, sigs. split; [exact Hev|].
    split; [exact Hq|]. split; [exact Hres|]. split; [exact Hp|].
    split; assumption.
Qed.

Lemma filter_dispatch_app t1 t2 :
  List.filter is_dispatch (t1 ++ t2) = List.filter is_dispatch t1 ++ List.filter is_dispatch t2.
Proof. apply List.filter_app. Qed.

Lemma dispatches_not_dispatch t : forallb not_dispatch t = true -> dispatches t = [].
Proof.
  induction t as [|ev t IH]; [reflexivity|].
  cbn. intros H. apply andb_true_iff in H as [H1 H2].
  destruct ev; try discriminate; exact (IH H2).
Qed.

(** The dispatched pairs of an interaction: none, or the one of the second
    case above. *)
Lemma multiInteract_dispatches {T} {impl : AccountImpl T} (this : T) choice cps options w o :
  (exists name,
     forall w, getNonce this w
               = (chain_nonce (starknetContract (super this)) name,
                  logs w [EvView (address (starknetContract (super this))) "get_nonce"])) ->
  given w options = Some o ->
  exists evs,
    trace (multiInteract this choice cps options w).2 = trace w ++ evs
    /\ Forall (fun d =>
         exists nonce h sigs,
           d.2 = with_signature sigs (adapted o)
           /\ In (EvMessageHash h) evs
           /\ prepared this (address (starknetContract (super this))) cps nonce
                (opt_maxFee (adapted o)) (transactionVersion choice) = Ok (h, d.1)
           /\ opt_signature (adapted o) = None
           /\ getSignatures this h = Ok sigs)
         (dispatches evs).
Proof.
  intros Hn Hg.
  destruct (multiInteract_cases this choice cps options w o Hn Hg)
    as (evs & Ht & [[_ Hd]|(pre & nonce & h & args & sigs & -> & Hq & _ & Hp & Hs & Hg')]).
  - exists evs. split; [exact Ht|]. rewrite (dispatches_not_dispatch _ Hd). constructor.
  - eexists. split; [exact Ht|].
    rewrite !dispatches_app, (dispatches_quiet _ Hq),
      (dispatches_quiet _ (adapt_events_quiet cps)).
    cbn. constructor; [|constructor].
    exists nonce, h, sigs. cbn [fst snd]. split; [reflexivity|]. split.
    + apply in_or_app. right. apply in_or_app. right. left. reflexivity.
    + split; [exact Hp|]. split; assumption.
Qed.

(** X1: whatever the calls and the options, an interaction of either kind of
    account reaches the contract interaction at most once.  When it does, it
    is the account's own contract that is addressed, with the command of
    the chosen kind of interaction and the function [__execute__], and what
    that interaction answers (or throws) is what [multiInteract] answers;
    when it does not, [multiInteract] has thrown. *)
Theorem one_dispatch_on_own_contract :
  both_kinds (fun T impl this =>
    forall choice cps options w o,
      given w options = Some o ->
      exists evs,
        trace (multiInteract this choice cps options w).2 = trace w ++ evs
        /\ ((List.filter is_dispatch evs = []
             /\ is_ok (multiInteract this choice cps options w).1 = false)
            \/ exists args opts,
                 List.filter is_dispatch evs
                   = [EvDispatch (internalCommand choice)
                        (address (starknetContract (super this))) "__execute__" args opts]
                 /\ (multiInteract this choice cps options w).1
                    = interactor (starknetContract (super this)) (internalCommand choice)
                        "__execute__" args opts)).
Proof.
  assert (G : forall T (impl : AccountImpl T) (this : T) name,
            getExecutionFunctionName this = name ->
            (exists nm, forall w, getNonce this w
               = (chain_nonce (starknetContract (super this)) nm,
                  logs w [EvView (address (starknetContract (super this))) "get_nonce"])) ->
            forall choice cps options w o,
              given w options = Some o ->
              exists evs,
                trace (multiInteract this choice cps options w).2 = trace w ++ evs
                /\ ((List.filter is_dispatch evs = []
                     /\ is_ok (multiInteract this choice cps options w).1 = false)
                    \/ exists args opts,
                         List.filter is_dispatch evs
                           = [EvDispatch (internalCommand choice)
                                (address (starknetContract (super this))) name args opts]
                         /\ (multiInteract this choice cps options w).1
                            = interactor (starknetContract (super this))
                                (internalCommand choice) name args opts)).
  { intros T impl this name <- Hn choice cps options w o Hg.
    destruct (multiInteract_cases this choice cps options w o Hn Hg)
      as (evs & Ht & [[Hr Hd]|(pre & nonce & h & args & sigs & -> & Hq & Hres & _)]).
    - exists evs. split; [exact Ht|]. left. split; [apply filter_not_dispatch, Hd | exact Hr].
    - eexists. split; [exact Ht|]. right. eexists _, _. split; [|exact Hres].
      rewrite !filter_dispatch_app.
      rewrite (filter_not_dispatch _ (quiet_not_dispatch _ Hq)).
      rewrite (filter_not_dispatch _ (quiet_not_dispatch _ (adapt_events_quiet cps))).
      reflexivity. }
  split; intros this.
  - apply (G _ OpenZeppelin this "__execute__"); [reflexivity|].
    exists "res". apply run_OpenZeppelin_getNonce.
  - apply (G _ Argent this "__execute__"); [reflexivity|].
    exists "nonce". apply run_Argent_getNonce.
Qed.

(** X2: the options an interaction hands to the contract never carry a
    [nonce] (it travels in the arguments), always carry a [maxFee], the
    caller's as a bigint or 0 when the caller gave none, and keep the
    caller's [rawOutput] and remaining fields. *)
Theorem dispatched_options_adapted :
  both_kinds (fun T impl this =>
    forall choice cps options w o,
      given w options = Some o ->
      exists evs,
        trace (multiInteract this choice cps options w).2 = trace w ++ evs
        /\ Forall (fun opts =>
             opt_nonce opts = None
             /\ opt_maxFee opts = Some (JBigInt (fee o))
             /\ opt_rawOutput opts = opt_rawOutput o
             /\ opt_other opts = opt_other o)
             (dispatched evs)).
Proof.
  apply both_kinds_intro. intros T impl this Hn choice cps options w o Hg.
  destruct (multiInteract_dispatches this choice cps options w o Hn Hg) as (evs & Ht & Hd).
  exists evs. split; [exact Ht|]. unfold dispatched. rewrite Forall_map.
  eapply Forall_impl; [exact Hd|]. cbn beta.
  intros [args opts] (nonce & h & sigs & Ho & _ & _ & Hs & _). cbn [fst snd] in *.
  subst opts. unfold with_signature. rewrite Hs. cbn. rewrite fee_of_copy.
  repeat split; reflexivity.
Qed.


(** X3: what is signed is what is sent.  The signature found in the
    dispatched options is [getSignatures] of a message hash that was
    computed over the very call array whose descriptors and flat calldata
    are dispatched, with the dispatched nonce, the dispatched fee in
    hexadecimal and the transaction version of the kind of interaction. *)
Theorem signed_is_sent :
  both_kinds (fun T impl this =>
    forall choice cps options w o,
      given w options = Some o ->
      exists evs,
        trace (multiInteract this choice cps options w).2 = trace w ++ evs
        /\ Forall (fun d =>
             exists callArray version16 h sigs,
               mapM encode cps = Ok callArray
               /\ forEach pushCall callArray ([], [])
                  = Ok (call_array d.1, args_calldata d.1)
               /\ toString16_of (Some (transactionVersion choice)) = Ok version16
               /\ getMessageHash this (address (starknetContract (super this))) callArray
                    (args_nonce d.1) ("0x" +:+ toString16 (fee o)) ("0x" +:+ version16)
                  = Ok h
               /\ In (EvMessageHash h) evs
               /\ getSignatures this h = Ok sigs
               /\ opt_signature d.2 = Some (map JBigInt sigs))
             (dispatches evs)).
Proof.
  apply both_kinds_intro. intros T impl this Hn choice cps options w o Hg.
  destruct (multiInteract_dispatches this choice cps options w o Hn Hg) as (evs & Ht & Hd).
  exists evs. split; [exact Ht|].
  eapply Forall_impl; [exact Hd|]. cbn beta.
  intros [args opts] (nonce & h & sigs & Ho & Hin & Hp & Hs & Hsig). cbn [fst snd] in *.
  destruct (prepared_ok _ _ _ _ _ _ _ _ Hp) as (callArray & m & v & E1 & E2 & _ & Em & Ev & Eh).
  cbn in Em. rewrite fee_of_copy in Em. injection Em as <-.
  exists callArray, v, h, sigs.
  split; [exact E1|]. split; [exact E2|]. split; [exact Ev|]. split; [exact Eh|].
  split; [exact Hin|]. split; [exact Hsig|].
  subst opts. unfold with_signature. rewrite Hs. reflexivity.
Qed.


End Dispatch.

(** ** An Argent account without the key of its guardian *)

Section GuardianClaims.
Context {lib : StarknetLib} {plugin : Plugin}.

Lemma quiet_no_sign t h : forallb quiet t = true -> ~ In (EvSign h) t.
Proof.
  induction t as [|ev t IH]; [intros _ []|].
  cbn. intros H. apply andb_true_iff in H as [H1 H2].
  intros [->|Hin]; [discriminate | exact (IH H2 Hin)].
Qed.

Lemma getAccountFromAddress_guardianless address_ privateKey_ hre_ w this :
  (ArgentAccount_getAccountFromAddress address_ privateKey_ hre_ w).1 = Ok this ->
  guardianKeyPair this = None.
Proof.
  unfold ArgentAccount_getAccountFromAddress.
  rewrite run_bind, run_emit. cbn beta iota. rewrite run_bind, run_lift.
  destruct (handleAccountContractArtifacts _ _ _ _) as [path|e]; [|discriminate].
  cbn beta iota. rewrite run_bind, run_lift.
  destruct (getContractFactory hre_ path) as [factory|e]; [|discriminate].
  cbn beta iota. rewrite run_bind, run_lift.
  destruct (getContractAt factory address_) as [contract|e]; [|discriminate].
  cbn beta iota. rewrite run_bind, run_emit. cbn beta iota. rewrite run_bind, run_lift.
  destruct (view contract "get_signer") as [r|e]; [|discriminate].
  cbn beta iota. rewrite run_bind, run_lift.
  destruct (BigInt_of_string _) as [pk|e]; [|discriminate].
  cbn beta iota. destruct (differs pk (entry "signer" r)); [discriminate|].
  intros [= <-]. reflexivity.
Qed.


End GuardianClaims.

(** ** Failures on the way to the contract *)

Section Failures.
Context {lib : StarknetLib} {plugin : Plugin}.

Lemma mapM_encode_app_err pre cp post e :
  forallb (fun c => is_ok (encode c)) pre = true ->
  encode cp = Err e ->
  mapM encode (pre ++ cp :: post) = Err e
  /\ adapt_events (pre ++ cp :: post) = map adapt_event (pre ++ [cp]).
Proof.
  intros Hpre He. induction pre as [|c pre IH].
  - cbn. rewrite He. split; reflexivity.
  - cbn in Hpre. apply andb_true_iff in Hpre as [Hc Hpre].
    destruct (IH Hpre) as [IH1 IH2].
    cbn [app mapM adapt_events map]. rewrite IH1, IH2, Hc.
    destruct (encode c); [|discriminate]. split; reflexivity.
Qed.

Lemma adapt_events_all cps callArray :
  mapM encode cps = Ok callArray -> adapt_events cps = map adapt_event cps.
Proof.
  revert callArray. induction cps as [|cp cps IH]; intros callArray E; [reflexivity|].
  cbn [mapM] in E. cbn [adapt_events map].
  destruct (encode cp) as [c|e]; [|discriminate]. cbn in E |- *.
  destruct (mapM encode cps) as [cs|e]; [|discriminate].
  rewrite (IH cs eq_refl). reflexivity.
Qed.

Lemma not_parses c :
  parses c = false ->
  BigInt_of_string (contractAddress c)
    = Err (SyntaxError ("Cannot convert " +:+ contractAddress c +:+ " to a BigInt")).
Proof.
  unfold parses, BigInt_of_string.
  match goal with |- context [match ?p with Some _ => _ | None => _ end] => destruct p end;
    [discriminate | reflexivity].
Qed.

Lemma forEach_pushCall_err calls :
  forallb parses calls = false ->
  exists c, In c calls /\ parses c = false
    /\ forall st, forEach pushCall calls st
         = Err (SyntaxError ("Cannot convert " +:+ contractAddress c +:+ " to a BigInt")).
Proof.
  induction calls as [|c calls IH]; [discriminate|].
  cbn [forallb]. destruct (parses c) eqn:Hc.
  - cbn. intros H. destruct (IH H) as (c' & Hin & Hc' & Hrun).
    exists c'. split; [right; exact Hin|]. split; [exact Hc'|].
    intros [ds raw]. cbn [forEach]. unfold parses in Hc.
    destruct (BigInt_of_string (contractAddress c)) as [n|] eqn:En; [|discriminate].
    rewrite (pushCall_ok _ _ _ _ En). apply Hrun.
  - intros _. exists c. split; [left; reflexivity|]. split; [exact Hc|].
    intros [ds raw]. cbn [forEach]. unfold pushCall. rewrite (not_parses c Hc). reflexivity.
Qed.

(** X5: when the ABI adapter refuses the calldata of a call,
    [handleMultiInteract] throws the adapter's error at once: the adapter
    has been asked for the calls before it and for this one, in order, and
    for none after it; no descriptor is built and nothing is hashed. *)
Theorem adapter_refusal_stops_handleMultiInteract {T} {impl : AccountImpl T} (this : T)
    (accountAddress : string) (pre post : list CallParameters) (cp : CallParameters)
    (nonce maxFee : option Numeric) (version : Numeric) (w : World) (e : Error) :
  forallb (fun c => is_ok (encode c)) pre = true ->
  adaptInput (toContract cp) (functionName cp) (cp_calldata cp) = Err e ->
  handleMultiInteract this accountAddress (pre ++ cp :: post) nonce maxFee version w
    = (Err e, logs w (map adapt_event (pre ++ [cp]))).
Proof.
  intros Hpre He.
  assert (He' : encode cp = Err e). { unfold encode. rewrite He. reflexivity. }
  destruct (mapM_encode_app_err pre cp post e Hpre He') as [E1 E2].
  rewrite run_handleMultiInteract. unfold prepared. rewrite E1, E2. cbn.
  rewrite app_nil_r. reflexivity.
Qed.

(** X6: when every call is encoded but the address of some callee is not
    accepted by [BigInt], [handleMultiInteract] throws the [SyntaxError] of
    [BigInt] for such an address, after the adapter has been asked for all
    the calls and before anything is hashed. *)
Theorem malformed_address_fails_after_encoding {T} {impl : AccountImpl T} (this : T)
    (accountAddress : string) (callParameters : list CallParameters)
    (nonce maxFee : option Numeric) (version : Numeric) (w : World)
    (callArray : list Call) :
  mapM encode callParameters = Ok callArray ->
  forallb parses callArray = false ->
  exists c,
    In c callArray /\ parses c = false
    /\ handleMultiInteract this accountAddress callParameters nonce maxFee version w
       = (Err (SyntaxError ("Cannot convert " +:+ contractAddress c +:+ " to a BigInt")),
          logs w (map adapt_event callParameters)).
Proof.
  intros Henc Hp. destruct (forEach_pushCall_err callArray Hp) as (c & Hin & Hc & Hrun).
  exists c. split; [exact Hin|]. split; [exact Hc|].
  rewrite run_handleMultiInteract. unfold prepared.
  rewrite Henc, (adapt_events_all _ _ Henc). cbn [mbind Result_bind].
  rewrite Hrun. cbn. rewrite app_nil_r. reflexivity.
Qed.

(** X7: without a nonce in the options, a failure of the chain read
    [get_nonce] is the outcome of the interaction: the error is thrown as
    it is and nothing else has happened, no call has been adapted, hashed,
    signed or dispatched. *)
Theorem chain_read_failure_ends_interaction :
  both_kinds (fun T impl this =>
    forall choice cps options w o e,
      given w options = Some o ->
      opt_nonce o = None ->
      view (starknetContract (super this)) "get_nonce" = Err e ->
      (multiInteract this choice cps options w).1 = Err e
      /\ trace (multiInteract this choice cps options w).2
         = trace w ++ [EvView (address (starknetContract (super this))) "get_nonce"]).
Proof.
  apply both_kinds_intro. intros T impl this (name & Hn) choice cps options w o e Hg Ho Hv.
  destruct (run_multiInteract this choice cps options w o _ _ Hg Hn) as (w' & E & Ht & _).
  rewrite E. cbn [fst snd]. rewrite Ht.
  unfold outcome, resolved_nonce, chain_nonce. cbn. rewrite Ho, Hv. cbn.
  split; reflexivity.
Qed.

(** X8: when the answer of [get_nonce] lacks the entry the kind of account
    reads ([res] for OpenZeppelin, [nonce] for Argent), the nonce is
    [undefined]; the calls are still adapted, and the interaction then ends
    with the [TypeError] of [nonce.toString()] in [handleMultiInteract],
    before any hash is computed. *)
Theorem missing_nonce_entry_is_a_TypeError :
  (forall (this : OpenZeppelinAccount) choice cps options w o r callArray,
     given w options = Some o ->
     opt_nonce o = None ->
     view (starknetContract (oz_super this)) "get_nonce" = Ok r ->
     entry "res" r = None ->
     mapM encode cps = Ok callArray ->
     forallb parses callArray = true ->
     (multiInteract this choice cps options w).1
       = Err (TypeError "Cannot read properties of undefined (reading 'toString')")
     /\ trace (multiInteract this choice cps options w).2
        = trace w ++ EvView (address (starknetContract (oz_super this))) "get_nonce"
                       :: map adapt_event cps)
  /\ (forall (this : ArgentAccount) choice cps options w o r callArray,
     given w options = Some o ->
     opt_nonce o = None ->
     view (starknetContract (argent_super this)) "get_nonce" = Ok r ->
     entry "nonce" r = None ->
     mapM encode cps = Ok callArray ->
     forallb parses callArray = true ->
     (multiInteract this choice cps options w).1
       = Err (TypeError "Cannot read properties of undefined (reading 'toString')")
     /\ trace (multiInteract this choice cps options w).2
        = trace w ++ EvView (address (starknetContract (argent_super this))) "get_nonce"
                       :: map adapt_event cps).
Proof.
  assert (G : forall T (impl : AccountImpl T) (this : T) name,
            (forall w, getNonce this w
               = (chain_nonce (starknetContract (super this)) name,
                  logs w [EvView (address (starknetContract (super this))) "get_nonce"])) ->
            forall choice cps options w o r callArray,
              given w options = Some o ->
              opt_nonce o = None ->
              view (starknetContract (super this)) "get_nonce" = Ok r ->
              entry name r = None ->
              mapM encode cps = Ok callArray ->
              forallb parses callArray = true ->
              (multiInteract this choice cps options w).1
                = Err (TypeError "Cannot read properties of undefined (reading 'toString')")
              /\ trace (multiInteract this choice cps options w).2
                 = trace w ++ EvView (address (starknetContract (super this))) "get_nonce"
                                :: map adapt_event cps).
  { intros T impl this name Hn choice cps options w o r callArray Hg Ho Hv He Henc Hp.
    destruct (run_multiInteract this choice cps options w o _ _ Hg Hn) as (w' & E & Ht & _).
    rewrite E. cbn [fst snd]. rewrite Ht.
    destruct (forEach_pushCall callArray Hp [] []) as (ds & Hrun & _).
    unfold outcome, resolved_nonce, chain_nonce. cbn -[prepared adapt_events].
    rewrite Ho, Hv. cbn -[prepared adapt_events]. rewrite He. cbn -[prepared adapt_events].
    assert (Hprep : forall m v addr,
              prepared this addr cps None m v
              = Err (TypeError "Cannot read properties of undefined (reading 'toString')")).
    { intros m v addr. unfold prepared. rewrite Henc. cbn [mbind Result_bind].
      rewrite Hrun. reflexivity. }
    rewrite Hprep. cbn. rewrite app_nil_r, (adapt_events_all _ _ Henc).
    split; reflexivity. }
  split; intros this.
  - apply (G _ OpenZeppelin this "res"). apply run_OpenZeppelin_getNonce.
  - apply (G _ Argent this "nonce"). apply run_Argent_getNonce.
Qed.

End Failures.

(** ** More on descriptors and on the sequence hashed by an Argent account *)

Section Descriptors.
Context {lib : StarknetLib} {plugin : Plugin}.

Lemma forEach_pushCall_parses calls st r :
  forEach pushCall calls st = Ok r -> forallb parses calls = true.
Proof.
  revert st. induction calls as [|c calls IH]; intros [ds raw] E; [reflexivity|].
  cbn [forEach] in E. cbn [forallb]. unfold parses at 1.
  destruct (BigInt_of_string (contractAddress c)) as [n|] eqn:En.
  - rewrite (pushCall_ok _ _ _ _ En) in E. cbn [is_ok]. exact (IH _ E).
  - unfold pushCall in E. rewrite En in E. discriminate.
Qed.

(** The two loops, of [handleMultiInteract] and of the Argent
    [getMessageHash], keep the same account of offsets and lengths. *)
Lemma fold_pushHashable calls :
  forall ds0 raw0 hashable0 ds raw,
    forEach pushCall calls (ds0, raw0) = Ok (ds0 ++ ds, raw) ->
    fold_left pushHashable calls (hashable0, raw0)
      = (hashable0 ++ concat (zip_with descriptor_items calls ds), raw).
Proof.
  induction calls as [|c calls IH]; intros ds0 raw0 hashable0 ds raw E.
  - cbn in E. injection E as E1 E2. subst raw.
    assert (ds = []) as ->.
    { apply (f_equal length) in E1. rewrite length_app in E1.
      destruct ds; [reflexivity | cbn in E1; lia]. }
    cbn. rewrite app_nil_r. reflexivity.
  - cbn [forEach] in E.
    destruct (BigInt_of_string (contractAddress c)) as [n|] eqn:En.
    2: { unfold pushCall in E. rewrite En in E. discriminate. }
    rewrite (pushCall_ok _ _ _ _ En) in E.
    set (d := {| to := n; selector := starknetKeccak (entrypoint c);
                 data_offset := length raw0; data_len := length (calldata c) |}) in *.
    change (forEach pushCall calls (ds0 ++ [d], raw0 ++ calldata c) = Ok (ds0 ++ ds, raw))
      in E.
    pose proof (forEach_pushCall_parses _ _ _ E) as Hp.
    destruct (forEach_pushCall calls Hp (ds0 ++ [d]) (raw0 ++ calldata c))
      as (ds' & Hrun & _).
    rewrite Hrun in E. injection E as E1 E2.
    rewrite <- app_assoc in E1. apply app_inv_head in E1. cbn in E1. subst ds.
    cbn [fold_left zip_with concat]. unfold pushHashable at 2.
    rewrite (IH (ds0 ++ [d]) (raw0 ++ calldata c) _ ds' raw).
    + rewrite <- app_assoc. reflexivity.
    + rewrite Hrun, E2. reflexivity.
Qed.

(** X9: the list hashed by [ArgentAccount.getMessageHash] for the calldata
    is made of the descriptors and of the flat calldata that
    [handleMultiInteract] sends: the number of calls, then for each call
    its address, selector, offset and length, then the length of the flat
    calldata, the flat calldata and the nonce; it has
    [4 * calls + |calldata| + 3] elements. *)
Theorem Argent_hashes_the_descriptors_sent (callArray : list Call) (nonce : string)
    (executeCallArray : list ExecuteCallParameters) (rawCalldata : list string) :
  forEach pushCall callArray ([], []) = Ok (executeCallArray, rawCalldata) ->
  hashable_of callArray nonce
    = BNumber (Z.of_nat (length callArray))
        :: concat (zip_with descriptor_items callArray executeCallArray)
        ++ BNumber (Z.of_nat (length rawCalldata))
        :: map BString rawCalldata ++ [BString nonce]
  /\ length (hashable_of callArray nonce)
     = (4 * length callArray + length rawCalldata + 3)%nat.
Proof.
  intros E. unfold hashable_of.
  rewrite (fold_pushHashable callArray [] [] _ executeCallArray rawCalldata E).
  split; [reflexivity|].
  pose proof (forEach_pushCall_parses _ _ _ E) as Hp.
  destruct (forEach_pushCall callArray Hp [] []) as (ds & Hrun & Hlen & _).
  rewrite Hrun in E. injection E as E1 E2. cbn in E1. subst ds.
  repeat (rewrite length_app || rewrite length_cons || rewrite length_map).
  change (length [BNumber (Z.of_nat (length callArray))]) with 1%nat.
  change (length [BString nonce]) with 1%nat.
  assert (Hc : forall (cs : list Call) (ds : list ExecuteCallParameters),
             length ds = length cs ->
             length (concat (zip_with descriptor_items cs ds)) = (4 * length cs)%nat).
  { induction cs as [|c cs IHc]; intros [|d ds] Hl; try discriminate; [reflexivity|].
    cbn [zip_with concat]. rewrite length_app.
    change (length (descriptor_items c d)) with 4%nat.
    rewrite (IHc ds) by (cbn in Hl; lia). rewrite length_cons. lia. }
  rewrite (Hc _ _ Hlen). cbn [length]. lia.
Qed.

Lemma tiles_bounds ds : forall pos total,
  tiles pos ds total ->
  Forall (fun d => (pos <= data_offset d /\ data_offset d + data_len d <= total)%nat) ds
  /\ (pos <= total)%nat.
Proof.
  induction ds as [|d ds IH]; intros pos total H.
  - cbn in H. subst. split; [constructor | lia].
  - cbn in H. destruct H as [Ho Ht]. destruct (IH _ _ Ht) as [Hf Hle].
    split; [|lia]. constructor; [lia|].
    eapply Forall_impl; [exact Hf|]. cbn. intros d' [H1 H2]. lia.
Qed.

Lemma tiles_next ds : forall pos total i d d',
  tiles pos ds total -> ds !! i = Some d -> ds !! S i = Some d' ->
  data_offset d' = (data_offset d + data_len d)%nat.
Proof.
  induction ds as [|d0 ds IH]; intros pos total i d d' H Hi Hsi; [discriminate|].
  cbn in H. destruct H as [Ho Ht]. destruct i as [|i].
  - cbn in Hi. injection Hi as <-. destruct ds as [|d1 ds]; [discriminate|].
    cbn in Hsi. injection Hsi as <-. cbn in Ht. destruct Ht as [Ho1 _]. lia.
  - cbn in Hi, Hsi. exact (IH _ _ _ _ _ Ht Hi Hsi).
Qed.

(** X10: the descriptors built by the loop of [handleMultiInteract] never
    point outside the flat calldata built with them; each starts where the
    one before it ends, so that the offsets never decrease, and the first
    starts at 0. *)
Theorem descriptors_in_bounds_and_ordered (callArray : list Call)
    (executeCallArray : list ExecuteCallParameters) (rawCalldata : list string) :
  forEach pushCall callArray ([], []) = Ok (executeCallArray, rawCalldata) ->
  Forall (fun d => (data_offset d + data_len d <= length rawCalldata)%nat) executeCallArray
  /\ (forall i d d',
        executeCallArray !! i = Some d -> executeCallArray !! S i = Some d' ->
        data_offset d' = (data_offset d + data_len d)%nat
        /\ (data_offset d <= data_offset d')%nat)
  /\ (forall d, head executeCallArray = Some d -> data_offset d = 0%nat).
Proof.
  intros E.
  pose proof (forEach_pushCall_parses _ _ _ E) as Hp.
  destruct (forEach_pushCall callArray Hp [] []) as (ds & Hrun & _ & Htiles & _).
  rewrite Hrun in E. injection E as E1 E2. cbn in E1, Htiles. subst ds rawCalldata.
  destruct (tiles_bounds _ _ _ Htiles) as [Hb _].
  split; [|split].
  - eapply Forall_impl; [exact Hb|]. cbn. intros d [_ H]. exact H.
  - intros i d d' Hi Hsi. pose proof (tiles_next _ _ _ _ _ _ Htiles Hi Hsi) as Hn.
    split; [exact Hn | lia].
  - intros d Hh. destruct executeCallArray as [|d0 ds]; [discriminate|].
    cbn in Hh. injection Hh as <-. cbn in Htiles. destruct Htiles as [Ho _]. exact Ho.
Qed.

End Descriptors.

(** ** The public methods and the caller's objects *)

Section Frames.
Context {lib : StarknetLib} {plugin : Plugin}.

Lemma extends_bind {A B} (m : M A) (k : A -> M B) w :
  extends w (m w).2 ->
  (forall a w1, extends w1 (k a w1).2) ->
  extends w ((m ≫= k) w).2.
Proof.
  intros Hm Hk. rewrite run_bind. destruct (m w) as [[a|e] w1]; cbn [snd] in *.
  - eapply extends_trans; [exact Hm | apply Hk].
  - exact Hm.
Qed.

Lemma rawOutputOptions_extends {T} {impl : AccountImpl T} (this : T) options w :
  extends w (rawOutputOptions this options w).2.
Proof.
  destruct (given w options) as [o|] eqn:Hg.
  - destruct (run_rawOutputOptions this options w o Hg) as (l & w1 & E & _ & Hx & _).
    rewrite E. exact Hx.
  - destruct options as [l|]; [|discriminate]. cbn [given] in Hg.
    unfold rawOutputOptions. cbn [default_options]. rewrite run_bind. cbn [ret].
    destruct (hasRawOutput this); [|apply extends_refl].
    rewrite run_bind. unfold copyWithBigint. rewrite run_bind. unfold load. rewrite Hg.
    apply extends_refl.
Qed.

Lemma decode_extends {B} (f : Response -> Result (list string))
    (g : list string -> Result B) r w1 :
  extends w1 ((response ← lift (f r); lift (g response)) w1).2.
Proof.
  rewrite run_bind, run_lift. destruct (f r); apply extends_refl.
Qed.

(** X11: the public methods [call], [multiCall], [invoke] and [estimateFee]
    of either kind of account leave every object the caller holds as it
    was, whatever they return or throw: the options they change
    ([rawOutput], [nonce], [maxFee], [signature]) are copies of their
    own. *)
Theorem public_methods_leave_caller_objects :
  both_kinds (fun T impl this =>
    forall toContract functionName calldata callParameters options w l o,
      heap w !! l = Some o ->
      heap (call this toContract functionName calldata options w).2 !! l = Some o
      /\ heap (multiCall this callParameters options w).2 !! l = Some o
      /\ heap (invoke this toContract functionName calldata options w).2 !! l = Some o
      /\ heap (estimateFee this toContract functionName calldata options w).2 !! l
         = Some o).
Proof.
  apply both_kinds_intro.
  intros T impl this (name & Hn) c fn cd cps options w l o Hl.
  split; [|split; [|split]].
  - apply (extends_bind (rawOutputOptions this options)); [apply rawOutputOptions_extends| |exact Hl].
    intros l1 w1. apply extends_bind; [|intros r w2; apply decode_extends].
    unfold interact. apply (multiInteract_extends _ _ _ _ _ _ _ Hn).
  - apply (extends_bind (rawOutputOptions this options)); [apply rawOutputOptions_extends| |exact Hl].
    intros l1 w1. apply extends_bind; [|intros r w2; apply decode_extends].
    apply (multiInteract_extends _ _ _ _ _ _ _ Hn).
  - unfold invoke. apply (extends_bind (interact this INVOKE c fn cd options));
      [|intros r w1; apply extends_refl|exact Hl].
    unfold interact. apply (multiInteract_extends _ _ _ _ _ _ _ Hn).
  - unfold estimateFee, interact. exact (multiInteract_extends _ _ _ _ _ _ _ Hn l o Hl).
Qed.

End Frames.

(** ** The guardian *)

Section GuardianProps.
Context {lib : StarknetLib} {plugin : Plugin}.

(** X12: [ArgentAccount.setGuardian] assigns the new guardian before it
    invokes [change_guardian]: from then on the account signs with its
    signer and with the new guardian key, also when the invocation throws.
    If the new public key is refused by [BigInt] nothing has been done on
    chain.  Otherwise the method dispatches at most one interaction, an
    invoke of [__execute__] on the account's contract, built from the call
    [change_guardian] and signed with the new guardian key already. *)
Theorem setGuardian_signs_with_new_guardian (this : ArgentAccount)
    (newGuardianPrivateKey : string) (w : World) :
  let kp := getKeyPair (toBN (substring_from 2 newGuardianPrivateKey)) in
  let this' := (ArgentAccount_setGuardian this newGuardianPrivateKey).1 in
  let run := (ArgentAccount_setGuardian this newGuardianPrivateKey).2 w in
  let account := address (starknetContract (argent_super this)) in
  (forall h,
     getSignatures this' h
       = Ok ((let '(r, s) := sign (keyPair (argent_super this)) h in [r; s])
             ++ (let '(r, s) := sign kp h in [r; s])))
  /\ (forall e, BigInt_of_string (getStarkKey kp) = Err e -> run = (Err e, w))
  /\ exists evs,
       trace run.2 = trace w ++ evs
       /\ ((is_ok run.1 = false /\ forallb not_dispatch evs = true)
           \/ exists h sigs args opts,
                List.filter is_dispatch evs
                  = [EvDispatch (internalCommand INVOKE) account "__execute__" args opts]
                /\ run.1 = interactor (starknetContract (argent_super this))
                             (internalCommand INVOKE) "__execute__" args opts
                /\ In (EvAdaptInput account "change_guardian") evs
                /\ In (EvMessageHash h) evs
                /\ getSignatures this' h = Ok sigs
                /\ opt_signature opts = Some (map JBigInt sigs)).
Proof.
  cbn zeta. split; [|split].
  - intros h. cbn [getSignatures Argent ArgentAccount_setGuardian fst].
    unfold ArgentAccount_getSignatures, signMultiCall.
    cbn [argent_super guardianKeyPair].
    destruct (sign (keyPair (argent_super this)) h).
    destruct (sign (getKeyPair (toBN (substring_from 2 newGuardianPrivateKey))) h).
    reflexivity.
  - intros e He. cbn [ArgentAccount_setGuardian snd]. rewrite run_bind, run_lift, He.
    reflexivity.
  - cbn [ArgentAccount_setGuardian fst snd]. rewrite run_bind, run_lift.
    destruct (BigInt_of_string _) as [pk|e].
    2: { exists []. cbn [fst snd]. rewrite app_nil_r. split; [reflexivity|].
         left. split; reflexivity. }
    cbn beta iota. unfold multiInvoke.
    set (this' := {| argent_super := argent_super this;
                     guardianPublicKey := _; guardianPrivateKey := _;
                     guardianKeyPair := _ |}).
    set (cp := {| toContract := _; functionName := "change_guardian";
                  cp_calldata := _ |}).
    assert (Hn : exists name, forall w0, getNonce this' w0
               = (chain_nonce (starknetContract (super this')) name,
                  logs w0 [EvView (address (starknetContract (super this'))) "get_nonce"])).
    { exists "nonce". apply run_Argent_getNonce. }
    destruct (multiInteract_cases this' INVOKE [cp] None w empty_options Hn eq_refl)
      as (evs & Ht & [[Hr Hd]|(pre & nonce & h & args & sigs & Hev & Hq & Hres & _ & Hs & Hg)]).
    + exists evs. split; [exact Ht|]. left. split; assumption.
    + exists evs. split; [exact Ht|]. right. subst evs.
      exists h, sigs, args, (with_signature sigs (adapted empty_options)).
      split; [|split; [exact Hres|split; [|split; [|split; [exact Hg|]]]]].
      * rewrite !List.filter_app,
          (filter_not_dispatch _ (quiet_not_dispatch _ Hq)),
          (filter_not_dispatch _ (quiet_not_dispatch _ (adapt_events_quiet [cp]))).
        reflexivity.
      * apply in_or_app; right; apply in_or_app; left. left. reflexivity.
      * apply in_or_app; right; apply in_or_app; right. left. reflexivity.
      * unfold with_signature. rewrite Hs. reflexivity.
Qed.

End GuardianProps.

(** ** Interactions that reach the contract *)

Section Success.
Context {lib : StarknetLib} {plugin : Plugin}.

Lemma toString16_of_version (v : Numeric) :
  exists s, toString16_of (Some v) = Ok s.
Proof. destruct v; eexists; reflexivity. Qed.

Lemma resolved_supplied o v rn evn :
  opt_nonce o = Some v -> BigInt v <> 0 ->
  resolved_nonce o rn evn = (Ok (Some (copy_numeric v)), []).
Proof.
  intros Ho Hnz. unfold resolved_nonce. cbn. rewrite Ho. cbn.
  rewrite (BigInt_truthy v Hnz). reflexivity.
Qed.

Lemma opt_signature_adapted o :
  opt_signature o = None -> opt_signature (adapted o) = None.
Proof. intros H. cbn. rewrite H. reflexivity. Qed.

Lemma with_signature_adapted o sigs :
  opt_signature o = None ->
  with_signature sigs (adapted o)
    = {| opt_maxFee := Some (JBigInt (fee o));
         opt_nonce := None;
         opt_signature := Some (map JBigInt sigs);
         opt_rawOutput := opt_rawOutput o;
         opt_other := opt_other o |}.
Proof.
  intros Hs. unfold with_signature. rewrite (opt_signature_adapted o Hs).
  unfold set_signature. rewrite opt_maxFee_adapted. reflexivity.
Qed.

(** X14: the complete run of an interaction of an OpenZeppelin account with
    a usable nonce in the options and no signature, for a nonce, a fee and
    a version that are not negative, the nonce and the version being
    bigints, numerals or numbers below [2 ^ 53]: the
    calls are adapted in order, the multicall hash is computed over the
    call array, the supplied nonce, the fee and the version, it is signed
    with the account's key, and [__execute__] is dispatched with the
    descriptors, the flat calldata, the nonce and the adapted options; the
    answer is the contract's. *)
Theorem OpenZeppelin_interaction_with_nonce (this : OpenZeppelinAccount)
    (choice : InteractChoice) (cps : list CallParameters) (options : option ref)
    (w : World) (o : Options) (v : Numeric) (callArray : list Call)
    (ds : list ExecuteCallParameters) (raw : list string) (version16 : string) :
  given w options = Some o ->
  opt_signature o = None ->
  opt_nonce o = Some v -> 0 < BigInt v -> prints_decimal v = true ->
  0 <= fee o ->
  0 <= BigInt (transactionVersion choice) ->
  prints_decimal (transactionVersion choice) = true ->
  mapM encode cps = Ok callArray ->
  forEach pushCall callArray ([], []) = Ok (ds, raw) ->
  toString16_of (Some (transactionVersion choice)) = Ok version16 ->
  let contract := starknetContract (oz_super this) in
  let h := hashMulticall (address contract) callArray (pretty (BigInt v))
             ("0x" +:+ toString16 (fee o)) ("0x" +:+ version16) in
  let signature := sign (keyPair (oz_super this)) h in
  let args := {| call_array := ds; args_calldata := raw;
                 args_nonce := pretty (BigInt v) |} in
  let opts := {| opt_maxFee := Some (JBigInt (fee o));
                 opt_nonce := None;
                 opt_signature := Some [JBigInt signature.1; JBigInt signature.2];
                 opt_rawOutput := opt_rawOutput o;
                 opt_other := opt_other o |} in
  (multiInteract this choice cps options w).1
    = interactor contract (internalCommand choice) "__execute__" args opts
  /\ trace (multiInteract this choice cps options w).2
     = trace w ++ map adapt_event cps
         ++ [EvMessageHash h; EvSign h;
             EvDispatch (internalCommand choice) (address contract) "__execute__"
               args opts].
Proof.
  intros Hg Hs Ho Hpos Hdec Hfee Hver Hvdec Henc Hrun Hv. cbn zeta.
  assert (Hnz : BigInt v <> 0) by lia.
  destruct (run_multiInteract this choice cps options w o _ _ Hg
              (run_OpenZeppelin_getNonce this)) as (w' & E & Ht & _).
  rewrite E. cbn [fst snd]. rewrite Ht. clear E Ht.
  unfold outcome. rewrite (resolved_supplied o v _ _ Ho Hnz).
  rewrite (opt_signature_adapted o Hs), opt_maxFee_adapted.
  assert (Hp : prepared this (address (starknetContract (super this))) cps
                 (Some (copy_numeric v)) (Some (JBigInt (fee o)))
                 (transactionVersion choice)
               = Ok (hashMulticall (address (starknetContract (oz_super this))) callArray
                       (pretty (BigInt v)) ("0x" +:+ toString16 (fee o))
                       ("0x" +:+ version16),
                     {| call_array := ds; args_calldata := raw;
                        args_nonce := pretty (BigInt v) |})).
  { unfold prepared. rewrite Henc. cbn [mbind Result_bind]. rewrite Hrun.
    cbn [mbind Result_bind]. unfold toString_of.
    rewrite toString_copy, (toString_decimal v Hdec), Hv. reflexivity. }
  rewrite Hp. cbn [fst snd hash_events]. rewrite (adapt_events_all _ _ Henc).
  cbn [getSignatures OpenZeppelin].
  unfold OpenZeppelinAccount_getSignatures, signMultiCall.
  destruct (sign (keyPair (oz_super this)) _) as [r1 s1].
  rewrite (with_signature_adapted o _ Hs). cbn [fst snd map].
  split; [reflexivity|]. rewrite <- !app_assoc. reflexivity.
Qed.

(** X15: the complete run of an interaction of an Argent account that holds
    the key pair of its guardian, without a nonce in the options and
    without a signature, for a fee, a version and a nonce on chain that
    are not negative (the version a bigint, a numeral or a number below
    [2 ^ 53]): the nonce is read from the chain, the calls are
    adapted in order, the transaction hash is computed over the prefix,
    the version, the account address, the selector of [__execute__], the
    hash of the calldata, the fee and the chain id, it is signed by the
    signer and then by the guardian, and [__execute__] is dispatched; the
    answer is the contract's. *)
Theorem Argent_interaction_with_chain_nonce (this : ArgentAccount)
    (guardian : KeyPair)
    (choice : InteractChoice) (cps : list CallParameters) (options : option ref)
    (w : World) (o : Options) (r : list (string * Z)) (k : Z) (callArray : list Call)
    (ds : list ExecuteCallParameters) (raw : list string) (version16 : string) :
  guardianKeyPair this = Some guardian ->
  given w options = Some o ->
  opt_signature o = None ->
  opt_nonce o = None ->
  0 <= fee o ->
  0 <= BigInt (transactionVersion choice) ->
  prints_decimal (transactionVersion choice) = true ->
  view (starknetContract (argent_super this)) "get_nonce" = Ok r ->
  entry "nonce" r = Some k -> 0 <= k ->
  mapM encode cps = Ok callArray ->
  forEach pushCall callArray ([], []) = Ok (ds, raw) ->
  toString16_of (Some (transactionVersion choice)) = Ok version16 ->
  starknetChainId (hre (argent_super this)) <> "" ->
  let contract := starknetContract (argent_super this) in
  let h := computeHashOnElements
             [TransactionHashPrefix_INVOKE;
              BString ("0x" +:+ version16);
              BString (address contract);
              BString (getSelectorFromName "__execute__");
              BString (computeHashOnElements (hashable_of callArray (pretty k)));
              BString ("0x" +:+ toString16 (fee o));
              BString (pretty (bytes_value (starknetChainId (hre (argent_super this)))))] in
  let signer := sign (keyPair (argent_super this)) h in
  let second := sign guardian h in
  let args := {| call_array := ds; args_calldata := raw; args_nonce := pretty k |} in
  let opts := {| opt_maxFee := Some (JBigInt (fee o));
                 opt_nonce := None;
                 opt_signature :=
                   Some [JBigInt signer.1; JBigInt signer.2;
                         JBigInt second.1; JBigInt second.2];
                 opt_rawOutput := opt_rawOutput o;
                 opt_other := opt_other o |} in
  (multiInteract this choice cps options w).1
    = interactor contract (internalCommand choice) "__execute__" args opts
  /\ trace (multiInteract this choice cps options w).2
     = trace w ++ EvView (address contract) "get_nonce" :: map adapt_event cps
         ++ [EvMessageHash h; EvSign h;
             EvDispatch (internalCommand choice) (address contract) "__execute__"
               args opts].
Proof.
  intros Hgk Hg Hs Ho Hfee Hver Hvdec Hview Hk Hkpos Henc Hrun Hv Hid. cbn zeta.
  destruct (run_multiInteract this choice cps options w o _ _ Hg
              (run_Argent_getNonce this)) as (w' & E & Ht & _).
  rewrite E. cbn [fst snd]. rewrite Ht. clear E Ht.
  assert (Hres : resolved_nonce o
                   (chain_nonce (starknetContract (argent_super this)) "nonce")
                   [EvView (address (starknetContract (argent_super this))) "get_nonce"]
                 = (Ok (Some (JBigInt k)),
                    [EvView (address (starknetContract (argent_super this))) "get_nonce"])).
  { unfold resolved_nonce, chain_nonce. cbn. rewrite Ho, Hview. cbn. rewrite Hk.
    reflexivity. }
  unfold outcome. rewrite Hres.
  rewrite (opt_signature_adapted o Hs), opt_maxFee_adapted.
  set (h := computeHashOnElements _).
  assert (Hp : prepared this (address (starknetContract (super this))) cps
                 (Some (JBigInt k)) (Some (JBigInt (fee o))) (transactionVersion choice)
               = Ok (h, {| call_array := ds; args_calldata := raw;
                           args_nonce := pretty k |})).
  { unfold prepared. rewrite Henc. cbn [mbind Result_bind]. rewrite Hrun.
    cbn [mbind Result_bind]. unfold toString_of, toString.
    rewrite Hv. cbn [toString16_of mbind Result_bind BigInt].
    cbn [getMessageHash Argent]. unfold ArgentAccount_getMessageHash, adaptChainId.
    destruct (starknetChainId (hre (argent_super this))) eqn:Ec; [contradiction|].
    reflexivity. }
  rewrite Hp. cbn [fst snd hash_events]. rewrite (adapt_events_all _ _ Henc).
  cbn [getSignatures Argent]. unfold ArgentAccount_getSignatures, signMultiCall.
  rewrite Hgk.
  destruct (sign (keyPair (argent_super this)) h) as [r1 s1].
  destruct (sign guardian h) as [r2 s2].
  cbn [mbind Result_bind app].
  rewrite (with_signature_adapted o _ Hs). cbn [fst snd map].
  split; [reflexivity|]. rewrite <- !app_assoc. reflexivity.
Qed.

End Success.

(** ** Binding to a deployed account *)

Section Binding.
Context {lib : StarknetLib} {plugin : Plugin}.

(** X13: [getAccountFromAddress] of either kind of account writes nothing:
    it allocates no object, asks for the artifacts of its account type
    first and then reads at most the stored public key ([get_public_key],
    resp. [get_signer]) of the contract; a failure of the artifact lookup
    or of that read is thrown as it is. *)
Theorem getAccountFromAddress_only_reads :
  (forall address_ privateKey_ hre_ w,
     only_reads (OpenZeppelinAccount_getAccountFromAddress address_ privateKey_ hre_ w) w
       OZ_ACCOUNT_TYPE_NAME "get_public_key"
     /\ (forall e,
           handleAccountContractArtifacts OZ_ACCOUNT_TYPE_NAME OZ_ACCOUNT_ARTIFACTS_NAME
             OZ_VERSION hre_ = Err e ->
           OpenZeppelinAccount_getAccountFromAddress address_ privateKey_ hre_ w
             = (Err e, logs w [EvArtifacts OZ_ACCOUNT_TYPE_NAME]))
     /\ (forall path factory contract e,
           handleAccountContractArtifacts OZ_ACCOUNT_TYPE_NAME OZ_ACCOUNT_ARTIFACTS_NAME
             OZ_VERSION hre_ = Ok path ->
           getContractFactory hre_ path = Ok factory ->
           getContractAt factory address_ = Ok contract ->
           view contract "get_public_key" = Err e ->
           (OpenZeppelinAccount_getAccountFromAddress address_ privateKey_ hre_ w).1
             = Err e))
  /\ (forall address_ privateKey_ hre_ w,
     only_reads (ArgentAccount_getAccountFromAddress address_ privateKey_ hre_ w) w
       ARGENT_ACCOUNT_TYPE_NAME "get_signer"
     /\ (forall e,
           handleAccountContractArtifacts ARGENT_ACCOUNT_TYPE_NAME
             ARGENT_ACCOUNT_ARTIFACTS_NAME ARGENT_VERSION hre_ = Err e ->
           ArgentAccount_getAccountFromAddress address_ privateKey_ hre_ w
             = (Err e, logs w [EvArtifacts ARGENT_ACCOUNT_TYPE_NAME]))
     /\ (forall path factory contract e,
           handleAccountContractArtifacts ARGENT_ACCOUNT_TYPE_NAME
             ARGENT_ACCOUNT_ARTIFACTS_NAME ARGENT_VERSION hre_ = Ok path ->
           getContractFactory hre_ path = Ok factory ->
           getContractAt factory address_ = Ok contract ->
           view contract "get_signer" = Err e ->
           (ArgentAccount_getAccountFromAddress address_ privateKey_ hre_ w).1 = Err e)).
Proof.
  split; intros address_ privateKey_ hre_ w.
  - split; [|split].
    + unfold only_reads, OpenZeppelinAccount_getAccountFromAddress.
      step (run_emit (EvArtifacts OZ_ACCOUNT_TYPE_NAME)). rewrite run_bind, run_lift.
      destruct (handleAccountContractArtifacts _ _ _ _) as [path|e]; cbn beta iota;
        [|split; [reflexivity | exists []; split; [reflexivity | left; reflexivity]]].
      rewrite run_bind, run_lift.
      destruct (getContractFactory hre_ path) as [factory|e]; cbn beta iota;
        [|split; [reflexivity | exists []; split; [reflexivity | left; reflexivity]]].
      rewrite run_bind, run_lift.
      destruct (getContractAt factory address_) as [contract|e]; cbn beta iota;
        [|split; [reflexivity | exists []; split; [reflexivity | left; reflexivity]]].
      step (run_emit (EvView (address contract) "get_public_key")).
      assert (Hout : forall (A : Type) (r : Result A),
                heap (r, logs (logs w [EvArtifacts OZ_ACCOUNT_TYPE_NAME])
                           [EvView (address contract) "get_public_key"]).2 = heap w
                /\ exists evs,
                     trace (r, logs (logs w [EvArtifacts OZ_ACCOUNT_TYPE_NAME])
                                 [EvView (address contract) "get_public_key"]).2
                       = trace w ++ EvArtifacts OZ_ACCOUNT_TYPE_NAME :: evs
                     /\ (evs = [] \/ exists a, evs = [EvView a "get_public_key"])).
      { intros A r. split; [reflexivity|]. eexists. split.
        - cbn [snd logs trace]. rewrite <- app_assoc. reflexivity.
        - right. eexists. reflexivity. }
      rewrite run_bind, run_lift.
      destruct (view contract "get_public_key") as [r|e]; cbn beta iota; [|apply Hout].
      rewrite run_bind, run_lift.
      destruct (BigInt_of_string _) as [pk|e]; cbn beta iota; [|apply Hout].
      destruct (differs pk (entry "res" r)); apply Hout.
    + intros e He. unfold OpenZeppelinAccount_getAccountFromAddress.
      step (run_emit (EvArtifacts OZ_ACCOUNT_TYPE_NAME)). rewrite run_bind, run_lift, He.
      reflexivity.
    + intros path factory contract e Ha Hf Hc Hv.
      unfold OpenZeppelinAccount_getAccountFromAddress.
      step (run_emit (EvArtifacts OZ_ACCOUNT_TYPE_NAME)).
      rewrite Ha. step (run_lift (Ok path)).
      rewrite Hf. step (run_lift (Ok factory)).
      rewrite Hc. step (run_lift (Ok contract)).
      step (run_emit (EvView (address contract) "get_public_key")).
      rewrite Hv. rewrite run_bind, run_lift. reflexivity.
  - split; [|split].
    + unfold only_reads, ArgentAccount_getAccountFromAddress.
      step (run_emit (EvArtifacts ARGENT_ACCOUNT_TYPE_NAME)). rewrite run_bind, run_lift.
      destruct (handleAccountContractArtifacts _ _ _ _) as [path|e]; cbn beta iota;
        [|split; [reflexivity | exists []; split; [reflexivity | left; reflexivity]]].
      rewrite run_bind, run_lift.
      destruct (getContractFactory hre_ path) as [factory|e]; cbn beta iota;
        [|split; [reflexivity | exists []; split; [reflexivity | left; reflexivity]]].
      rewrite run_bind, run_lift.
      destruct (getContractAt factory address_) as [contract|e]; cbn beta iota;
        [|split; [reflexivity | exists []; split; [reflexivity | left; reflexivity]]].
      step (run_emit (EvView (address contract) "get_signer")).
      assert (Hout : forall (A : Type) (r : Result A),
                heap (r, logs (logs w [EvArtifacts ARGENT_ACCOUNT_TYPE_NAME])
                           [EvView (address contract) "get_signer"]).2 = heap w
                /\ exists evs,
                     trace (r, logs (logs w [EvArtifacts ARGENT_ACCOUNT_TYPE_NAME])
                                 [EvView (address contract) "get_signer"]).2
                       = trace w ++ EvArtifacts ARGENT_ACCOUNT_TYPE_NAME :: evs
                     /\ (evs = [] \/ exists a, evs = [EvView a "get_signer"])).
      { intros A r. split; [reflexivity|]. eexists. split.
        - cbn [snd logs trace]. rewrite <- app_assoc. reflexivity.
        - right. eexists. reflexivity. }
      rewrite run_bind, run_lift.
      destruct (view contract "get_signer") as [r|e]; cbn beta iota; [|apply Hout].
      rewrite run_bind, run_lift.
      destruct (BigInt_of_string _) as [pk|e]; cbn beta iota; [|apply Hout].
      destruct (differs pk (entry "signer" r)); apply Hout.
    + intros e He. unfold ArgentAccount_getAccountFromAddress.
      step (run_emit (EvArtifacts ARGENT_ACCOUNT_TYPE_NAME)). rewrite run_bind, run_lift, He.
      reflexivity.
    + intros path factory contract e Ha Hf Hc Hv.
      unfold ArgentAccount_getAccountFromAddress.
      step (run_emit (EvArtifacts ARGENT_ACCOUNT_TYPE_NAME)).
      rewrite Ha. step (run_lift (Ok path)).
      rewrite Hf. step (run_lift (Ok factory)).
      rewrite Hc. step (run_lift (Ok contract)).
      step (run_emit (EvView (address contract) "get_signer")).
      rewrite Hv. rewrite run_bind, run_lift. reflexivity.
Qed.

End Binding.


(** ** The integrated devnet *)

Section DevnetProps.
Import Devnet.
Context {env : Env}.

(** X16: when [createIntegratedDevnet] returns a server, the configured
    host is [localhost] or [127.0.0.1]; the server is a venv devnet exactly
    when the configuration names a venv, and otherwise a dockerized devnet,
    which exists for the host [127.0.0.1] only, with the plugin's
    repository and the architecture tag of the configured (or default)
    version.  Host, free port, arguments and output settings are those of
    the configuration. *)
Theorem createIntegratedDevnet_server_kind (networks : Networks) (server : ExternalServer) :
  createIntegratedDevnet networks = inr server ->
  exists cfg host port,
    getNetwork INTEGRATED_DEVNET networks
      ("networks[" +:+ quote +:+ INTEGRATED_DEVNET +:+ quote +:+ "]") = inr cfg
    /\ hostname_of (or_string (url cfg) INTEGRATED_DEVNET_URL) = inr host
    /\ getFreePort = inr port
    /\ ((exists venvPath,
           truthy_string (venv cfg) = Some venvPath
           /\ (host = "localhost" \/ host = "127.0.0.1")
           /\ server = VenvDevnet venvPath host port (args cfg) (stdout cfg) (stderr cfg))
        \/ (truthy_string (venv cfg) = None
            /\ host = "127.0.0.1"
            /\ server = DockerDevnet DEVNET_DOCKER_REPOSITORY
                          (getImageTagByArch
                             (or_string (dockerizedVersion cfg)
                                DEFAULT_DEVNET_DOCKER_IMAGE_TAG))
                          host port (args cfg) (stdout cfg) (stderr cfg))).
Proof.
  unfold createIntegratedDevnet. intros E.
  destruct (getNetwork _ _ _) as [e|cfg] eqn:En; [discriminate|].
  destruct (hostname_of _) as [e|host] eqn:Eh; [discriminate|].
  destruct getFreePort as [e|port] eqn:Ep; [discriminate|].
  exists cfg, host, port. split; [reflexivity|]. split; [exact Eh|].
  split; [reflexivity|].
  destruct (String.eqb_spec host "localhost") as [Hl|Hl];
    destruct (String.eqb_spec host "127.0.0.1") as [Hd|Hd]; cbn [negb andb] in E;
    try discriminate.
  - subst host. discriminate.
  - destruct (truthy_string (venv cfg)) as [v|]; [|discriminate].
    injection E as <-. left. exists v. split; [reflexivity|]. split; [left; exact Hl|].
    reflexivity.
  - destruct (truthy_string (venv cfg)) as [v|]; injection E as <-.
    + left. exists v. split; [reflexivity|]. split; [right; exact Hd | reflexivity].
    + right. split; [reflexivity|]. split; [exact Hd | reflexivity].
Qed.

(** X17: [createIntegratedDevnet] refuses any host other than [localhost]
    and [127.0.0.1], whether or not a venv is configured, and refuses
    [localhost] for the dockerized devnet; both with a plugin error and
    only after a free port has been obtained. *)
Theorem createIntegratedDevnet_rejects_host (networks : Networks)
    (cfg : HardhatNetworkConfig) (host : string) (port : Port) :
  getNetwork INTEGRATED_DEVNET networks
    ("networks[" +:+ quote +:+ INTEGRATED_DEVNET +:+ quote +:+ "]") = inr cfg ->
  hostname_of (or_string (url cfg) INTEGRATED_DEVNET_URL) = inr host ->
  getFreePort = inr port ->
  (host <> "localhost" -> host <> "127.0.0.1" ->
   createIntegratedDevnet networks
     = inl (StarknetPluginError
              "Integrated devnet works only with localhost and 127.0.0.1"))
  /\ (host = "localhost" -> truthy_string (venv cfg) = None ->
      createIntegratedDevnet networks
        = inl (StarknetPluginError
                 "Dockerized integrated devnet works only with host 127.0.0.1")).
Proof.
  intros Hn Hh Hp. unfold createIntegratedDevnet. rewrite Hn, Hh, Hp. split.
  - intros Hl Hd. apply String.eqb_neq in Hl, Hd. rewrite Hl, Hd. reflexivity.
  - intros -> Hv. rewrite Hv. reflexivity.
Qed.

End DevnetProps.

(** ** The further statements in the small concrete settings *)

Section MoreScenarios.
Local Existing Instance Toy.lib.
Local Existing Instance Toy.plugin.

Lemma one_dispatch_on_own_contract_witness :
  given (Toy.world Toy.nonce5) (Some 1%positive) = Some Toy.nonce5
  /\ exists evs,
       trace (multiInteract Toy.oz Toy.invokeChoice Toy.calls (Some 1%positive)
                (Toy.world Toy.nonce5)).2 = trace (Toy.world Toy.nonce5) ++ evs
       /\ (length (List.filter is_dispatch evs) <= 1)%nat.
Proof.
  split; [reflexivity|].
  destruct (proj1 one_dispatch_on_own_contract Toy.oz Toy.invokeChoice Toy.calls
              (Some 1%positive) (Toy.world Toy.nonce5) Toy.nonce5)
    as (evs & Ht & [[Hf _]|(args & opts & Hf & _)]); [reflexivity| |];
    exists evs; (split; [exact Ht | rewrite Hf; cbn; lia]).
Defined.

Lemma dispatched_options_adapted_witness :
  given (Toy.world Toy.nonce5) (Some 1%positive) = Some Toy.nonce5
  /\ dispatched
       (trace (multiInteract Toy.guarded Toy.callChoice Toy.calls (Some 1%positive)
                 (Toy.world Toy.nonce5)).2) <> []
  /\ exists evs,
       trace (multiInteract Toy.guarded Toy.callChoice Toy.calls (Some 1%positive)
                (Toy.world Toy.nonce5)).2 = trace (Toy.world Toy.nonce5) ++ evs
       /\ Forall (fun opts => opt_nonce opts = None) (dispatched evs).
Proof.
  split; [reflexivity|]. split; [vm_compute; discriminate|].
  destruct (proj2 dispatched_options_adapted Toy.guarded Toy.callChoice Toy.calls
              (Some 1%positive) (Toy.world Toy.nonce5) Toy.nonce5)
    as (evs & Ht & Hf); [reflexivity|].
  exists evs. split; [exact Ht|]. eapply Forall_impl; [exact Hf|].
  intros opts [H _]. exact H.
Defined.

Lemma signed_is_sent_witness :
  given (Toy.world empty_options) None = Some empty_options
  /\ exists evs,
       trace (multiInteract Toy.oz Toy.invokeChoice Toy.calls None
                (Toy.world empty_options)).2 = trace (Toy.world empty_options) ++ evs
       /\ Forall (fun d => exists h sigs,
                    In (EvMessageHash h) evs
                    /\ getSignatures Toy.oz h = Ok sigs
                    /\ opt_signature d.2 = Some (map JBigInt sigs))
                 (dispatches evs).
Proof.
  split; [reflexivity|].
  destruct (proj1 signed_is_sent Toy.oz Toy.invokeChoice Toy.calls None
              (Toy.world empty_options) empty_options)
    as (evs & Ht & Hf); [reflexivity|].
  exists evs. split; [exact Ht|]. eapply Forall_impl; [exact Hf|].
  intros d (cs & v & h & sigs & _ & _ & _ & _ & Hin & Hg & Hs).
  exists h, sigs. repeat split; assumption.
Defined.


Lemma adapter_refusal_stops_handleMultiInteract_witness :
  forallb (fun c => is_ok (encode c)) [Cases.callFoo] = true
  /\ adaptInput Toy.contractA "nope" None = Err (External "unknown function: nope")
  /\ handleMultiInteract Toy.oz "0x111" [Cases.callFoo; Cases.callUnknown; Cases.callFoo]
       (Some (JBigInt 7)) (Some (JBigInt 0)) (JBigInt 0) (Toy.world empty_options)
     = (Err (External "unknown function: nope"),
        logs (Toy.world empty_options)
          [EvAdaptInput "0xa" "foo"; EvAdaptInput "0xa" "nope"]).
Proof.
  split; [reflexivity|]. split; [reflexivity|].
  apply (adapter_refusal_stops_handleMultiInteract Toy.oz "0x111" [Cases.callFoo]
           [Cases.callFoo] Cases.callUnknown); reflexivity.
Defined.

Lemma malformed_address_fails_after_encoding_witness :
  mapM encode [Cases.callFoo; Cases.callZ]
    = Ok [ {| contractAddress := "0xa"; entrypoint := "foo"; calldata := ["1"] |};
           {| contractAddress := "zz"; entrypoint := "f"; calldata := [] |} ]
  /\ exists c,
       parses c = false
       /\ handleMultiInteract Toy.oz "0x111" [Cases.callFoo; Cases.callZ]
            (Some (JBigInt 7)) (Some (JBigInt 0)) (JBigInt 0) (Toy.world empty_options)
          = (Err (SyntaxError ("Cannot convert " +:+ contractAddress c +:+ " to a BigInt")),
             logs (Toy.world empty_options)
               (map adapt_event [Cases.callFoo; Cases.callZ])).
Proof.
  split; [reflexivity|].
  destruct (malformed_address_fails_after_encoding Toy.oz "0x111"
              [Cases.callFoo; Cases.callZ] (Some (JBigInt 7)) (Some (JBigInt 0))
              (JBigInt 0) (Toy.world empty_options)
              [ {| contractAddress := "0xa"; entrypoint := "foo"; calldata := ["1"] |};
                {| contractAddress := "zz"; entrypoint := "f"; calldata := [] |} ])
    as (c & _ & Hc & Hrun); [reflexivity | reflexivity |].
  exists c. split; assumption.
Defined.

Lemma chain_read_failure_ends_interaction_witness :
  given (Toy.world empty_options) None = Some empty_options
  /\ view (starknetContract (oz_super Cases.offline)) "get_nonce"
     = Err (External "no such function: get_nonce")
  /\ (multiInteract Cases.offline Toy.invokeChoice Toy.calls None
        (Toy.world empty_options)).1 = Err (External "no such function: get_nonce").
Proof.
  split; [reflexivity|]. split; [reflexivity|].
  apply (proj1 chain_read_failure_ends_interaction Cases.offline Toy.invokeChoice
           Toy.calls None (Toy.world empty_options) empty_options); reflexivity.
Defined.

Lemma missing_nonce_entry_is_a_TypeError_witness :
  view (starknetContract (argent_super Cases.misread)) "get_nonce" = Ok [("res", 3)]
  /\ entry "nonce" [("res", 3)] = None
  /\ (multiInteract Cases.misread Toy.invokeChoice Toy.calls None
        (Toy.world empty_options)).1
     = Err (TypeError "Cannot read properties of undefined (reading 'toString')").
Proof.
  split; [reflexivity|]. split; [reflexivity|].
  apply (proj2 missing_nonce_entry_is_a_TypeError Cases.misread Toy.invokeChoice
           Toy.calls None (Toy.world empty_options) empty_options [("res", 3)]
           Toy.callArray); reflexivity.
Defined.

Lemma Argent_hashes_the_descriptors_sent_witness :
  length (hashable_of Toy.callArray "7") = 18%nat.
Proof.
  apply (Argent_hashes_the_descriptors_sent Toy.callArray "7"
           [ {| to := 10; selector := starknetKeccak "foo"; data_offset := 0;
                data_len := 1 |};
             {| to := 11; selector := starknetKeccak "bar"; data_offset := 1;
                data_len := 0 |};
             {| to := 10; selector := starknetKeccak "baz"; data_offset := 1;
                data_len := 2 |} ] ["1"; "2"; "3"]).
  reflexivity.
Defined.

Lemma descriptors_in_bounds_and_ordered_witness :
  exists ds,
    forEach pushCall Toy.callArray ([], []) = Ok (ds, ["1"; "2"; "3"])
    /\ Forall (fun d => data_offset d + data_len d <= 3)%nat ds.
Proof.
  eexists. split; [reflexivity|].
  apply (descriptors_in_bounds_and_ordered Toy.callArray _ ["1"; "2"; "3"]). reflexivity.
Defined.

Lemma public_methods_leave_caller_objects_witness :
  heap (Toy.world Toy.nonce5) !! 1%positive = Some Toy.nonce5
  /\ heap (call Toy.guarded Toy.contractA "foo" None (Some 1%positive)
             (Toy.world Toy.nonce5)).2 !! 1%positive = Some Toy.nonce5.
Proof.
  split; [reflexivity|].
  apply (proj2 public_methods_leave_caller_objects Toy.guarded Toy.contractA "foo" None
           Toy.calls (Some 1%positive) (Toy.world Toy.nonce5) 1%positive Toy.nonce5).
  reflexivity.
Defined.

Lemma OpenZeppelin_interaction_with_nonce_witness :
  (multiInteract Toy.oz Toy.invokeChoice Toy.calls (Some 1%positive)
     (Toy.world Toy.nonce5)).1
    = Ok (RespInvoke "0xabc")
  /\ dispatched_nonces
       (trace (multiInteract Toy.oz Toy.invokeChoice Toy.calls (Some 1%positive)
                 (Toy.world Toy.nonce5)).2)
     = ["5"]
  /\ length (trace (multiInteract Toy.oz Toy.invokeChoice Toy.calls (Some 1%positive)
                      (Toy.world Toy.nonce5)).2) = 6%nat.
Proof.
  destruct (OpenZeppelin_interaction_with_nonce Toy.oz Toy.invokeChoice Toy.calls
              (Some 1%positive) (Toy.world Toy.nonce5) Toy.nonce5 (JNumber 5)
              Toy.callArray
              [ {| to := 10; selector := starknetKeccak "foo"; data_offset := 0;
                   data_len := 1 |};
                {| to := 11; selector := starknetKeccak "bar"; data_offset := 1;
                   data_len := 0 |};
                {| to := 10; selector := starknetKeccak "baz"; data_offset := 1;
                   data_len := 2 |} ] ["1"; "2"; "3"] "0")
    as [Hr Ht];
    [reflexivity | reflexivity | reflexivity | vm_compute; reflexivity | reflexivity
    | vm_compute; discriminate | vm_compute; discriminate | reflexivity | reflexivity
    | reflexivity | reflexivity |].
  split; [rewrite Hr; reflexivity | split; rewrite Ht; reflexivity].
Defined.

Lemma Argent_interaction_with_chain_nonce_witness :
  guardianKeyPair Toy.guarded = Some (9 : @KeyPair Toy.lib)
  /\ (multiInteract Toy.guarded Toy.callChoice Toy.calls None
        (Toy.world empty_options)).1 = Ok (RespCall [("response", ["5"])])
  /\ dispatched_nonces
       (trace (multiInteract Toy.guarded Toy.callChoice Toy.calls None
                 (Toy.world empty_options)).2) = ["7"]
  /\ length (trace (multiInteract Toy.guarded Toy.callChoice Toy.calls None
                      (Toy.world empty_options)).2) = 7%nat.
Proof.
  split; [reflexivity|].
  destruct (Argent_interaction_with_chain_nonce Toy.guarded (9 : @KeyPair Toy.lib)
              Toy.callChoice Toy.calls None
              (Toy.world empty_options) empty_options [("res", 7); ("nonce", 7)] 7
              Toy.callArray
              [ {| to := 10; selector := starknetKeccak "foo"; data_offset := 0;
                   data_len := 1 |};
                {| to := 11; selector := starknetKeccak "bar"; data_offset := 1;
                   data_len := 0 |};
                {| to := 10; selector := starknetKeccak "baz"; data_offset := 1;
                   data_len := 2 |} ] ["1"; "2"; "3"]
              "100000000000000000000000000000000")
    as [Hr Ht];
    [reflexivity | reflexivity | reflexivity | reflexivity | vm_compute; discriminate
    | vm_compute; discriminate | reflexivity | reflexivity | reflexivity
    | vm_compute; discriminate | reflexivity | reflexivity | reflexivity
    | vm_compute; discriminate |].
  split; [rewrite Hr; reflexivity | split; rewrite Ht; reflexivity].
Defined.

Lemma setGuardian_signs_with_new_guardian_witness :
  getSignatures (ArgentAccount_setGuardian Toy.argent "0x9").1 "0x1234"
  = getSignatures Toy.guarded "0x1234".
Proof.
  rewrite (proj1 (setGuardian_signs_with_new_guardian Toy.argent "0x9"
                    (Toy.world empty_options)) "0x1234").
  reflexivity.
Defined.


Lemma getAccountFromAddress_only_reads_witness :
  only_reads
    (OpenZeppelinAccount_getAccountFromAddress "0x111" Toy.walletPrivateKey Toy.runtime
       (Toy.world empty_options))
    (Toy.world empty_options) OZ_ACCOUNT_TYPE_NAME "get_public_key".
Proof.
  apply (proj1 (proj1 getAccountFromAddress_only_reads "0x111" Toy.walletPrivateKey
                  Toy.runtime (Toy.world empty_options))).
Defined.

Lemma createIntegratedDevnet_server_kind_witness :
  @Devnet.createIntegratedDevnet Devnet.toyEnv
    [("integratedDevnet", Devnet.toyConfig None None)]
  = inr (@Devnet.DockerDevnet Devnet.toyEnv "shardlabs/starknet-devnet" "latest"
           "127.0.0.1" "5050" None None None)
  /\ exists cfg host port,
       @Devnet.hostname_of Devnet.toyEnv
         (Devnet.or_string (Devnet.url cfg) "http://127.0.0.1:5050") = inr host
       /\ @Devnet.getFreePort Devnet.toyEnv = inr port /\ host = "127.0.0.1".
Proof.
  split; [reflexivity|].
  destruct (@createIntegratedDevnet_server_kind Devnet.toyEnv
              [("integratedDevnet", Devnet.toyConfig None None)]
              (@Devnet.DockerDevnet Devnet.toyEnv "shardlabs/starknet-devnet" "latest"
                 "127.0.0.1" "5050" None None None) eq_refl)
    as (cfg & host & port & _ & Hh & Hp & [(v & _ & _ & Hs)|(_ & Hd & _)]).
  - discriminate Hs.
  - exists cfg, host, port. repeat split; assumption.
Defined.

Lemma createIntegratedDevnet_rejects_host_witness :
  @Devnet.createIntegratedDevnet Devnet.toyEnv
    [("integratedDevnet", Devnet.toyConfig (Some "http://example.org:5050") (Some "venv"))]
  = inl (Devnet.StarknetPluginError
           "Integrated devnet works only with localhost and 127.0.0.1").
Proof.
  apply (proj1 (@createIntegratedDevnet_rejects_host Devnet.toyEnv
                  [("integratedDevnet",
                    Devnet.toyConfig (Some "http://example.org:5050") (Some "venv"))]
                  (Devnet.toyConfig (Some "http://example.org:5050") (Some "venv"))
                  "example.org" "5050" eq_refl eq_refl eq_refl));
    vm_compute; discriminate.
Defined.

End MoreScenarios.
